(** * cn05: point-of-sale checkout and monthly reporting

    A shallow embedding of the computational core of four pages of the
    front-end:

    - [PosSales]           src/pages/pos/PosSales.tsx
    - [PosTransactions]    src/pages/pos/PosTransactions.tsx
    - [SalesRevenueReport] src/pages/admin/SalesRevenueReport.tsx
    - [FinancialDashboard] src/pages/admin/FinancialDashboard.tsx

    Conventions of the embedding.

    - React state is an explicit record; an event handler is a function
      from the state it closes over to the next state.
    - The document store is an explicit value threaded through the
      asynchronous handlers.  Every SDK call ([addDoc], [getDoc],
      [updateDoc], [getDocs]) may throw; which call throws is decided by
      an oracle of the host, so that the [try]/[catch]/[finally] paths of
      the source are all present in the model.
    - Amounts of money, quantities and stock levels are integers (yen and
      item counts), on which the arithmetic of JavaScript numbers is
      exact; they are values of [Z].  The value of [Number(cashAmount)]
      can in addition be [NaN].  The halved figures of the financial
      estimator are rationals.
    - Toasts are kept as a log in the state; only their title and variant
      are recorded.
    - A [Date] is its time value in milliseconds since the epoch.  The
      time zone of the browser is a function of the host, and the
      local-time methods of [Date] that date-fns calls are written out
      from their definitions in ECMAScript. *)

From stdpp Require Import gmap strings list fin_maps sorting.
From Stdlib Require Import Ascii ZArith QArith Qround Lia Lqa.

Close Scope Q_scope.

Set Default Proof Using "Type".

(* ===================================================================== *)
(** * JavaScript values used by the pages *)
(* ===================================================================== *)

Module Js.

(** A number that may be [NaN]: the result of [Number(s)] on the text
    of an input field, and of arithmetic on it. *)
Inductive number : Type :=
| NaN
| Num (z : Z).

(** [a < b]: false as soon as one side is [NaN]. *)
Definition lt (a b : number) : bool :=
  match a, b with
  | Num x, Num y => bool_decide (x < y)%Z
  | _, _ => false
  end.

(** [a - b]. *)
Definition sub (a b : number) : number :=
  match a, b with
  | Num x, Num y => Num (x - y)
  | _, _ => NaN
  end.

(** [a || b] on strings that may be [undefined]: the empty string is
    falsy. *)
Definition or_else (a : option string) (b : option string) : option string :=
  match a with
  | Some s => if decide (s = EmptyString) then b else Some s
  | None => b
  end.

(** [s.split(sep)[0]] for a one-character separator: the text before
    its first occurrence, the whole string when it does not occur. *)
Fixpoint split_head (sep : Ascii.ascii) (s : string) : string :=
  match s with
  | EmptyString => EmptyString
  | String c rest =>
      if decide (c = sep) then EmptyString else String c (split_head sep rest)
  end.

(** [Number(s)] on the texts the examples use: the empty string is 0,
    a run of decimal digits is its value, anything else is left to
    [NaN].  The theorems do not depend on this function: they are
    stated for an arbitrary coercion of the host. *)
Definition digit (c : Ascii.ascii) : option Z :=
  let n := Z.of_nat (Ascii.nat_of_ascii c) in
  if bool_decide (48 <= n <= 57)%Z then Some (n - 48)%Z else None.

Fixpoint digits (acc : Z) (s : string) : number :=
  match s with
  | EmptyString => Num acc
  | String c rest =>
      match digit c with
      | Some d => digits (10 * acc + d) rest
      | None => NaN
      end
  end.

Definition Number_dec (s : string) : number := digits 0 s.

End Js.

(* ===================================================================== *)
(** * PosSales.tsx: cart and checkout *)
(* ===================================================================== *)

Module PosSales.

Local Open Scope Z_scope.

(** ** Types *)

Record Product : Type := {
  p_id : string;
  p_name : string;
  p_price : Z;
  p_category : string;
  p_stock : Z
}.

Record CartItem : Type := {
  ci_id : string;
  ci_name : string;
  ci_price : Z;
  ci_quantity : Z;
  ci_category : string
}.

(** The object literal [transactionData] of [handleCheckout].  The two
    cash fields are present only when the spread
    [...(paymentMethod === 'Tunai' && {...})] contributes them. *)
Record TransactionData : Type := {
  td_items : list CartItem;
  td_total : Z;
  td_cashierName : string;
  td_cashierId : option string;
  td_timestamp : string;
  td_paymentMethod : string;
  td_customerName : string;
  td_cashAmount : option Js.number;
  td_changeAmount : option Js.number
}.

(** [{ id: transactionRef.id, ...transactionData }] *)
Record Transaction : Type := {
  t_id : string;
  t_data : TransactionData
}.

Record User : Type := {
  displayName : option string;
  email : option string;
  uid : string
}.

Record Toast : Type := {
  title : string;
  destructive : bool
}.

(** ** Component state *)

Record State : Type := {
  products : list Product;
  cart : list CartItem;
  isProcessing : bool;
  customerName : string;
  paymentMethod : string;
  cashAmount : string;
  recentTransactions : list Transaction;
  currentTransaction : option Transaction;
  showReceipt : bool;
  toasts : list Toast
}.

(** [useState] initial values. *)
Definition initialState : State := {|
  products := [];
  cart := [];
  isProcessing := false;
  customerName := "";
  paymentMethod := "Tunai";
  cashAmount := "";
  recentTransactions := [];
  currentTransaction := None;
  showReceipt := false;
  toasts := []
|}.

Definition setProducts (v : list Product) (s : State) : State :=
  {| products := v; cart := cart s; isProcessing := isProcessing s;
     customerName := customerName s; paymentMethod := paymentMethod s;
     cashAmount := cashAmount s; recentTransactions := recentTransactions s;
     currentTransaction := currentTransaction s; showReceipt := showReceipt s;
     toasts := toasts s |}.

Definition setCart (v : list CartItem) (s : State) : State :=
  {| products := products s; cart := v; isProcessing := isProcessing s;
     customerName := customerName s; paymentMethod := paymentMethod s;
     cashAmount := cashAmount s; recentTransactions := recentTransactions s;
     currentTransaction := currentTransaction s; showReceipt := showReceipt s;
     toasts := toasts s |}.

Definition setIsProcessing (v : bool) (s : State) : State :=
  {| products := products s; cart := cart s; isProcessing := v;
     customerName := customerName s; paymentMethod := paymentMethod s;
     cashAmount := cashAmount s; recentTransactions := recentTransactions s;
     currentTransaction := currentTransaction s; showReceipt := showReceipt s;
     toasts := toasts s |}.

Definition setCustomerName (v : string) (s : State) : State :=
  {| products := products s; cart := cart s; isProcessing := isProcessing s;
     customerName := v; paymentMethod := paymentMethod s;
     cashAmount := cashAmount s; recentTransactions := recentTransactions s;
     currentTransaction := currentTransaction s; showReceipt := showReceipt s;
     toasts := toasts s |}.

Definition setPaymentMethod (v : string) (s : State) : State :=
  {| products := products s; cart := cart s; isProcessing := isProcessing s;
     customerName := customerName s; paymentMethod := v;
     cashAmount := cashAmount s; recentTransactions := recentTransactions s;
     currentTransaction := currentTransaction s; showReceipt := showReceipt s;
     toasts := toasts s |}.

Definition setCashAmount (v : string) (s : State) : State :=
  {| products := products s; cart := cart s; isProcessing := isProcessing s;
     customerName := customerName s; paymentMethod := paymentMethod s;
     cashAmount := v; recentTransactions := recentTransactions s;
     currentTransaction := currentTransaction s; showReceipt := showReceipt s;
     toasts := toasts s |}.

Definition setRecentTransactions (v : list Transaction) (s : State) : State :=
  {| products := products s; cart := cart s; isProcessing := isProcessing s;
     customerName := customerName s; paymentMethod := paymentMethod s;
     cashAmount := cashAmount s; recentTransactions := v;
     currentTransaction := currentTransaction s; showReceipt := showReceipt s;
     toasts := toasts s |}.

Definition setCurrentTransaction (v : option Transaction) (s : State) : State :=
  {| products := products s; cart := cart s; isProcessing := isProcessing s;
     customerName := customerName s; paymentMethod := paymentMethod s;
     cashAmount := cashAmount s; recentTransactions := recentTransactions s;
     currentTransaction := v; showReceipt := showReceipt s;
     toasts := toasts s |}.

Definition setShowReceipt (v : bool) (s : State) : State :=
  {| products := products s; cart := cart s; isProcessing := isProcessing s;
     customerName := customerName s; paymentMethod := paymentMethod s;
     cashAmount := cashAmount s; recentTransactions := recentTransactions s;
     currentTransaction := currentTransaction s; showReceipt := v;
     toasts := toasts s |}.

(** [toast({ title, variant })]: appended to the log. *)
Definition toast (t : Toast) (s : State) : State :=
  {| products := products s; cart := cart s; isProcessing := isProcessing s;
     customerName := customerName s; paymentMethod := paymentMethod s;
     cashAmount := cashAmount s; recentTransactions := recentTransactions s;
     currentTransaction := currentTransaction s; showReceipt := showReceipt s;
     toasts := toasts s ++ [t] |}.

Definition warn (ttl : string) : Toast := {| title := ttl; destructive := true |}.
Definition info (ttl : string) : Toast := {| title := ttl; destructive := false |}.

(** ** Cart handlers *)

Definition withQuantity (item : CartItem) (q : Z) : CartItem :=
  {| ci_id := ci_id item; ci_name := ci_name item; ci_price := ci_price item;
     ci_quantity := q; ci_category := ci_category item |}.

(** [addToCart(product)] *)
Definition addToCart (product : Product) (s : State) : State :=
  if bool_decide (p_stock product <= 0) then
    toast (warn "Stok Habis") s
  else
    let prevCart := cart s in
    match List.find (fun item => bool_decide (ci_id item = p_id product)) prevCart with
    | Some existingItem =>
        if bool_decide (ci_quantity existingItem + 1 > p_stock product) then
          toast (warn "Stok Terbatas") s
        else
          setCart
            (map (fun item =>
                    if bool_decide (ci_id item = p_id product)
                    then withQuantity item (ci_quantity item + 1)
                    else item)
                 prevCart)
            s
    | None =>
        setCart
          (prevCart ++ [ {| ci_id := p_id product;
                            ci_name := p_name product;
                            ci_price := p_price product;
                            ci_quantity := 1;
                            ci_category := p_category product |} ])
          s
    end.

(** The body of the [map] callback of [updateQuantity], with the flag
    telling whether it raised the "Stok Terbatas" toast. *)
Definition updateItem (products : list Product) (id : string) (change : Z)
    (item : CartItem) : CartItem * bool :=
  if bool_decide (ci_id item = id) then
    let product := List.find (fun p => bool_decide (p_id p = id)) products in
    let newQuantity := ci_quantity item + change in
    if bool_decide (newQuantity < 1) then (item, false)
    else
      match product with
      | Some p =>
          if bool_decide (newQuantity > p_stock p) then (item, true)
          else (withQuantity item newQuantity, false)
      | None => (withQuantity item newQuantity, false)
      end
  else (item, false).

(** [updateQuantity(id, change)] *)
Definition updateQuantity (id : string) (change : Z) (s : State) : State :=
  let results := map (updateItem (products s) id change) (cart s) in
  let updatedCart := map fst results in
  let warned := List.filter snd results in
  fold_left (fun st _ => toast (warn "Stok Terbatas") st) warned
            (setCart updatedCart s).

(** [removeFromCart(id)] *)
Definition removeFromCart (id : string) (s : State) : State :=
  setCart (List.filter (fun item => negb (bool_decide (ci_id item = id))) (cart s)) s.

(** [cart.reduce((total, item) => total + (item.price * item.quantity), 0)] *)
Definition cartTotal (cart : list CartItem) : Z :=
  fold_left (fun total item => total + (ci_price item * ci_quantity item)) cart 0.

(** ** The document store and the host *)

(** A document of the [products] collection. *)
Record ProductDoc : Type := {
  d_name : string;
  d_price : Z;
  d_category : string;
  d_stock : Z;
  d_updated_at : option string
}.

(** The two collections the page touches, and the number of SDK calls
    issued so far. *)
Record Firestore : Type := {
  fs_products : gmap string ProductDoc;
  fs_pos_transactions : list Transaction;
  fs_calls : nat
}.

(** What the page takes from its environment: the coercion [Number];
    the oracle telling which SDK call rejects, for whatever reason the
    SDK has (network, permissions, data it refuses); the identifier the
    store assigns to the n-th document of a collection; the reading of
    the clock [new Date().toISOString()] while a handler runs. *)
Record Host : Type := {
  Number_ : string -> Js.number;
  sdk_throws : nat -> bool;
  autoId : nat -> string;
  now_iso : string
}.

(** An awaited computation: [None] is a thrown exception; the store
    keeps the writes made before it. *)
Definition IO (A : Type) : Type := Firestore -> option A * Firestore.

Definition ret {A : Type} (a : A) : IO A := fun fs => (Some a, fs).

Definition bind {A B : Type} (m : IO A) (k : A -> IO B) : IO B :=
  fun fs =>
    match m fs with
    | (Some a, fs') => k a fs'
    | (None, fs') => (None, fs')
    end.

Notation "'await' x ':=' m 'in' k" := (bind m (fun x => k))
  (at level 10, x name, m at level 100, k at level 200).

(** One SDK call: it is counted, and it rejects when the oracle says
    so, before touching the store. *)
Definition sdk {A : Type} (h : Host) (op : IO A) : IO A :=
  fun fs =>
    let fs1 := {| fs_products := fs_products fs;
                  fs_pos_transactions := fs_pos_transactions fs;
                  fs_calls := S (fs_calls fs) |} in
    if sdk_throws h (fs_calls fs) then (None, fs1) else op fs1.

(** [addDoc(collection(db, 'pos_transactions'), data)]: resolves to the
    identifier of the new document. *)
Definition addDoc (h : Host) (data : TransactionData) : IO string :=
  sdk h (fun fs =>
    let newId := autoId h (length (fs_pos_transactions fs)) in
    (Some newId,
     {| fs_products := fs_products fs;
        fs_pos_transactions :=
          fs_pos_transactions fs ++ [ {| t_id := newId; t_data := data |} ];
        fs_calls := fs_calls fs |})).

(** [getDoc(doc(db, 'products', id))]: [None] when [exists()] is false. *)
Definition getDoc (h : Host) (id : string) : IO (option ProductDoc) :=
  sdk h (fun fs => (Some (fs_products fs !! id), fs)).

(** [updateDoc(ref, { stock, updated_at })]: rejects on a missing
    document. *)
Definition updateDoc (h : Host) (id : string) (stock : Z) (updated_at : string)
  : IO unit :=
  sdk h (fun fs =>
    match fs_products fs !! id with
    | Some d =>
        (Some tt,
         {| fs_products :=
              <[ id := {| d_name := d_name d; d_price := d_price d;
                          d_category := d_category d; d_stock := stock;
                          d_updated_at := Some updated_at |} ]> (fs_products fs);
            fs_pos_transactions := fs_pos_transactions fs;
            fs_calls := fs_calls fs |})
    | None => (None, fs)
    end).

(** [getDocs(collection(db, 'products'))] with
    [snapshot.docs.map(doc => ({ id: doc.id, ...doc.data() }))]. *)
Definition getDocs_products (h : Host) : IO (list Product) :=
  sdk h (fun fs =>
    (Some (map (fun '(id, d) =>
                  {| p_id := id; p_name := d_name d; p_price := d_price d;
                     p_category := d_category d; p_stock := d_stock d |})
               (map_to_list (fs_products fs))),
     fs)).

(** [for (const x of l) { await body(x) }] *)
Fixpoint for_of {A : Type} (l : list A) (body : A -> IO unit) : IO unit :=
  match l with
  | [] => ret tt
  | x :: rest => await _ := body x in for_of rest body
  end.

(** ** Effects and checkout *)

(** The [fetchProducts] effect. *)
Definition fetchProducts (h : Host) (s : State) (fs : Firestore)
  : State * Firestore :=
  match getDocs_products h fs with
  | (Some productsData, fs') => (setProducts productsData s, fs')
  | (None, fs') => (toast (warn "Error") s, fs')
  end.

(** [user?.displayName || user?.email?.split('@')[0] || 'Kasir'] *)
Definition cashierNameOf (user : option User) : string :=
  let byName := match user with Some u => displayName u | None => None end in
  let byMail :=
    match user with
    | Some u => match email u with
                | Some e => Some (Js.split_head "@"%char e)
                | None => None
                end
    | None => None
    end in
  match Js.or_else (Js.or_else byName byMail) (Some "Kasir"%string) with
  | Some n => n
  | None => ""%string
  end.

(** Calculate change amount: [Number(cashAmount) - cartTotal]. *)
Definition changeAmount (h : Host) (s : State) : Js.number :=
  Js.sub (Number_ h (cashAmount s)) (Js.Num (cartTotal (cart s))).

(** The object literal [transactionData]. *)
Definition transactionData (h : Host) (user : option User) (s : State)
  : TransactionData :=
  let cash := bool_decide (paymentMethod s = "Tunai"%string) in
  {| td_items := cart s;
     td_total := cartTotal (cart s);
     td_cashierName := cashierNameOf user;
     td_cashierId := match user with Some u => Some (uid u) | None => None end;
     td_timestamp := now_iso h;
     td_paymentMethod := paymentMethod s;
     td_customerName :=
       if decide (customerName s = ""%string) then "Pelanggan"%string
       else customerName s;
     td_cashAmount := if cash then Some (Number_ h (cashAmount s)) else None;
     td_changeAmount := if cash then Some (changeAmount h s) else None |}.

(** The body of the loop "Update product stock". *)
Definition updateStock (h : Host) (item : CartItem) : IO unit :=
  await productDoc := getDoc h (ci_id item) in
  match productDoc with
  | Some d =>
      let currentStock := d_stock d in
      updateDoc h (ci_id item) (currentStock - ci_quantity item) (now_iso h)
  | None => ret tt
  end.

(** How a call of [handleCheckout] ended: at one of the two early
    [return]s, at the end of the [try] block, or in [catch]. *)
Inductive Outcome : Type :=
| Rejected
| Completed
| Failed.

(** The [try] block of [handleCheckout], from the state [s] the handler
    closes over. *)
Definition checkoutBody (h : Host) (user : option User) (s : State)
  : IO (State -> State) :=
  let data := transactionData h user s in
  await transactionRef_id := addDoc h data in
  await _ := for_of (cart s) (updateStock h) in
  let tx := {| t_id := transactionRef_id; t_data := data |} in
  ret (fun st =>
         toast (info "Transaksi Berhasil")
           (setCashAmount ""
              (setCustomerName ""
                 (setCart []
                    (setRecentTransactions (take 5 (tx :: recentTransactions st))
                       (setShowReceipt true
                          (setCurrentTransaction (Some tx) st))))))).

(** [handleCheckout()] *)
Definition handleCheckout (h : Host) (user : option User) (s : State)
    (fs : Firestore) : Outcome * State * Firestore :=
  if bool_decide (length (cart s) = 0%nat) then
    (Rejected, toast (warn "Keranjang Kosong") s, fs)
  else if bool_decide (paymentMethod s = "Tunai"%string)
          && Js.lt (Number_ h (cashAmount s)) (Js.Num (cartTotal (cart s))) then
    (Rejected, toast (warn "Pembayaran Kurang") s, fs)
  else
    let s1 := setIsProcessing true s in
    match checkoutBody h user s fs with
    | (Some updates, fs') => (Completed, setIsProcessing false (updates s1), fs')
    | (None, fs') =>
        (Failed, setIsProcessing false (toast (warn "Transaksi Gagal") s1), fs')
    end.

End PosSales.

(* ===================================================================== *)
(** * PosTransactions.tsx: the history filters *)
(* ===================================================================== *)

Module PosTransactions.

Local Open Scope Z_scope.

(** The fields of a stored transaction that the filters read. *)
Record Transaction : Type := {
  id : string;
  total : Z;
  cashierName : string;
  timestamp : string;
  paymentMethod : string;
  customerName : option string
}.

(** What the page takes from its environment.  A [Date] is its time
    value, in milliseconds since the epoch; [parseISO] gives [None] for
    an Invalid Date.  [LocalTZA t isUTC] is the offset of the browser's
    time zone in milliseconds, as the abstract operation of that name in
    ECMAScript: the offset in force at the instant [t] when [isUTC], and
    the offset at which the local time [t] is read otherwise (a local
    time that the clock shows twice, or skips, is read at the offset
    before the change).  [lowerIncludes a b] is
    [a.toLowerCase().includes(b.toLowerCase())]. *)
Record Host : Type := {
  parseISO : string -> option Z;
  LocalTZA : Z -> bool -> Z;
  lowerIncludes : string -> string -> bool
}.

Definition msPerDay : Z := 86400000.

(** ECMAScript [LocalTime(t)] and [UTC(t)]. *)
Definition LocalTime (h : Host) (t : Z) : Z := t + LocalTZA h t true.

Definition UTC (h : Host) (t : Z) : Z := t - LocalTZA h t false.

(** ECMAScript [Day(t)], [TimeWithinDay(t)], [MakeTime] and [MakeDate]. *)
Definition Day (t : Z) : Z := t / msPerDay.

Definition TimeWithinDay (t : Z) : Z := t mod msPerDay.

Definition MakeTime (hour min sec ms : Z) : Z :=
  hour * 3600000 + min * 60000 + sec * 1000 + ms.

Definition MakeDate (day time : Z) : Z := day * msPerDay + time.

(** [date.setHours(hour, min, sec, ms)]: the given time of day on the
    local day of [date], read back as an instant. *)
Definition setHours (h : Host) (date : Z) (hour min sec ms : Z) : Z :=
  UTC h (MakeDate (Day (LocalTime h date)) (MakeTime hour min sec ms)).

(** [date.setDate(date.getDate() + amount)]: [MakeDay] of the year and
    month of the local time and of a day of the month increased by
    [amount] is the day number of the local day increased by [amount];
    the time of day is kept. *)
Definition setDate_getDate_plus (h : Host) (date : Z) (amount : Z) : Z :=
  UTC h (MakeDate (Day (LocalTime h date) + amount)
                  (TimeWithinDay (LocalTime h date))).

(** date-fns [startOfDay]: [date.setHours(0, 0, 0, 0)]. *)
Definition startOfDay (h : Host) (date : Z) : Z :=
  setHours h date 0 0 0 0.

(** date-fns [endOfDay]: [date.setHours(23, 59, 59, 999)]. *)
Definition endOfDay (h : Host) (date : Z) : Z :=
  setHours h date 23 59 59 999.

(** date-fns [addDays]: nothing is done for an amount of 0. *)
Definition addDays (h : Host) (date : Z) (amount : Z) : Z :=
  if decide (amount = 0) then date
  else setDate_getDate_plus h date amount.

(** date-fns [subDays]: [addDays(date, -amount)]. *)
Definition subDays (h : Host) (date : Z) (amount : Z) : Z :=
  addDays h date (- amount).

(** date-fns [isWithinInterval(date, { start, end })]: both ends are
    included; an Invalid Date is in no interval.  The intervals of the
    filter start no later than they end in every zone whose days are in
    order (lemma [buckets_well_formed]). *)
Definition isWithinInterval (date : option Z) (start end_ : Z) : bool :=
  match date with
  | Some time => bool_decide (start <= time) && bool_decide (time <= end_)
  | None => false
  end.

(** "Apply search filter" *)
Definition applySearchFilter (h : Host) (searchTerm : string)
    (filtered : list Transaction) : list Transaction :=
  if decide (searchTerm = ""%string) then filtered
  else
    List.filter
      (fun transaction =>
         match customerName transaction with
         | Some n => lowerIncludes h n searchTerm
         | None => false
         end
         || lowerIncludes h (id transaction) searchTerm
         || lowerIncludes h (cashierName transaction) searchTerm)
      filtered.

(** "Apply date filter", with [today] the value of [new Date()]. *)
Definition applyDateFilter (h : Host) (dateFilter : string) (today : Z)
    (filtered : list Transaction) : list Transaction :=
  if decide (dateFilter <> "all"%string) then
    if decide (dateFilter = "today"%string) then
      List.filter
        (fun transaction =>
           let transactionDate := parseISO h (timestamp transaction) in
           isWithinInterval transactionDate (startOfDay h today) (endOfDay h today))
        filtered
    else if decide (dateFilter = "yesterday"%string) then
      let yesterday := subDays h today 1 in
      List.filter
        (fun transaction =>
           let transactionDate := parseISO h (timestamp transaction) in
           isWithinInterval transactionDate
             (startOfDay h yesterday) (endOfDay h yesterday))
        filtered
    else if decide (dateFilter = "week"%string) then
      let weekAgo := subDays h today 7 in
      List.filter
        (fun transaction =>
           let transactionDate := parseISO h (timestamp transaction) in
           isWithinInterval transactionDate (startOfDay h weekAgo) (endOfDay h today))
        filtered
    else if decide (dateFilter = "month"%string) then
      let monthAgo := subDays h today 30 in
      List.filter
        (fun transaction =>
           let transactionDate := parseISO h (timestamp transaction) in
           isWithinInterval transactionDate (startOfDay h monthAgo) (endOfDay h today))
        filtered
    else filtered
  else filtered.

(** The filtering effect: the value given to [setFilteredTransactions]. *)
Definition filterTransactions (h : Host) (searchTerm dateFilter : string)
    (today : Z) (transactions : list Transaction) : list Transaction :=
  applyDateFilter h dateFilter today (applySearchFilter h searchTerm transactions).

End PosTransactions.

(* ===================================================================== *)
(** * SalesRevenueReport.tsx: monthly orders and revenue *)
(* ===================================================================== *)

Module SalesRevenueReport.

Local Open Scope Z_scope.

(** The field of an order document that the report reads; [None] when
    the document has no [total_price]. *)
Record Order : Type := {
  total_price : option Z
}.

Record MonthlySales : Type := {
  totalOrders : Z;
  totalRevenue : Z
}.

Record ChartData : Type := {
  name : string;
  orders : Z;
  revenue : Z
}.

(** [currentDate] is used through its calendar month only
    ([startOfMonth], [endOfMonth], [subMonths], [format]); it is kept as
    the number of that month, 12 * year + month index. *)
Record State : Type := {
  currentDate : Z;
  isLoading : bool;
  salesData : MonthlySales;
  chartData : list ChartData
}.

Definition setIsLoading (v : bool) (s : State) : State :=
  {| currentDate := currentDate s; isLoading := v;
     salesData := salesData s; chartData := chartData s |}.

Definition setSalesData (v : MonthlySales) (s : State) : State :=
  {| currentDate := currentDate s; isLoading := isLoading s;
     salesData := v; chartData := chartData s |}.

Definition setChartData (v : list ChartData) (s : State) : State :=
  {| currentDate := currentDate s; isLoading := isLoading s;
     salesData := salesData s; chartData := v |}.

(** What the page takes from its environment: the answer of the store
    to the n-th query, asked for the orders created within a month
    ([None] when the query rejects); the n-th value of [Math.random()];
    the month label [format(date, 'MMM', { locale: id })]. *)
Record Host : Type := {
  orders_of : nat -> Z -> option (list Order);
  random : nat -> Q;
  format_MMM : Z -> string
}.

(** The queries and random draws made so far. *)
Record World : Type := {
  fetches : nat;
  draws : nat
}.

Definition M (A : Type) : Type := World -> option A * World.

Definition ret {A : Type} (a : A) : M A := fun w => (Some a, w).

Definition bind {A B : Type} (m : M A) (k : A -> M B) : M B :=
  fun w =>
    match m w with
    | (Some a, w') => k a w'
    | (None, w') => (None, w')
    end.

Notation "'await' x ':=' m 'in' k" := (bind m (fun x => k))
  (at level 10, x name, m at level 100, k at level 200).

(** [getDocs(query(ordersRef, where(...monthStart), where(...monthEnd)))] *)
Definition getDocs (h : Host) (month : Z) : M (list Order) :=
  fun w =>
    (orders_of h (fetches w) month,
     {| fetches := S (fetches w); draws := draws w |}).

(** [Math.floor(Math.random() * scale) + offset] *)
Definition randomInt (h : Host) (scale offset : Z) : M Z :=
  fun w =>
    (Some (Qfloor (random h (draws w) * inject_Z scale)%Q + offset),
     {| fetches := fetches w; draws := S (draws w) |}).

(** [order.total_price || 0] *)
Definition total_price_or_0 (order : Order) : Z :=
  match total_price order with
  | Some v => v
  | None => 0
  end.

(** The [snapshot.forEach] loop: the pair (orders, revenue) after it. *)
Definition aggregate (snapshot : list Order) : Z * Z :=
  fold_left
    (fun acc order => (fst acc + 1, snd acc + total_price_or_0 order))
    snapshot (0, 0).

(** [subMonths(date, i)] on month numbers. *)
Definition subMonths (date : Z) (i : Z) : Z := date - i.

(** One turn of the loop of the [try] block of [fetchChartData]. *)
Definition chartPoint (h : Host) (s : State) (i : Z) : M ChartData :=
  let monthDate := subMonths (currentDate s) i in
  let monthName := format_MMM h monthDate in
  await snapshot := getDocs h monthDate in
  let '(orders0, revenue0) := aggregate snapshot in
  if bool_decide (orders0 = 0) then
    await orders1 := randomInt h 50 5 in
    await revenue1 := randomInt h 1000000 50000 in
    ret {| name := monthName; orders := orders1; revenue := revenue1 |}
  else
    ret {| name := monthName; orders := orders0; revenue := revenue0 |}.

(** One turn of the loop of the [catch] block of [fetchChartData]. *)
Definition dummyPoint (h : Host) (s : State) (i : Z) : M ChartData :=
  let monthDate := subMonths (currentDate s) i in
  let monthName := format_MMM h monthDate in
  await orders1 := randomInt h 50 5 in
  await revenue1 := randomInt h 1000000 50000 in
  ret {| name := monthName; orders := orders1; revenue := revenue1 |}.

(** [for (...) { chartData.push(await point(i)) }] over the given
    values of [i]. *)
Fixpoint pushAll (point : Z -> M ChartData) (indices : list Z)
    (chartData : list ChartData) : M (list ChartData) :=
  match indices with
  | [] => ret chartData
  | i :: rest =>
      await p := point i in
      pushAll point rest (chartData ++ [p])
  end.

(** [for (let i = 5; i >= 0; i--)] *)
Definition lastSixMonths : list Z := [5; 4; 3; 2; 1; 0].

(** [fetchChartData()]: it never rejects. *)
Definition fetchChartData (h : Host) (s : State) (w : World) : State * World :=
  match pushAll (chartPoint h s) lastSixMonths [] w with
  | (Some chartData, w') => (setChartData chartData s, w')
  | (None, w') =>
      match pushAll (dummyPoint h s) lastSixMonths [] w' with
      | (Some dummyChartData, w'') => (setChartData dummyChartData s, w'')
      | (None, w'') => (s, w'')
      end
  end.

(** The effect [fetchMonthlyData()], run when [currentDate] changes. *)
Definition fetchMonthlyData (h : Host) (s : State) (w : World) : State * World :=
  let s1 := setIsLoading true s in
  match getDocs h (currentDate s) w with
  | (Some snapshot, w1) =>
      let '(totalOrders, totalRevenue) := aggregate snapshot in
      let s2 :=
        setSalesData {| totalOrders := totalOrders;
                        totalRevenue := totalRevenue |} s1 in
      let '(s3, w2) := fetchChartData h s2 w1 in
      (setIsLoading false s3, w2)
  | (None, w1) =>
      if bool_decide (totalOrders (salesData s) = 0) then
        match (await o := randomInt h 50 10 in
               await r := randomInt h 1000000 100000 in
               ret {| totalOrders := o; totalRevenue := r |}) w1 with
        | (Some dummy, w2) => (setIsLoading false (setSalesData dummy s1), w2)
        | (None, w2) => (setIsLoading false s1, w2)
        end
      else (setIsLoading false s1, w1)
  end.

End SalesRevenueReport.

(* ===================================================================== *)
(** * FinancialDashboard.tsx: the monthly estimate *)
(* ===================================================================== *)

Module FinancialDashboard.

Local Open Scope Z_scope.

(** The fields of an order document that the dashboard reads. *)
Record Order : Type := {
  total_price : option Z;
  shipping_fee : option Z
}.

Record MonthlyFinancials : Type := {
  revenue : Z;
  shippingFees : Z;
  grossProfit : Q;
  expenses : Z;
  netProfit : Q
}.

Record ChartData : Type := {
  c_name : string;
  c_revenue : Z;
  c_shippingFees : Z;
  c_grossProfit : Q;
  c_netProfit : Q
}.

(** [currentDate] is kept as the number of its calendar month, as in
    [SalesRevenueReport]. *)
Record State : Type := {
  currentDate : Z;
  isLoading : bool;
  financials : MonthlyFinancials;
  chartData : list ChartData
}.

Definition setIsLoading (v : bool) (s : State) : State :=
  {| currentDate := currentDate s; isLoading := v;
     financials := financials s; chartData := chartData s |}.

Definition setFinancials (v : MonthlyFinancials) (s : State) : State :=
  {| currentDate := currentDate s; isLoading := isLoading s;
     financials := v; chartData := chartData s |}.

Definition setChartData (v : list ChartData) (s : State) : State :=
  {| currentDate := currentDate s; isLoading := isLoading s;
     financials := financials s; chartData := v |}.

(** The answer of the store to the n-th query, asked for the orders
    created within a month, and the month label. *)
Record Host : Type := {
  orders_of : nat -> Z -> option (list Order);
  format_MMM : Z -> string
}.

(** The state threaded through the awaits: the number of queries made. *)
Definition M (A : Type) : Type := nat -> option A * nat.

Definition ret {A : Type} (a : A) : M A := fun n => (Some a, n).

Definition bind {A B : Type} (m : M A) (k : A -> M B) : M B :=
  fun n =>
    match m n with
    | (Some a, n') => k a n'
    | (None, n') => (None, n')
    end.

Notation "'await' x ':=' m 'in' k" := (bind m (fun x => k))
  (at level 10, x name, m at level 100, k at level 200).

Definition getDocs (h : Host) (month : Z) : M (list Order) :=
  fun n => (orders_of h n month, S n).

Definition or_0 (v : option Z) : Z :=
  match v with
  | Some x => x
  | None => 0
  end.

(** The [snapshot.forEach] loop: (revenue, shipping fees) after it. *)
Definition totals (snapshot : list Order) : Z * Z :=
  fold_left
    (fun acc order =>
       (fst acc + or_0 (total_price order), snd acc + or_0 (shipping_fee order)))
    snapshot (0, 0).

Definition subMonths (date : Z) (i : Z) : Z := date - i.

(** The body of the [try] block of [fetchMonthlyData] up to
    [setFinancials]: the record it stores. *)
Definition monthlyFinancials (snapshot : list Order) : MonthlyFinancials :=
  let '(totalRevenue, totalShippingFees) := totals snapshot in
  let productCost := (inject_Z (totalRevenue - totalShippingFees) * (1 # 2))%Q in
  let grossProfit := (inject_Z totalRevenue - productCost)%Q in
  let expenses := 50000 in
  let netProfit := (grossProfit - inject_Z expenses)%Q in
  {| revenue := totalRevenue;
     shippingFees := totalShippingFees;
     grossProfit := grossProfit;
     expenses := expenses;
     netProfit := netProfit |}.

(** One turn of the loop of [fetchChartData]. *)
Definition chartPoint (h : Host) (s : State) (i : Z) : M ChartData :=
  let monthDate := subMonths (currentDate s) i in
  let monthName := format_MMM h monthDate in
  await snapshot := getDocs h monthDate in
  let '(revenue, shippingFees) := totals snapshot in
  let productCost := (inject_Z (revenue - shippingFees) * (1 # 2))%Q in
  let grossProfit := (inject_Z revenue - productCost)%Q in
  let expenses := 50000 in
  let netProfit := (grossProfit - inject_Z expenses)%Q in
  ret {| c_name := monthName;
         c_revenue := revenue;
         c_shippingFees := shippingFees;
         c_grossProfit := grossProfit;
         c_netProfit := netProfit |}.

Fixpoint pushAll (point : Z -> M ChartData) (indices : list Z)
    (chartData : list ChartData) : M (list ChartData) :=
  match indices with
  | [] => ret chartData
  | i :: rest =>
      await p := point i in
      pushAll point rest (chartData ++ [p])
  end.

(** [for (let i = 5; i >= 0; i--)] *)
Definition lastSixMonths : list Z := [5; 4; 3; 2; 1; 0].

(** [fetchChartData()]: on a rejected query the chart is left as it
    was. *)
Definition fetchChartData (h : Host) (s : State) (n : nat) : State * nat :=
  match pushAll (chartPoint h s) lastSixMonths [] n with
  | (Some chartData, n') => (setChartData chartData s, n')
  | (None, n') => (s, n')
  end.

(** The effect [fetchMonthlyData()]. *)
Definition fetchMonthlyData (h : Host) (s : State) (n : nat) : State * nat :=
  let s1 := setIsLoading true s in
  match getDocs h (currentDate s) n with
  | (Some snapshot, n1) =>
      let s2 := setFinancials (monthlyFinancials snapshot) s1 in
      let '(s3, n2) := fetchChartData h s2 n1 in
      (setIsLoading false s3, n2)
  | (None, n1) => (setIsLoading false s1, n1)
  end.

End FinancialDashboard.

(* ===================================================================== *)
(** * Vocabulary of the properties *)
(* ===================================================================== *)

Module CartSession.

Import PosSales.
Local Open Scope Z_scope.

(** The three cart controls of the page. *)
Inductive Action : Type :=
| AddToCart (product : Product)
| UpdateQuantity (id : string) (change : Z)
| RemoveFromCart (id : string).

Definition step (a : Action) (s : State) : State :=
  match a with
  | AddToCart product => addToCart product s
  | UpdateQuantity id change => updateQuantity id change s
  | RemoveFromCart id => removeFromCart id s
  end.

Definition run (actions : list Action) (s : State) : State :=
  fold_left (fun st a => step a st) actions s.

(** The "add" buttons are rendered from the product list of the state. *)
Definition offered (s : State) (a : Action) : Prop :=
  match a with
  | AddToCart product => product ∈ products s
  | _ => True
  end.

(** The cart states of a session over the product list [catalog]. *)
Inductive reachable (catalog : list Product) : State -> Prop :=
| reachable_start s :
    products s = catalog -> cart s = [] -> reachable catalog s
| reachable_step s a :
    reachable catalog s -> offered s a -> reachable catalog (step a s).

(** The sum of [price * quantity] over the lines, as the specification
    writes it. *)
Fixpoint sumOfLines (lines : list CartItem) : Z :=
  match lines with
  | [] => 0
  | line :: rest => ci_price line * ci_quantity line + sumOfLines rest
  end.

(** The ceiling of a line: some product of the catalog has the line's
    identifier and at least its quantity in stock. *)
Definition withinStock (catalog : list Product) (item : CartItem) : Prop :=
  exists p, p ∈ catalog /\ p_id p = ci_id item /\
            1 <= ci_quantity item <= p_stock p.

(** The invariant of a cart session over [catalog]: the product list
    is the catalog, no two lines share an identifier, and every line is
    within its ceiling. *)
Definition cartInvariant (catalog : list Product) (s : State) : Prop :=
  products s = catalog /\
  NoDup (map ci_id (cart s)) /\
  Forall (withinStock catalog) (cart s).

End CartSession.

Module StockLedger.

Import PosSales.
Local Open Scope Z_scope.

(** The read-modify-write of one cart line on the [products]
    collection: the document of the line's product, when there is one,
    gets the stock it had minus the line's quantity. *)
Definition decrement (now : string) (docs : gmap string ProductDoc)
    (item : CartItem) : gmap string ProductDoc :=
  match docs !! ci_id item with
  | Some d =>
      <[ ci_id item := {| d_name := d_name d; d_price := d_price d;
                          d_category := d_category d;
                          d_stock := d_stock d - ci_quantity item;
                          d_updated_at := Some now |} ]> docs
  | None => docs
  end.

(** The quantity a cart asks of the product [P], all its lines for [P]
    together. *)
Fixpoint quantityOf (P : string) (lines : list CartItem) : Z :=
  match lines with
  | [] => 0
  | line :: rest =>
      (if decide (ci_id line = P) then ci_quantity line else 0)
      + quantityOf P rest
  end.

(** The stock the store holds for the product [P]. *)
Definition stockOf (fs : Firestore) (P : string) : option Z :=
  d_stock <$> (fs_products fs !! P).

(** No SDK call rejects. *)
Definition reliable (h : Host) : Prop := forall n, sdk_throws h n = false.

(** The document [addDoc] stores when [handleCheckout] runs from the
    state [s] on the store [fs]. *)
Definition stored (h : Host) (user : option User) (s : State)
    (fs : Firestore) : Transaction :=
  {| t_id := autoId h (length (fs_pos_transactions fs));
     t_data := transactionData h user s |}.

End StockLedger.

(* ===================================================================== *)
(** * Sample data *)
(* ===================================================================== *)

Module Sample.

Import PosSales CartSession.
Local Open Scope Z_scope.

(** A store with one product, two items in stock. *)
Definition teh : ProductDoc :=
  {| d_name := "Teh Botol"; d_price := 1000; d_category := "Minuman";
     d_stock := 2; d_updated_at := None |}.

Definition store : Firestore :=
  {| fs_products := {[ "sku-1"%string := teh ]};
     fs_pos_transactions := [];
     fs_calls := 0 |}.

(** A host on which no SDK call rejects. *)
Definition host : Host :=
  {| Number_ := Js.Number_dec;
     sdk_throws := fun _ => false;
     autoId := fun n => String (Ascii.ascii_of_nat (65 + n)) "";
     now_iso := "2024-03-15T10:30:00.000Z" |}.

Definition product : Product :=
  {| p_id := "sku-1"; p_name := "Teh Botol"; p_price := 1000;
     p_category := "Minuman"; p_stock := 2 |}.

(** The cashier who is signed in. *)
Definition kasir : User :=
  {| displayName := None; email := Some "budi@toko.example"%string;
     uid := "u-1" |}.

Definition catalog : list Product := [product].

(** The page after the product list was fetched. *)
Definition opened : State := setProducts catalog initialState.

(** Two items of the product in the cart. *)
Definition twoInCart : State := addToCart product (addToCart product opened).

(** 5000 typed in the cash field, then a first checkout. *)
Definition paid : State := setCashAmount "5000" twoInCart.

Definition firstSale : Outcome * State * Firestore :=
  handleCheckout host (Some kasir) paid store.

(** Without reloading the page: two more items, 5000 again, and a
    second checkout on the store the first one left. *)
Definition secondCart : State :=
  addToCart product (addToCart product (setCashAmount "5000" firstSale.1.2)).

Definition secondSale : Outcome * State * Firestore :=
  handleCheckout host (Some kasir) secondCart firstSale.2.

(** The same cart paid by card. *)
Definition byCard : State := setPaymentMethod "Non-Tunai" twoInCart.

End Sample.

Module SampleHistory.

Import PosTransactions.
Local Open Scope Z_scope.

(** 15 March 2024, 10:30:00.000 UTC. *)
Definition now : Z := 1710498600000.

(** A host seven hours east of UTC all year (Asia/Jakarta) that reads
    one timestamp. *)
Definition host : Host :=
  {| parseISO := fun text =>
       if decide (text = "2024-03-15T10:30:00.000Z"%string) then Some now
       else None;
     LocalTZA := fun _ _ => 7 * 3600000;
     lowerIncludes := fun _ _ => false |}.

Definition sale : Transaction :=
  {| id := "A"; total := 2000; cashierName := "Kasir";
     timestamp := "2024-03-15T10:30:00.000Z"; paymentMethod := "Tunai";
     customerName := Some "Pelanggan"%string |}.

(** 7 April 2024, 03:00:00.000 UTC: the instant at which the clocks of
    America/Santiago went from 24:00 of Saturday, three hours west of
    UTC, back to 23:00, four hours west. *)
Definition clocksBack : Z := 1712458800000.

(** Half an hour later: 23:30 of Saturday for the second time. *)
Definition secondHalfPastEleven : Z := 1712460600000.

(** The host in America/Santiago, as its clock goes between the changes
    of September 2023 and September 2024.  The local times from 23:00 to
    24:00 of that Saturday come twice and are read at the offset before
    the change. *)
Definition santiago : Host :=
  {| parseISO := fun text =>
       if decide (text = "2024-04-07T03:30:00.000Z"%string)
       then Some secondHalfPastEleven
       else None;
     LocalTZA := fun t isUTC =>
       if isUTC
       then if decide (t < clocksBack) then -3 * 3600000 else -4 * 3600000
       else if decide (t < clocksBack - 3 * 3600000) then -3 * 3600000
            else -4 * 3600000;
     lowerIncludes := fun _ _ => false |}.

(** Noon of the Sunday that follows, 16:00:00.000 UTC. *)
Definition sundayNoon : Z := 1712505600000.

Definition lateSale : Transaction :=
  {| id := "B"; total := 2000; cashierName := "Kasir";
     timestamp := "2024-04-07T03:30:00.000Z"; paymentMethod := "Tunai";
     customerName := Some "Pelanggan"%string |}.

End SampleHistory.

Module Buckets.

Import SalesRevenueReport.
Local Open Scope Z_scope.

(** The sum of the [total_price] values of the fetched orders, a
    missing one counted as 0. *)
Fixpoint revenueSum (snapshot : list Order) : Z :=
  match snapshot with
  | [] => 0
  | order :: rest => default 0 (total_price order) + revenueSum rest
  end.

(** Every query is answered. *)
Definition answers (h : Host) : Prop :=
  forall n month, is_Some (orders_of h n month).

(** The point [pt] of the chart stands for the month [i] months before
    the selected one, fetched by the query number [n]: it carries the
    label of that month; when orders were fetched, their number and
    their revenue sum; when none was, two figures made from consecutive
    values of [Math.random()]. *)
Definition charted (h : Host) (s : State) (n : nat) (i : Z) (pt : ChartData)
  : Prop :=
  name pt = format_MMM h (currentDate s - i) /\
  forall snapshot,
    orders_of h n (currentDate s - i) = Some snapshot ->
    (snapshot <> [] ->
     orders pt = Z.of_nat (length snapshot) /\
     revenue pt = revenueSum snapshot) /\
    (snapshot = [] ->
     exists d : nat,
       orders pt = Qfloor (random h d * inject_Z 50)%Q + 5 /\
       revenue pt = Qfloor (random h (S d) * inject_Z 1000000)%Q + 50000).

End Buckets.

Module SampleReport.

Import SalesRevenueReport.
Local Open Scope Z_scope.

(** March 2024. *)
Definition march : Z := 12 * 2024 + 2.

(** Three orders in March 2024, one of them without a total; no order
    in any other month.  [Math.random()] gives one half. *)
Definition host : Host :=
  {| orders_of := fun _ month =>
       if decide (month = march)
       then Some [ {| total_price := Some 1000 |};
                   {| total_price := None |};
                   {| total_price := Some 500 |} ]
       else Some [];
     random := fun _ => (1 # 2)%Q;
     format_MMM := fun _ => "Mar"%string |}.

Definition opened : State :=
  {| currentDate := march; isLoading := true;
     salesData := {| totalOrders := 0; totalRevenue := 0 |};
     chartData := [] |}.

Definition world : World := {| fetches := 0; draws := 0 |}.

End SampleReport.

Module Estimates.

Import FinancialDashboard.
Local Open Scope Z_scope.

(** The sums of the [total_price] and of the [shipping_fee] values of
    the fetched orders, a missing value counted as 0. *)
Fixpoint revenueOf (snapshot : list Order) : Z :=
  match snapshot with
  | [] => 0
  | order :: rest => default 0 (total_price order) + revenueOf rest
  end.

Fixpoint shippingOf (snapshot : list Order) : Z :=
  match snapshot with
  | [] => 0
  | order :: rest => default 0 (shipping_fee order) + shippingOf rest
  end.

(** The estimate as the specification writes it:
    productCost = (revenue - shippingFees) * 0.5,
    grossProfit = revenue - productCost,
    netProfit = grossProfit - 50000. *)
Definition estimated (revenue shippingFees : Z) (grossProfit netProfit : Q)
  : Prop :=
  let productCost := ((inject_Z revenue - inject_Z shippingFees) * (1 # 2))%Q in
  (grossProfit == inject_Z revenue - productCost)%Q /\
  (netProfit == grossProfit - inject_Z 50000)%Q.

(** Every query is answered. *)
Definition answers (h : Host) : Prop :=
  forall n month, is_Some (orders_of h n month).

(** The point [pt] of the chart is the estimate for the orders fetched
    by the query number [n] for the month [i] months before the
    selected one. *)
Definition charted (h : Host) (s : State) (n : nat) (i : Z) (pt : ChartData)
  : Prop :=
  c_name pt = format_MMM h (currentDate s - i) /\
  exists snapshot,
    orders_of h n (currentDate s - i) = Some snapshot /\
    c_revenue pt = revenueOf snapshot /\
    c_shippingFees pt = shippingOf snapshot /\
    estimated (c_revenue pt) (c_shippingFees pt)
              (c_grossProfit pt) (c_netProfit pt).

End Estimates.

Module SampleFinance.

Import FinancialDashboard.
Local Open Scope Z_scope.

Definition march : Z := 12 * 2024 + 2.

(** Two orders in March 2024, none in any other month. *)
Definition host : Host :=
  {| orders_of := fun _ month =>
       if decide (month = march)
       then Some [ {| total_price := Some 120000; shipping_fee := Some 20000 |};
                   {| total_price := Some 80000; shipping_fee := None |} ]
       else Some [];
     format_MMM := fun _ => "Mar"%string |}.

Definition opened : State :=
  {| currentDate := march; isLoading := true;
     financials := {| revenue := 0; shippingFees := 0; grossProfit := 0%Q;
                      expenses := 0; netProfit := 0%Q |};
     chartData := [] |}.

End SampleFinance.

(* ===================================================================== *)
(** * PosSales.tsx: the rest of the page *)
(* ===================================================================== *)

Module PosSalesPage.

Import PosSales.
Local Open Scope Z_scope.

(** [a >= b] on numbers: false as soon as one side is [NaN]. *)
Definition ge (a b : Js.number) : bool :=
  match a, b with
  | Js.Num x, Js.Num y => bool_decide (y <= x)
  | _, _ => false
  end.

(** The [disabled] attribute of the checkout button:
    [isProcessing || cart.length === 0 ||
     (paymentMethod === 'Tunai' && Number(cashAmount) < cartTotal)]. *)
Definition checkoutDisabled (h : Host) (s : State) : bool :=
  isProcessing s
  || bool_decide (length (cart s) = 0%nat)
  || (bool_decide (paymentMethod s = "Tunai"%string)
      && Js.lt (Number_ h (cashAmount s)) (Js.Num (cartTotal (cart s)))).

(** Whether the line "Kembalian" is rendered under the cash field:
    [Number(cashAmount) >= cartTotal]. *)
Definition changeShown (h : Host) (s : State) : bool :=
  ge (Number_ h (cashAmount s)) (Js.Num (cartTotal (cart s))).

(** [new Date(t.timestamp).getTime()], given the reading [getTime] of a
    timestamp: [NaN] for a text that is not a date. *)
Definition timeOf (getTime : string -> Js.number) (t : Transaction)
  : Js.number :=
  getTime (td_timestamp (t_data t)).

(** The comparison function of the sort,
    [(a, b) => new Date(b.timestamp).getTime() -
               new Date(a.timestamp).getTime()]. *)
Definition byTimeDesc (getTime : string -> Js.number) (a b : Transaction)
  : Js.number :=
  Js.sub (timeOf getTime b) (timeOf getTime a).

(** ECMAScript [SortCompare(x, y)] for a comparison function: its
    result, with [NaN] taken as +0. *)
Definition SortCompare {A : Type} (comparefn : A -> A -> Js.number)
    (x y : A) : Z :=
  match comparefn x y with
  | Js.Num v => v
  | Js.NaN => 0
  end.

(** [data.sort(comparefn)].  The sort is stable.  It is written as an
    insertion from the right end: an element goes behind those that
    [SortCompare] puts before it.  Where the comparison function is a
    consistent comparator, as [byTimeDesc] is on timestamps that can all
    be read, the sorted list is the same for every engine; where it is
    not, the order is left to the engine, and this is one of the orders
    it may give. *)
Fixpoint insertSorted {A : Type} (comparefn : A -> A -> Js.number) (x : A)
    (sorted : list A) : list A :=
  match sorted with
  | [] => [x]
  | y :: rest =>
      if bool_decide (SortCompare comparefn x y > 0)
      then y :: insertSorted comparefn x rest
      else x :: y :: rest
  end.

Definition sort {A : Type} (comparefn : A -> A -> Js.number) (data : list A)
  : list A :=
  foldr (insertSorted comparefn) [] data.

(** [getDocs(collection(db, 'pos_transactions'))], in the order in which
    the store lists the documents. *)
Definition getDocs_transactions (h : Host) : IO (list Transaction) :=
  sdk h (fun fs => (Some (fs_pos_transactions fs), fs)).

(** The [fetchRecentTransactions] effect: on a rejected query the list is
    left as it was (the error is only logged). *)
Definition fetchRecentTransactions (h : Host) (getTime : string -> Js.number)
    (s : State) (fs : Firestore) : State * Firestore :=
  match getDocs_transactions h fs with
  | (Some transactionsData, fs') =>
      (setRecentTransactions
         (take 5 (sort (byTimeDesc getTime) transactionsData)) s,
       fs')
  | (None, fs') => (s, fs')
  end.

(** Two product documents that differ at most in stock and in
    modification time. *)
Definition sameProduct (d' d : ProductDoc) : Prop :=
  d_name d' = d_name d /\ d_price d' = d_price d /\
  d_category d' = d_category d.

(** The timestamp of a transaction can be read as a date. *)
Definition readable (getTime : string -> Js.number) (t : Transaction) : Prop :=
  exists time, timeOf getTime t = Js.Num time.

(** A transaction is at least as new as another, both of a readable
    instant. *)
Definition notOlder (getTime : string -> Js.number) (t u : Transaction)
  : Prop :=
  exists a b, timeOf getTime t = Js.Num a /\ timeOf getTime u = Js.Num b /\
              b <= a.

(** The transaction is of the instant [time]. *)
Definition atInstant (getTime : string -> Js.number) (time : Z)
    (t : Transaction) : bool :=
  match timeOf getTime t with
  | Js.Num a => bool_decide (a = time)
  | Js.NaN => false
  end.

(** A line of the cart is a copy of a product of the catalog. *)
Definition copiedFrom (catalog : list Product) (item : CartItem) : Prop :=
  exists p, p ∈ catalog /\ p_id p = ci_id item /\
            ci_name item = p_name p /\ ci_price item = p_price p /\
            ci_category item = p_category p.

End PosSalesPage.

Module SamplePage.

Import PosSales.
Local Open Scope Z_scope.

(** A second product, and a cart with a line of each. *)
Definition kopi : ProductDoc :=
  {| d_name := "Kopi"; d_price := 500; d_category := "Minuman";
     d_stock := 5; d_updated_at := None |}.

Definition store : Firestore :=
  {| fs_products := <[ "sku-2"%string := kopi ]> (fs_products Sample.store);
     fs_pos_transactions := [];
     fs_calls := 0 |}.

Definition product2 : Product :=
  {| p_id := "sku-2"; p_name := "Kopi"; p_price := 500;
     p_category := "Minuman"; p_stock := 5 |}.

Definition catalog : list Product := [Sample.product; product2].

Definition basket : State :=
  setPaymentMethod "Non-Tunai"
    (addToCart product2
       (addToCart Sample.product (setProducts catalog initialState))).

(** A host whose fourth SDK call rejects: the write of the second
    line's stock is never reached. *)
Definition flakyHost : Host :=
  {| Number_ := Js.Number_dec;
     sdk_throws := fun n => bool_decide (n = 3%nat);
     autoId := autoId Sample.host;
     now_iso := now_iso Sample.host |}.

Definition failedSale : Outcome * State * Firestore :=
  handleCheckout flakyHost (Some Sample.kasir) basket store.

(** After the first sale of the samples, one more item is put into the
    cart and nothing is typed in the cash field. *)
Definition nextCustomer : list CartSession.Action :=
  [CartSession.AddToCart Sample.product].

(** The line of the sample cart. *)
Definition line : CartItem :=
  {| ci_id := "sku-1"; ci_name := "Teh Botol"; ci_price := 1000;
     ci_quantity := 2; ci_category := "Minuman" |}.

(** Timestamps read as numbers of seconds, for the samples. *)
Definition seconds (text : string) : Js.number := Js.Number_dec text.

Definition sale (id time : string) : Transaction :=
  {| t_id := id;
     t_data := {| td_items := []; td_total := 0; td_cashierName := "Kasir";
                  td_cashierId := None; td_timestamp := time;
                  td_paymentMethod := "Non-Tunai"; td_customerName := "Pelanggan";
                  td_cashAmount := None; td_changeAmount := None |} |}.

Definition history : Firestore :=
  {| fs_products := ∅;
     fs_pos_transactions :=
       [ sale "a" "10"; sale "b" "30"; sale "c" "20"; sale "d" "60";
         sale "e" "50"; sale "f" "40"; sale "g" "30" ];
     fs_calls := 0 |}.

End SamplePage.

Module HistoryBuckets.

Import PosTransactions.
Local Open Scope Z_scope.

(** The interval a date filter tests; [None] for a filter that tests
    nothing. *)
Definition bucket (h : Host) (dateFilter : string) (today : Z)
  : option (Z * Z) :=
  if decide (dateFilter = "today"%string)
  then Some (startOfDay h today, endOfDay h today)
  else if decide (dateFilter = "yesterday"%string)
  then Some (startOfDay h (subDays h today 1), endOfDay h (subDays h today 1))
  else if decide (dateFilter = "week"%string)
  then Some (startOfDay h (subDays h today 7), endOfDay h today)
  else if decide (dateFilter = "month"%string)
  then Some (startOfDay h (subDays h today 30), endOfDay h today)
  else None.

(** The number of the calendar day on which the instant [t] falls for a
    clock [off] milliseconds ahead of UTC. *)
Definition dayAt (off : Z) (t : Z) : Z := (t + off) / msPerDay.

(** The zone keeps the offset [off] from the instant [from] to the
    instant [to]: it is in force at every instant between them, and the
    local time of each of them is read back at it. *)
Definition steady (h : Host) (off : Z) (from to : Z) : Prop :=
  forall t, from <= t <= to ->
    LocalTZA h t true = off /\ LocalTZA h (t + off) false = off.

(** The zone keeps [off] from the day before the day [back] days before
    [now] to the day after [now]. *)
Definition steadySince (h : Host) (off : Z) (now : Z) (back : Z) : Prop :=
  steady h off (now - (back + 1) * msPerDay) (now + msPerDay).

(** The days of the zone are in order.  The first millisecond of a
    later day is read back as a later instant (or the same), and so is
    the last; the first millisecond of a day is read back no later than
    its last.  A later local time is read back as an instant of a later
    local day (or the same), and the local time of an instant as an
    instant of the same local day. *)
Definition orderly (h : Host) : Prop :=
  (forall d d', d <= d' ->
     UTC h (d * msPerDay) <= UTC h (d' * msPerDay) /\
     UTC h (d * msPerDay + (msPerDay - 1))
     <= UTC h (d' * msPerDay + (msPerDay - 1))) /\
  (forall d, UTC h (d * msPerDay) <= UTC h (d * msPerDay + (msPerDay - 1))) /\
  (forall l l', l <= l' ->
     Day (LocalTime h (UTC h l)) <= Day (LocalTime h (UTC h l'))) /\
  (forall t, Day (LocalTime h (UTC h (LocalTime h t))) = Day (LocalTime h t)).

End HistoryBuckets.

(* ===================================================================== *)
(** * SalesRevenueReport.tsx: navigation, average, and the later revision *)
(* ===================================================================== *)

Module SalesReportPage.

Import SalesRevenueReport.
Local Open Scope Z_scope.

Definition setCurrentDate (v : Z) (s : State) : State :=
  {| currentDate := v; isLoading := isLoading s;
     salesData := salesData s; chartData := chartData s |}.

(** [addMonths(date, i)] on month numbers. *)
Definition addMonths (date : Z) (i : Z) : Z := date + i.

(** [setCurrentDate(prevDate => subMonths(prevDate, 1))] *)
Definition goToPreviousMonth (s : State) : State :=
  setCurrentDate (subMonths (currentDate s) 1) s.

(** [setCurrentDate(prevDate => addMonths(prevDate, 1))] *)
Definition goToNextMonth (s : State) : State :=
  setCurrentDate (addMonths (currentDate s) 1) s.

(** The [disabled] attribute of the "next month" button,
    [format(currentDate, 'yyyy-MM') === format(new Date(), 'yyyy-MM')],
    with [now] the month number of [new Date()]: two dates have the same
    year and month text exactly when they are in the same month. *)
Definition nextDisabled (now : Z) (s : State) : bool :=
  bool_decide (currentDate s = now).

(** A visit of the page: it opens on the month of [new Date()]; the
    previous button is always enabled, the next button when
    [nextDisabled] is false; the effect reloads the figures; meanwhile the
    clock may move on to a later month. *)
Inductive browsing : Z -> State -> Prop :=
| browsing_open now s :
    currentDate s = now -> browsing now s
| browsing_previous now s :
    browsing now s -> browsing now (goToPreviousMonth s)
| browsing_next now s :
    browsing now s -> nextDisabled now s = false ->
    browsing now (goToNextMonth s)
| browsing_loaded now s h w :
    browsing now s -> browsing now (fetchMonthlyData h s w).1
| browsing_later now now' s :
    browsing now s -> now <= now' -> browsing now' s.

(** [Math.random()] gives a number from 0 up to, not including, 1. *)
Definition fair (h : Host) : Prop :=
  forall n, (0 <= random h n)%Q /\ (random h n < 1)%Q.

(** The figures of a placeholder point of the chart. *)
Definition placeholder (pt : ChartData) : Prop :=
  5 <= orders pt <= 54 /\ 50000 <= revenue pt <= 1049999.

End SalesReportPage.

(** The second document of SalesRevenueReport.tsx is a later revision of
    the component.  Its [fetchMonthlyData] only logs a rejected query, and
    its [fetchChartData] charts the fetched figures as they are and
    empties the chart on a rejected query. *)
Module SalesRevenueReportLive.

Import SalesRevenueReport.
Local Open Scope Z_scope.

(** One turn of the loop of the [try] block of [fetchChartData]. *)
Definition chartPoint (h : Host) (s : State) (i : Z) : M ChartData :=
  let monthDate := subMonths (currentDate s) i in
  let monthName := format_MMM h monthDate in
  bind (getDocs h monthDate) (fun snapshot =>
    let '(orders0, revenue0) := aggregate snapshot in
    ret {| name := monthName; orders := orders0; revenue := revenue0 |}).

(** [fetchChartData()] *)
Definition fetchChartData (h : Host) (s : State) (w : World) : State * World :=
  match pushAll (chartPoint h s) lastSixMonths [] w with
  | (Some chartData, w') => (setChartData chartData s, w')
  | (None, w') => (setChartData [] s, w')
  end.

(** The effect [fetchMonthlyData()]. *)
Definition fetchMonthlyData (h : Host) (s : State) (w : World) : State * World :=
  let s1 := setIsLoading true s in
  match getDocs h (currentDate s) w with
  | (Some snapshot, w1) =>
      let '(totalOrders, totalRevenue) := aggregate snapshot in
      let s2 :=
        setSalesData {| totalOrders := totalOrders;
                        totalRevenue := totalRevenue |} s1 in
      let '(s3, w2) := fetchChartData h s2 w1 in
      (setIsLoading false s3, w2)
  | (None, w1) => (setIsLoading false s1, w1)
  end.

End SalesRevenueReportLive.

(* ===================================================================== *)
(** * PosLayout.tsx, second document: the dashboard's aggregations *)
(* ===================================================================== *)

Module PosDashboard.

Local Open Scope Z_scope.

(** The fields of an order item and of an order that the dashboard reads;
    [None] for a missing field. *)
Record Item : Type := {
  i_category : option string;
  i_price : option Z;
  i_quantity : option Z
}.

Record Order : Type := {
  total_price : option Z;
  user_id : option string;
  customer_email : option string;
  items : option (list Item)
}.












End PosDashboard.

(* ===================================================================== *)
(** * PosProducts.tsx: categories and filters *)
(* ===================================================================== *)

Module PosProducts.

Local Open Scope Z_scope.

Record Product : Type := {
  id : string;
  name : string;
  price : Z;
  category : string;
  stock : Z;
  description : option string
}.

(** [lowerIncludes a b] is [a.toLowerCase().includes(b.toLowerCase())]. *)
Record Host : Type := {
  lowerIncludes : string -> string -> bool
}.

(** [[...new Set(values)]]: a [Set] keeps the order of first insertion. *)
Definition setOf (values : list string) : list string :=
  fold_left
    (fun set value => if decide (value ∈ set) then set else set ++ [value])
    values [].

(** [['all', ...new Set(products.map(product => product.category))]] *)
Definition categories (products : list Product) : list string :=
  "all"%string :: setOf (map category products).

(** The options of the category select below "Semua Kategori":
    [categories.filter(cat => cat !== 'all')]. *)
Definition categoryOptions (products : list Product) : list string :=
  List.filter (fun cat => negb (bool_decide (cat = "all"%string)))
              (categories products).

(** The filtering effect: the value given to [setFilteredProducts]. *)
Definition filterProducts (h : Host) (searchTerm categoryFilter : string)
    (products : list Product) : list Product :=
  let filtered := products in
  let filtered :=
    if decide (searchTerm = ""%string) then filtered
    else
      List.filter
        (fun product =>
           lowerIncludes h (name product) searchTerm
           || match description product with
              | Some text => lowerIncludes h text searchTerm
              | None => false
              end
           || lowerIncludes h (category product) searchTerm)
        filtered in
  if decide (categoryFilter <> "all"%string) then
    List.filter (fun product => bool_decide (category product = categoryFilter))
                filtered
  else filtered.

End PosProducts.

Module SampleReportPage.

Import SalesRevenueReport.
Local Open Scope Z_scope.

(** A store that rejects every query. *)
Definition offline : Host :=
  {| orders_of := fun _ _ => None;
     random := fun _ => (1 # 2)%Q;
     format_MMM := fun _ => "Mar"%string |}.

(** The report one month back from March 2024, the current month. *)
Definition february : State := SalesReportPage.goToPreviousMonth SampleReport.opened.

End SampleReportPage.

(* ===================================================================== *)
(** * Cart: total and stock ceilings *)
(* ===================================================================== *)

Section Cart.

Import PosSales CartSession.
Local Open Scope Z_scope.

Lemma cartTotal_from (lines : list CartItem) (acc : Z) :
  fold_left (fun total item => total + ci_price item * ci_quantity item) lines acc
  = acc + sumOfLines lines.
Proof.
  revert acc. induction lines as [|l lines IH]; intros acc; simpl.
  - lia.
  - rewrite IH. lia.
Qed.

Lemma cartTotal_sum (lines : list CartItem) :
  cartTotal lines = sumOfLines lines.
Proof. unfold cartTotal. rewrite cartTotal_from. lia. Qed.

(** C4. Whatever sequence of addToCart, updateQuantity and
    removeFromCart calls led to the current cart, from any state, the
    total computed by [cartTotal] is the sum over the current lines of
    price times quantity. *)
Theorem cartTotal_consistent (actions : list Action) (s : State) :
  cartTotal (cart s) = sumOfLines (cart s) /\
  cartTotal (cart (run actions s)) = sumOfLines (cart (run actions s)).
Proof. split; apply cartTotal_sum. Qed.

(** *** What the handlers do to the cart and to the product list *)

Lemma toasts_keep_cart {A : Type} (l : list A) (t : Toast) (s : State) :
  cart (fold_left (fun st _ => toast t st) l s) = cart s /\
  products (fold_left (fun st _ => toast t st) l s) = products s.
Proof.
  revert s. induction l as [|x l IH]; intros s; simpl; [done|].
  destruct (IH (toast t s)) as [-> ->]. done.
Qed.

Lemma updateQuantity_cart (id : string) (change : Z) (s : State) :
  cart (updateQuantity id change s)
  = map (fun item => fst (updateItem (products s) id change item)) (cart s).
Proof.
  unfold updateQuantity.
  rewrite (proj1 (toasts_keep_cart _ _ _)). simpl.
  by rewrite map_map.
Qed.

Lemma step_products (a : Action) (s : State) :
  products (step a s) = products s.
Proof.
  destruct a as [p|id change|id]; simpl.
  - unfold addToCart. case_bool_decide; [done|].
    destruct (List.find _ _); [case_bool_decide|]; done.
  - unfold updateQuantity. by rewrite (proj2 (toasts_keep_cart _ _ _)).
  - done.
Qed.

Lemma updateItem_id (catalog : list Product) (id : string) (change : Z)
    (item : CartItem) :
  ci_id (fst (updateItem catalog id change item)) = ci_id item.
Proof.
  unfold updateItem.
  repeat (case_bool_decide || case_match); done.
Qed.

(** *** Products and lines are found by their identifier *)

Lemma same_id_same_product (catalog : list Product) (p q : Product) :
  NoDup (map p_id catalog) -> p ∈ catalog -> q ∈ catalog ->
  p_id p = p_id q -> p = q.
Proof.
  induction catalog as [|x l IH]; intros Hnd Hp Hq Heq.
  - by apply elem_of_nil in Hp.
  - simpl in Hnd. apply NoDup_cons in Hnd as [Hx Hnd].
    apply elem_of_cons in Hp as [->|Hp]; apply elem_of_cons in Hq as [->|Hq].
    + done.
    + exfalso. apply Hx. rewrite Heq. by apply (list_elem_of_fmap_2 p_id).
    + exfalso. apply Hx. rewrite <- Heq. by apply (list_elem_of_fmap_2 p_id).
    + by apply IH.
Qed.

Lemma same_id_same_line (lines : list CartItem) (x y : CartItem) :
  NoDup (map ci_id lines) -> x ∈ lines -> y ∈ lines ->
  ci_id x = ci_id y -> x = y.
Proof.
  induction lines as [|z l IH]; intros Hnd Hx Hy Heq.
  - by apply elem_of_nil in Hx.
  - simpl in Hnd. apply NoDup_cons in Hnd as [Hz Hnd].
    apply elem_of_cons in Hx as [->|Hx]; apply elem_of_cons in Hy as [->|Hy].
    + done.
    + exfalso. apply Hz. rewrite Heq. by apply (list_elem_of_fmap_2 ci_id).
    + exfalso. apply Hz. rewrite <- Heq. by apply (list_elem_of_fmap_2 ci_id).
    + by apply IH.
Qed.

Lemma find_product (catalog : list Product) (p : Product) :
  NoDup (map p_id catalog) -> p ∈ catalog ->
  List.find (fun q => bool_decide (p_id q = p_id p)) catalog = Some p.
Proof.
  intros Hnd Hp.
  destruct (List.find _ catalog) as [q|] eqn:Hf.
  - apply find_some in Hf as [Hq Hid].
    apply bool_decide_eq_true in Hid. apply list_elem_of_In in Hq.
    f_equal. by apply (same_id_same_product catalog).
  - apply list_elem_of_In in Hp.
    pose proof (find_none _ _ Hf p Hp) as Hn. simpl in Hn.
    by rewrite bool_decide_eq_false in Hn.
Qed.

Lemma find_line (lines : list CartItem) (x : CartItem) :
  NoDup (map ci_id lines) -> x ∈ lines ->
  List.find (fun y => bool_decide (ci_id y = ci_id x)) lines = Some x.
Proof.
  intros Hnd Hx.
  destruct (List.find _ lines) as [y|] eqn:Hf.
  - apply find_some in Hf as [Hy Hid].
    apply bool_decide_eq_true in Hid. apply list_elem_of_In in Hy.
    f_equal. by apply (same_id_same_line lines).
  - apply list_elem_of_In in Hx.
    pose proof (find_none _ _ Hf x Hx) as Hn. simpl in Hn.
    by rewrite bool_decide_eq_false in Hn.
Qed.

(** *** The invariant of a cart session *)

Lemma addToCart_invariant (catalog : list Product) (p : Product) (s : State) :
  NoDup (map p_id catalog) -> p ∈ catalog ->
  cartInvariant catalog s -> cartInvariant catalog (addToCart p s).
Proof.
  intros Hcat Hp (Hprod & Hnd & Hall).
  pose proof (step_products (AddToCart p) s) as Hsp. simpl in Hsp.
  split; [congruence|]. clear Hsp.
  unfold addToCart. case_bool_decide as Hstock; [done|].
  destruct (List.find _ (cart s)) as [existing|] eqn:Hf.
  - case_bool_decide as Hmax; [done|]. simpl.
    apply find_some in Hf as [Hex Hid]. apply list_elem_of_In in Hex.
    apply bool_decide_eq_true in Hid.
    split.
    + rewrite map_map.
      erewrite map_ext; [exact Hnd|].
      intros item. simpl. by case_bool_decide.
    + apply Forall_forall. intros item' Hin.
      apply list_elem_of_fmap in Hin as (item & -> & Hin).
      rewrite Forall_forall in Hall.
      case_bool_decide as Hsame; [|by apply Hall].
      assert (item = existing) as ->.
      { apply (same_id_same_line (cart s)); [done..|congruence]. }
      destruct (Hall _ Hex) as (q & Hq & Hqid & Hrange).
      assert (q = p) as ->.
      { apply (same_id_same_product catalog); [done..|congruence]. }
      exists p. simpl. repeat split; [done|done|lia|lia].
  - simpl. split.
    + rewrite map_app. simpl. apply NoDup_app. split; [done|].
      split; [|apply NoDup_singleton].
      intros x Hx Hx'. apply list_elem_of_singleton in Hx'. subst x.
      apply list_elem_of_fmap in Hx as (item & Hid & Hin).
      apply list_elem_of_In in Hin.
      pose proof (find_none _ _ Hf item Hin) as Hn. simpl in Hn.
      rewrite bool_decide_eq_false in Hn. congruence.
    + apply Forall_app. split; [done|].
      apply Forall_singleton. exists p. simpl. repeat split; [done|lia|lia].
Qed.

Lemma updateQuantity_invariant (catalog : list Product) (id : string)
    (change : Z) (s : State) :
  NoDup (map p_id catalog) ->
  cartInvariant catalog s -> cartInvariant catalog (updateQuantity id change s).
Proof.
  intros Hcat (Hprod & Hnd & Hall).
  pose proof (step_products (UpdateQuantity id change) s) as Hsp. simpl in Hsp.
  split; [congruence|]. clear Hsp.
  rewrite updateQuantity_cart. split.
  - rewrite map_map.
    erewrite map_ext; [exact Hnd|].
    intros item. apply updateItem_id.
  - apply Forall_forall. intros item' Hin.
    apply list_elem_of_fmap in Hin as (item & -> & Hin).
    rewrite Forall_forall in Hall.
    destruct (Hall _ Hin) as (q & Hq & Hqid & Hrange).
    unfold updateItem.
    case_bool_decide as Hsame; [|by apply Hall].
    case_bool_decide as Hlow; [by apply Hall|].
    rewrite Hprod, <- Hsame, <- Hqid, (find_product catalog q) by done.
    case_bool_decide as Hhigh; [by apply Hall|].
    exists q. simpl. repeat split; [done|done|lia|lia].
Qed.

Lemma removeFromCart_invariant (catalog : list Product) (id : string)
    (s : State) :
  cartInvariant catalog s -> cartInvariant catalog (removeFromCart id s).
Proof.
  intros (Hprod & Hnd & Hall). split; [done|]. simpl. split.
  - clear Hall. induction (cart s) as [|x l IH]; simpl; [done|].
    simpl in Hnd. apply NoDup_cons in Hnd as [Hx Hnd].
    destruct (negb _); simpl; [|by apply IH].
    apply NoDup_cons. split; [|by apply IH].
    intros Hin. apply Hx.
    apply list_elem_of_fmap in Hin as (y & Hy & Hin).
    apply list_elem_of_In, filter_In in Hin as [Hin _].
    apply list_elem_of_In in Hin. rewrite Hy.
    by apply (list_elem_of_fmap_2 ci_id).
  - apply Forall_forall. intros x Hx.
    apply list_elem_of_In, filter_In in Hx as [Hx _].
    rewrite Forall_forall in Hall. by apply Hall, list_elem_of_In.
Qed.

Lemma reachable_invariant (catalog : list Product) (s : State) :
  NoDup (map p_id catalog) -> reachable catalog s -> cartInvariant catalog s.
Proof.
  intros Hcat Hreach. induction Hreach as [s Hp Hc|s a Hreach IH Hoff].
  - split; [done|]. rewrite Hc. split; [apply NoDup_nil_2|apply Forall_nil_2].
  - destruct a as [p|id change|id]; simpl in *.
    + apply addToCart_invariant; [done| |done].
      destruct IH as [<- _]. done.
    + by apply updateQuantity_invariant.
    + by apply removeFromCart_invariant.
Qed.

Lemma map_unchanged {A : Type} (f : A -> A) (l : list A) :
  (forall x, x ∈ l -> f x = x) -> map f l = l.
Proof.
  induction l as [|x l IH]; intros H; simpl; [done|].
  rewrite H by apply list_elem_of_here.
  rewrite IH; [done|]. intros y Hy. apply H. by apply list_elem_of_further.
Qed.

(** C5. In every cart state of a session over a product list with
    distinct identifiers, each line has a quantity between 1 and the
    stock of its product; addToCart leaves the cart as it is for a
    product without stock and for a line already at its ceiling;
    updateQuantity leaves the cart as it is for a change that would take
    the line below 1 or above the stock. *)
Theorem cart_quantity_within_stock (catalog : list Product) (s : State) :
  NoDup (map p_id catalog) ->
  reachable catalog s ->
  (forall item, item ∈ cart s -> withinStock catalog item) /\
  (forall p, p_stock p <= 0 -> cart (addToCart p s) = cart s) /\
  (forall p item,
      p ∈ catalog -> item ∈ cart s -> ci_id item = p_id p ->
      ci_quantity item + 1 > p_stock p ->
      cart (addToCart p s) = cart s) /\
  (forall id change item p,
      item ∈ cart s -> ci_id item = id -> p ∈ catalog -> p_id p = id ->
      ci_quantity item + change < 1 \/ ci_quantity item + change > p_stock p ->
      cart (updateQuantity id change s) = cart s).
Proof.
  intros Hcat Hreach.
  destruct (reachable_invariant catalog s Hcat Hreach) as (Hprod & Hnd & Hall).
  repeat split.
  - intros item Hin. rewrite Forall_forall in Hall. by apply Hall.
  - intros p Hstock. unfold addToCart. by rewrite bool_decide_eq_true_2.
  - intros p item Hp Hin Hid Hmax. unfold addToCart.
    case_bool_decide; [done|].
    rewrite <- Hid, (find_line (cart s) item) by done.
    by rewrite bool_decide_eq_true_2.
  - intros id change item p Hin Hid Hp Hpid Hout.
    rewrite updateQuantity_cart. apply map_unchanged.
    intros y Hy. unfold updateItem.
    case_bool_decide as Hsame; [|done].
    assert (y = item) as ->.
    { apply (same_id_same_line (cart s)); [done..|congruence]. }
    case_bool_decide as Hlow; [done|].
    rewrite Hprod, <- Hpid, (find_product catalog p) by done.
    rewrite bool_decide_eq_true_2; [done|lia].
Qed.

Lemma cart_quantity_within_stock_witness :
  (forall item, item ∈ cart Sample.twoInCart ->
                withinStock Sample.catalog item) /\
  (forall p, p_stock p <= 0 ->
             cart (addToCart p Sample.twoInCart) = cart Sample.twoInCart) /\
  (forall p item,
      p ∈ Sample.catalog -> item ∈ cart Sample.twoInCart ->
      ci_id item = p_id p -> ci_quantity item + 1 > p_stock p ->
      cart (addToCart p Sample.twoInCart) = cart Sample.twoInCart) /\
  (forall id change item p,
      item ∈ cart Sample.twoInCart -> ci_id item = id ->
      p ∈ Sample.catalog -> p_id p = id ->
      ci_quantity item + change < 1 \/ ci_quantity item + change > p_stock p ->
      cart (updateQuantity id change Sample.twoInCart) = cart Sample.twoInCart).
Proof.
  apply (cart_quantity_within_stock Sample.catalog Sample.twoInCart).
  - apply NoDup_singleton.
  - apply (reachable_step _ _ (AddToCart Sample.product)).
    + apply (reachable_step _ _ (AddToCart Sample.product)).
      * apply reachable_start; reflexivity.
      * apply list_elem_of_here.
    + apply list_elem_of_here.
Defined.

End Cart.

(* ===================================================================== *)
(** * Checkout *)
(* ===================================================================== *)

Section Checkout.

Import PosSales CartSession StockLedger.
Local Open Scope Z_scope.

Variable h : Host.

(** *** The stock loop *)

Lemma updateStock_cases (item : CartItem) (fs : Firestore) :
  fs_pos_transactions (updateStock h item fs).2 = fs_pos_transactions fs /\
  ((updateStock h item fs).1 = Some tt /\
   fs_products (updateStock h item fs).2
   = decrement (now_iso h) (fs_products fs) item)
  \/ fs_pos_transactions (updateStock h item fs).2 = fs_pos_transactions fs /\
     ((updateStock h item fs).1 = None /\
      fs_products (updateStock h item fs).2 = fs_products fs).
Proof.
  unfold updateStock, bind, getDoc, updateDoc, sdk, decrement, ret. simpl.
  destruct (sdk_throws h (fs_calls fs)); simpl; [by right|].
  destruct (fs_products fs !! ci_id item) as [d|] eqn:Hd; simpl.
  - destruct (sdk_throws h (S (fs_calls fs))); simpl; [by right|].
    rewrite Hd. simpl. by left.
  - by left.
Qed.

Lemma updateStock_reliable (item : CartItem) (fs : Firestore) :
  reliable h -> (updateStock h item fs).1 = Some tt.
Proof.
  intros Hrel.
  unfold updateStock, bind, getDoc, updateDoc, sdk, ret. simpl.
  rewrite Hrel. simpl.
  destruct (fs_products fs !! ci_id item) as [d|] eqn:Hd; simpl; [|done].
  rewrite Hrel. simpl. by rewrite Hd.
Qed.

Lemma for_of_cons (item : CartItem) (rest : list CartItem) (fs : Firestore) :
  for_of (item :: rest) (updateStock h) fs
  = match updateStock h item fs with
    | (Some _, fs1) => for_of rest (updateStock h) fs1
    | (None, fs1) => (None, fs1)
    end.
Proof. reflexivity. Qed.

(** The loop leaves the transactions alone and applies the decrements
    of a prefix of the cart, of the whole cart when it does not throw. *)
Lemma stock_loop (lines : list CartItem) (fs : Firestore) :
  fs_pos_transactions (for_of lines (updateStock h) fs).2
  = fs_pos_transactions fs /\
  exists k : nat,
    (k <= length lines)%nat /\
    fs_products (for_of lines (updateStock h) fs).2
    = fold_left (decrement (now_iso h)) (take k lines) (fs_products fs) /\
    ((for_of lines (updateStock h) fs).1 = Some tt -> k = length lines).
Proof.
  revert fs. induction lines as [|item rest IH]; intros fs.
  - split; [done|]. exists 0%nat. by repeat split.
  - rewrite for_of_cons.
    destruct (updateStock_cases item fs) as [(Htx & Hr & Hp)|(Htx & Hr & Hp)];
      destruct (updateStock h item fs) as [r fs1]; simpl in *; subst r.
    + destruct (IH fs1) as (Htx' & k & Hk & Hprod & Hdone).
      split; [congruence|].
      exists (S k). simpl. repeat split; [lia|by rewrite Hprod, Hp|].
      intros Hsome. by rewrite Hdone.
    + split; [done|]. exists 0%nat. simpl. repeat split; [lia|done|done].
Qed.

Lemma stock_loop_reliable (lines : list CartItem) (fs : Firestore) :
  reliable h -> (for_of lines (updateStock h) fs).1 = Some tt.
Proof.
  intros Hrel. revert fs. induction lines as [|item rest IH]; intros fs; [done|].
  rewrite for_of_cons.
  pose proof (updateStock_reliable item fs Hrel) as Hok.
  destruct (updateStock h item fs) as [r fs1]; simpl in *; subst r.
  apply IH.
Qed.

(** *** The ledger: what the decrements do to one product *)

Lemma decrement_stock (now : string) (docs : gmap string ProductDoc)
    (item : CartItem) (P : string) :
  d_stock <$> (decrement now docs item !! P)
  = (fun st => st - (if decide (ci_id item = P) then ci_quantity item else 0))
      <$> (d_stock <$> (docs !! P)).
Proof.
  unfold decrement.
  destruct (docs !! ci_id item) as [d|] eqn:Hd.
  - destruct (decide (ci_id item = P)) as [<-|Hne].
    + rewrite lookup_insert_eq, Hd. done.
    + rewrite lookup_insert_ne by done.
      destruct (docs !! P); simpl; [f_equal; lia|done].
  - destruct (decide (ci_id item = P)) as [<-|Hne].
    + by rewrite Hd.
    + destruct (docs !! P); simpl; [f_equal; lia|done].
Qed.

Lemma decrements_stock (now : string) (lines : list CartItem)
    (docs : gmap string ProductDoc) (P : string) :
  d_stock <$> (fold_left (decrement now) lines docs !! P)
  = (fun st => st - quantityOf P lines) <$> (d_stock <$> (docs !! P)).
Proof.
  revert docs. induction lines as [|item rest IH]; intros docs; simpl.
  - destruct (docs !! P); simpl; [f_equal; lia|done].
  - rewrite IH, decrement_stock.
    destruct (docs !! P); simpl; [f_equal; lia|done].
Qed.

Lemma quantityOf_absent (P : string) (lines : list CartItem) :
  P ∉ map ci_id lines -> quantityOf P lines = 0.
Proof.
  induction lines as [|x l IH]; simpl; intros Hni; [done|].
  apply not_elem_of_cons in Hni as [Hne Hni].
  rewrite decide_False by done. rewrite IH by done. lia.
Qed.

Lemma quantityOf_line (lines : list CartItem) (item : CartItem) :
  NoDup (map ci_id lines) -> item ∈ lines ->
  quantityOf (ci_id item) lines = ci_quantity item.
Proof.
  induction lines as [|x l IH]; simpl; intros Hnd Hin.
  - by apply elem_of_nil in Hin.
  - apply NoDup_cons in Hnd as [Hx Hnd].
    apply elem_of_cons in Hin as [->|Hin].
    + rewrite decide_True by done. rewrite quantityOf_absent by done. lia.
    + rewrite decide_False.
      * rewrite IH by done. lia.
      * intros Heq. apply Hx. rewrite Heq. by apply (list_elem_of_fmap_2 ci_id).
Qed.

(** *** The three ways [handleCheckout] ends *)

Lemma handleCheckout_rejects (user : option User) (s : State) (fs : Firestore) :
  cart s = [] \/
  (paymentMethod s = "Tunai"%string /\
   Js.lt (Number_ h (cashAmount s)) (Js.Num (cartTotal (cart s))) = true) ->
  exists t, destructive t = true /\
            handleCheckout h user s fs = (Rejected, toast t s, fs).
Proof.
  intros Hcond. unfold handleCheckout.
  case_bool_decide as Hlen.
  - exists (warn "Keranjang Kosong"). done.
  - destruct Hcond as [Hnil|[Hpay Hlt]].
    + rewrite Hnil in Hlen. done.
    + rewrite bool_decide_eq_true_2, Hlt by done. simpl.
      exists (warn "Pembayaran Kurang"). done.
Qed.

Lemma handleCheckout_accepts (user : option User) (s : State) (fs : Firestore)
    (o : Outcome) (s' : State) (fs' : Firestore) :
  handleCheckout h user s fs = (o, s', fs') ->
  o <> Rejected ->
  cart s <> [] /\
  (bool_decide (paymentMethod s = "Tunai"%string)
   && Js.lt (Number_ h (cashAmount s)) (Js.Num (cartTotal (cart s))) = false) /\
  (fs_pos_transactions fs' = fs_pos_transactions fs \/
   fs_pos_transactions fs' = fs_pos_transactions fs ++ [stored h user s fs]) /\
  (exists k : nat,
      (k <= length (cart s))%nat /\
      fs_products fs'
      = fold_left (decrement (now_iso h)) (take k (cart s)) (fs_products fs) /\
      (o = Completed -> k = length (cart s))) /\
  (o = Completed ->
   fs_pos_transactions fs' = fs_pos_transactions fs ++ [stored h user s fs] /\
   currentTransaction s' = Some (stored h user s fs) /\
   cart s' = [] /\ customerName s' = ""%string /\ cashAmount s' = ""%string).
Proof.
  unfold handleCheckout.
  case_bool_decide as Hlen; [intros [= <- _ _]; done|].
  destruct (_ && _) eqn:Hcash; [intros [= <- _ _]; done|].
  assert (cart s <> []) as Hne by (intros Hnil; by rewrite Hnil in Hlen).
  unfold checkoutBody, bind, addDoc, sdk. simpl.
  destruct (sdk_throws h (fs_calls fs)); simpl.
  - intros [= <- <- <-] _. split_and!; [done|done|by left| |done].
    exists 0%nat. simpl. split_and!; [lia|done|done].
  - set (fs1 := {| fs_products := fs_products fs;
                   fs_pos_transactions := _; fs_calls := _ |}).
    destruct (stock_loop (cart s) fs1) as (Htx & k & Hk & Hprod & Hdone).
    destruct (for_of (cart s) (updateStock h) fs1) as [[[]|] fs2]; simpl in *.
    + intros [= <- <- <-] _.
      split_and!; [done|done|by right| |done].
      exists k. split_and!; [done|done|]. intros _. by apply Hdone.
    + intros [= <- <- <-] _.
      split_and!; [done|done|by right| |done].
      exists k. split_and!; done.
Qed.

Lemma handleCheckout_reliable (user : option User) (s : State) (fs : Firestore) :
  reliable h ->
  cart s <> [] ->
  bool_decide (paymentMethod s = "Tunai"%string)
  && Js.lt (Number_ h (cashAmount s)) (Js.Num (cartTotal (cart s))) = false ->
  (handleCheckout h user s fs).1.1 = Completed.
Proof.
  intros Hrel Hne Hcash. unfold handleCheckout.
  rewrite bool_decide_eq_false_2; [|by destruct (cart s)].
  rewrite Hcash.
  unfold checkoutBody, bind, addDoc, sdk. simpl.
  rewrite Hrel. simpl.
  match goal with
  | |- context [for_of (cart s) (updateStock h) ?fs1] =>
      pose proof (stock_loop_reliable (cart s) fs1 Hrel) as Hok;
      destruct (for_of (cart s) (updateStock h) fs1) as [r fs2]
  end.
  simpl in Hok. subst r. done.
Qed.

(** *** Stock decrement *)

(** C1. After a checkout that completed, the [products] collection is
    the one obtained by going through the cart lines in order, each
    line replacing the stock read at its turn by that stock minus the
    line's quantity; so every product ends with the stock it had minus
    the quantity the cart asks of it, which for a cart without two lines
    of one product is the quantity of its line. *)
Theorem checkout_decrements_stock (user : option User) (s : State)
    (fs : Firestore) (s' : State) (fs' : Firestore) :
  handleCheckout h user s fs = (Completed, s', fs') ->
  fs_products fs'
  = fold_left (decrement (now_iso h)) (cart s) (fs_products fs) /\
  (forall P,
      stockOf fs' P = (fun st => st - quantityOf P (cart s)) <$> stockOf fs P) /\
  (NoDup (map ci_id (cart s)) ->
   forall item, item ∈ cart s ->
     stockOf fs' (ci_id item)
     = (fun st => st - ci_quantity item) <$> stockOf fs (ci_id item)).
Proof.
  intros Hrun.
  destruct (handleCheckout_accepts user s fs _ _ _ Hrun)
    as (_ & _ & _ & (k & Hk & Hprod & Hdone) & _); [done|].
  rewrite (Hdone eq_refl), firstn_all in Hprod.
  assert (forall P, stockOf fs' P
                    = (fun st => st - quantityOf P (cart s)) <$> stockOf fs P)
    as Hledger.
  { intros P. unfold stockOf. rewrite Hprod. apply decrements_stock. }
  split_and!; [done|done|].
  intros Hnd item Hin. rewrite Hledger.
  by rewrite quantityOf_line.
Qed.

(** *** Rejection *)

(** C2. With an empty cart, or with payment in cash ('Tunai') and a
    cash amount below the cart total, handleCheckout returns at once:
    the store is the one it was given (no document created, no stock
    updated, no SDK call made), and the state differs from the one it
    was given by one warning toast only, so that the cart, the customer
    name and the cash amount are unchanged. *)
Theorem checkout_rejected_before_any_write (user : option User) (s : State)
    (fs : Firestore) :
  cart s = [] \/
  (paymentMethod s = "Tunai"%string /\
   exists cash, Number_ h (cashAmount s) = Js.Num cash /\
                cash < cartTotal (cart s)) ->
  exists s',
    handleCheckout h user s fs = (Rejected, s', fs) /\
    cart s' = cart s /\
    customerName s' = customerName s /\
    cashAmount s' = cashAmount s /\
    exists t, destructive t = true /\ s' = toast t s.
Proof.
  intros Hcond.
  destruct (handleCheckout_rejects user s fs) as (t & Ht & Hrun).
  { destruct Hcond as [Hnil|(Hpay & cash & Hnum & Hlt)]; [by left|right].
    split; [done|]. rewrite Hnum. simpl. by apply bool_decide_eq_true_2. }
  exists (toast t s). split_and!; [done..|]. by exists t.
Qed.

(** *** Cash and change *)

(** C3. With payment in cash ('Tunai') and a cash amount that is at
    least the cart total, a checkout that completed has stored a
    transaction whose total is the cart total, whose cashAmount is the
    amount given and whose changeAmount is that amount minus the total;
    with a non-empty cart and a store that answers, the checkout does
    complete.  For one line of price 1000 and quantity 2 and 5000 in
    cash, the total is 2000 and the change 3000. *)
Theorem cash_checkout_records_change (user : option User) (s : State)
    (fs : Firestore) (cash : Z) :
  paymentMethod s = "Tunai"%string ->
  Number_ h (cashAmount s) = Js.Num cash ->
  cartTotal (cart s) <= cash ->
  (cart s <> [] -> reliable h -> (handleCheckout h user s fs).1.1 = Completed) /\
  ((handleCheckout h user s fs).1.1 = Completed ->
   exists tx,
     fs_pos_transactions (handleCheckout h user s fs).2
     = fs_pos_transactions fs ++ [tx] /\
     td_items (t_data tx) = cart s /\
     td_total (t_data tx) = cartTotal (cart s) /\
     td_cashAmount (t_data tx) = Some (Js.Num cash) /\
     td_changeAmount (t_data tx) = Some (Js.Num (cash - cartTotal (cart s)))) /\
  (forall line,
      cart s = [line] -> ci_price line = 1000 -> ci_quantity line = 2 ->
      cash = 5000 ->
      cartTotal (cart s) = 2000 /\ cash - cartTotal (cart s) = 3000).
Proof.
  intros Hpay Hnum Hle.
  assert (bool_decide (paymentMethod s = "Tunai"%string)
          && Js.lt (Number_ h (cashAmount s)) (Js.Num (cartTotal (cart s)))
          = false) as Hcash.
  { rewrite Hnum. simpl. rewrite (bool_decide_eq_false_2 (cash < _)) by lia.
    apply andb_false_r. }
  split_and!.
  - intros Hne Hrel. by apply handleCheckout_reliable.
  - intros Hdone.
    destruct (handleCheckout h user s fs) as [[o s'] fs'] eqn:Hrun.
    simpl in Hdone. subst o.
    destruct (handleCheckout_accepts user s fs _ _ _ Hrun)
      as (_ & _ & _ & _ & Hend); [done|].
    destruct (Hend eq_refl) as (Htx & _).
    exists (stored h user s fs). simpl. split_and!; [done|done|done| |].
    + rewrite bool_decide_eq_true_2 by done. by rewrite Hnum.
    + rewrite bool_decide_eq_true_2 by done.
      unfold changeAmount. by rewrite Hnum.
  - intros line Hcart Hprice Hqty ->.
    rewrite Hcart. unfold cartTotal. simpl. rewrite Hprice, Hqty. done.
Qed.

(** C10. With a non-empty cart and a payment method other than cash
    ('Tunai'), handleCheckout does not look at the cash amount: it is
    never rejected, its result is the same whatever the cash field
    holds, it completes when the store answers, and the transaction it
    stores has neither a cashAmount nor a changeAmount. *)
Theorem non_cash_checkout_skips_cash (user : option User) (s : State)
    (fs : Firestore) :
  cart s <> [] ->
  paymentMethod s <> "Tunai"%string ->
  (handleCheckout h user s fs).1.1 <> Rejected /\
  (forall text,
      (handleCheckout h user (setCashAmount text s) fs).1.1
      = (handleCheckout h user s fs).1.1 /\
      (handleCheckout h user (setCashAmount text s) fs).2
      = (handleCheckout h user s fs).2) /\
  (reliable h -> (handleCheckout h user s fs).1.1 = Completed) /\
  (forall tx,
      tx ∈ fs_pos_transactions (handleCheckout h user s fs).2 ->
      tx ∈ fs_pos_transactions fs \/
      td_paymentMethod (t_data tx) = paymentMethod s /\
      td_cashAmount (t_data tx) = None /\
      td_changeAmount (t_data tx) = None) /\
  ((handleCheckout h user s fs).1.1 = Completed ->
   exists tx,
     fs_pos_transactions (handleCheckout h user s fs).2
     = fs_pos_transactions fs ++ [tx] /\
     td_cashAmount (t_data tx) = None /\
     td_changeAmount (t_data tx) = None).
Proof.
  intros Hne Hpay.
  assert (forall st, paymentMethod st = paymentMethod s ->
            bool_decide (paymentMethod st = "Tunai"%string)
            && Js.lt (Number_ h (cashAmount st)) (Js.Num (cartTotal (cart st)))
            = false) as Hcash.
  { intros st Hst. rewrite bool_decide_eq_false_2; [done|congruence]. }
  assert ((handleCheckout h user s fs).1.1 <> Rejected) as Hacc.
  { unfold handleCheckout.
    rewrite bool_decide_eq_false_2; [|by destruct (cart s)].
    rewrite Hcash by done.
    by destruct (checkoutBody h user s fs) as [[upd|] fs1]. }
  split_and!.
  - done.
  - intros text. unfold handleCheckout. simpl.
    rewrite bool_decide_eq_false_2; [|by destruct (cart s)].
    rewrite !bool_decide_eq_false_2 by done. simpl.
    assert (checkoutBody h user (setCashAmount text s) fs
            = checkoutBody h user s fs) as ->.
    { unfold checkoutBody, transactionData. simpl.
      rewrite !bool_decide_eq_false_2 by done. done. }
    by destruct (checkoutBody h user s fs) as [[upd|] fs1].
  - intros Hrel. apply handleCheckout_reliable; [done..|]. by apply Hcash.
  - intros tx Hin.
    destruct (handleCheckout h user s fs) as [[o s'] fs'] eqn:Hrun.
    simpl in Hacc, Hin.
    destruct (handleCheckout_accepts user s fs _ _ _ Hrun Hacc)
      as (_ & _ & [Htx|Htx] & _ & _); rewrite Htx in Hin; [by left|].
    apply elem_of_app in Hin as [Hin|Hin]; [by left|right].
    apply list_elem_of_singleton in Hin. subst tx. simpl.
    by rewrite !bool_decide_eq_false_2.
  - intros Hdone.
    destruct (handleCheckout h user s fs) as [[o s'] fs'] eqn:Hrun.
    simpl in Hdone. subst o.
    destruct (handleCheckout_accepts user s fs _ _ _ Hrun)
      as (_ & _ & _ & _ & Hend); [done|].
    destruct (Hend eq_refl) as (Htx & _).
    exists (stored h user s fs). simpl.
    by rewrite !bool_decide_eq_false_2.
Qed.

(** *** Stock after checkout *)

Lemma handleCheckout_rejected_store (user : option User) (s : State)
    (fs : Firestore) (s' : State) (fs' : Firestore) :
  handleCheckout h user s fs = (Rejected, s', fs') -> fs' = fs.
Proof.
  unfold handleCheckout.
  case_bool_decide; [by intros [= _ <-]|].
  destruct (_ && _); [by intros [= _ <-]|].
  by destruct (checkoutBody h user s fs) as [[upd|] fs1].
Qed.

Lemma take_elem_of {A : Type} (k : nat) (l : list A) (x : A) :
  x ∈ take k l -> x ∈ l.
Proof.
  intros Hin. rewrite <- (take_drop k l). apply elem_of_app. by left.
Qed.

Lemma take_NoDup_ids (k : nat) (lines : list CartItem) :
  NoDup (map ci_id lines) -> NoDup (map ci_id (take k lines)).
Proof.
  intros Hnd. rewrite <- (take_drop k lines), map_app in Hnd.
  by apply NoDup_app in Hnd as [Hnd _].
Qed.

(** The quantity a prefix of a cart asks of a product is that of its
    line for the product, or nothing. *)
Lemma quantityOf_prefix (k : nat) (lines : list CartItem) (P : string) :
  NoDup (map ci_id lines) ->
  quantityOf P (take k lines) = 0 \/
  exists item, item ∈ lines /\ ci_id item = P /\
               quantityOf P (take k lines) = ci_quantity item.
Proof.
  intros Hnd.
  destruct (decide (P ∈ map ci_id (take k lines))) as [Hin|Hni].
  - right. apply list_elem_of_fmap in Hin as (item & -> & Hin).
    exists item. split_and!; [by eapply take_elem_of|done|].
    apply quantityOf_line; [by apply take_NoDup_ids|done].
  - left. by apply quantityOf_absent.
Qed.

(** C6, as the code has it. The stock values a checkout writes are not
    negative when no two cart lines share a product, no stored stock is
    negative beforehand, and the stock the store holds for each line's
    product is at least the line's quantity; this holds however the
    checkout ends. *)
Theorem checkout_keeps_stock_nonnegative (user : option User) (s : State)
    (fs : Firestore) (o : Outcome) (s' : State) (fs' : Firestore) :
  handleCheckout h user s fs = (o, s', fs') ->
  NoDup (map ci_id (cart s)) ->
  (forall P st, stockOf fs P = Some st -> 0 <= st) ->
  (forall item st,
      item ∈ cart s -> stockOf fs (ci_id item) = Some st ->
      ci_quantity item <= st) ->
  forall P st', stockOf fs' P = Some st' -> 0 <= st'.
Proof.
  intros Hrun Hnd Hpos Hceil P st' Hafter.
  assert (o = Rejected \/ o <> Rejected) as [->|Hacc]
    by (destruct o; [by left|by right..]).
  - apply handleCheckout_rejected_store in Hrun. subst fs'. by eapply Hpos.
  - destruct (handleCheckout_accepts user s fs _ _ _ Hrun Hacc)
      as (_ & _ & _ & (k & Hk & Hprod & _) & _).
    unfold stockOf in Hafter. rewrite Hprod, decrements_stock in Hafter.
    fold (stockOf fs P) in Hafter.
    destruct (stockOf fs P) as [st|] eqn:Hbefore; [|done].
    simpl in Hafter. injection Hafter as <-.
    destruct (quantityOf_prefix k (cart s) P Hnd)
      as [->|(item & Hin & <- & ->)].
    + pose proof (Hpos _ _ Hbefore). lia.
    + pose proof (Hceil _ _ Hin Hbefore). lia.
Qed.

End Checkout.

(* ===================================================================== *)
(** * Checkout on the sample store *)
(* ===================================================================== *)

Section CheckoutScenarios.

Import PosSales CartSession StockLedger.
Local Open Scope Z_scope.

(** Fetching the product list of the sample store gives the sample
    catalog. *)
Lemma sample_fetch :
  (fetchProducts Sample.host initialState Sample.store).1 = Sample.opened.
Proof. vm_compute. reflexivity. Qed.

(** The identifiers of a fetched product list are distinct. *)
Lemma fetched_products_distinct (h : Host) (s : State) (fs : Firestore) :
  sdk_throws h (fs_calls fs) = false ->
  NoDup (map p_id (products (fetchProducts h s fs).1)).
Proof.
  intros Hok. unfold fetchProducts, getDocs_products, sdk. rewrite Hok. simpl.
  rewrite map_map.
  erewrite map_ext; [apply (NoDup_fst_map_to_list (fs_products fs))|].
  by intros [id d].
Qed.

Lemma sample_first_sale :
  handleCheckout Sample.host (Some Sample.kasir) Sample.paid Sample.store
  = (Completed, Sample.firstSale.1.2, Sample.firstSale.2).
Proof. vm_compute. reflexivity. Defined.

Lemma checkout_decrements_stock_witness :
  fs_products Sample.firstSale.2
  = fold_left (decrement (now_iso Sample.host)) (cart Sample.paid)
              (fs_products Sample.store) /\
  (forall P,
      stockOf Sample.firstSale.2 P
      = (fun st => st - quantityOf P (cart Sample.paid))
          <$> stockOf Sample.store P) /\
  (NoDup (map ci_id (cart Sample.paid)) ->
   forall item, item ∈ cart Sample.paid ->
     stockOf Sample.firstSale.2 (ci_id item)
     = (fun st => st - ci_quantity item) <$> stockOf Sample.store (ci_id item)).
Proof.
  apply (checkout_decrements_stock Sample.host (Some Sample.kasir) Sample.paid Sample.store
           Sample.firstSale.1.2 Sample.firstSale.2).
  exact sample_first_sale.
Defined.

Lemma checkout_rejected_before_any_write_witness :
  exists s',
    handleCheckout Sample.host (Some Sample.kasir) Sample.opened Sample.store
    = (Rejected, s', Sample.store) /\
    cart s' = cart Sample.opened /\
    customerName s' = customerName Sample.opened /\
    cashAmount s' = cashAmount Sample.opened /\
    exists t, destructive t = true /\ s' = toast t Sample.opened.
Proof.
  apply (checkout_rejected_before_any_write Sample.host (Some Sample.kasir) Sample.opened
           Sample.store).
  left. reflexivity.
Defined.

Lemma cash_checkout_records_change_witness :
  (cart Sample.paid <> [] -> reliable Sample.host ->
   (handleCheckout Sample.host (Some Sample.kasir) Sample.paid Sample.store).1.1 = Completed) /\
  ((handleCheckout Sample.host (Some Sample.kasir) Sample.paid Sample.store).1.1 = Completed ->
   exists tx,
     fs_pos_transactions
       (handleCheckout Sample.host (Some Sample.kasir) Sample.paid Sample.store).2
     = fs_pos_transactions Sample.store ++ [tx] /\
     td_items (t_data tx) = cart Sample.paid /\
     td_total (t_data tx) = 2000 /\
     td_cashAmount (t_data tx) = Some (Js.Num 5000) /\
     td_changeAmount (t_data tx) = Some (Js.Num 3000)) /\
  (forall line,
      cart Sample.paid = [line] -> ci_price line = 1000 ->
      ci_quantity line = 2 -> 5000 = 5000 ->
      cartTotal (cart Sample.paid) = 2000 /\
      5000 - cartTotal (cart Sample.paid) = 3000).
Proof.
  apply (cash_checkout_records_change Sample.host (Some Sample.kasir) Sample.paid
           Sample.store 5000).
  - reflexivity.
  - reflexivity.
  - vm_compute. discriminate.
Defined.

Lemma non_cash_checkout_skips_cash_witness :
  (handleCheckout Sample.host (Some Sample.kasir) Sample.byCard Sample.store).1.1 = Completed.
Proof.
  apply (non_cash_checkout_skips_cash Sample.host (Some Sample.kasir) Sample.byCard
           Sample.store).
  - vm_compute. discriminate.
  - vm_compute. discriminate.
  - intros n. reflexivity.
Defined.

(** C6, as the claim states it, fails. The page keeps the product list
    it fetched when it opened: after a first checkout of the two items
    in stock the cart still accepts two items, and the second checkout
    writes a stock of -2. *)
Lemma second_checkout_overdraws_stock :
  Sample.firstSale.1.1 = Completed /\
  stockOf Sample.firstSale.2 "sku-1" = Some 0 /\
  reachable Sample.catalog Sample.secondCart /\
  Forall (withinStock Sample.catalog) (cart Sample.secondCart) /\
  Sample.secondSale.1.1 = Completed /\
  stockOf Sample.secondSale.2 "sku-1" = Some (-2) /\
  ~ (forall P st, stockOf Sample.secondSale.2 P = Some st -> 0 <= st).
Proof.
  assert (reachable Sample.catalog Sample.secondCart) as Hreach.
  { apply (reachable_step _ _ (AddToCart Sample.product)).
    - apply (reachable_step _ _ (AddToCart Sample.product)).
      + apply reachable_start; reflexivity.
      + apply list_elem_of_here.
    - apply list_elem_of_here. }
  split_and!.
  - reflexivity.
  - reflexivity.
  - done.
  - apply reachable_invariant; [apply NoDup_singleton|done].
  - reflexivity.
  - reflexivity.
  - intros Hall. specialize (Hall "sku-1"%string (-2) eq_refl). lia.
Qed.

Lemma checkout_keeps_stock_nonnegative_witness :
  handleCheckout Sample.host (Some Sample.kasir) Sample.paid Sample.store
  = (Completed, Sample.firstSale.1.2, Sample.firstSale.2) /\
  stockOf Sample.store "sku-1" = Some 2 /\
  (forall P st', stockOf Sample.firstSale.2 P = Some st' -> 0 <= st').
Proof.
  split; [exact sample_first_sale|]. split; [reflexivity|].
  apply (checkout_keeps_stock_nonnegative Sample.host (Some Sample.kasir) Sample.paid
           Sample.store Completed Sample.firstSale.1.2 Sample.firstSale.2).
  - exact sample_first_sale.
  - apply NoDup_singleton.
  - intros P st. unfold stockOf. simpl.
    destruct (decide (P = "sku-1"%string)) as [->|Hne].
    + rewrite lookup_singleton_eq. intros [= <-]. simpl. lia.
    + rewrite lookup_singleton_ne by done. discriminate.
  - intros item st Hin.
    apply list_elem_of_singleton in Hin. subst item. simpl.
    unfold stockOf. simpl. rewrite lookup_singleton_eq.
    intros [= <-]. simpl. lia.
Defined.

End CheckoutScenarios.

(* ===================================================================== *)
(** * Transaction history: the date buckets *)
(* ===================================================================== *)

Section DateBuckets.

Import PosTransactions HistoryBuckets.
Local Open Scope Z_scope.

Variable h : Host.

Lemma elem_of_filter_list {A : Type} (f : A -> bool) (l : list A) (x : A) :
  x ∈ List.filter f l <-> x ∈ l /\ f x = true.
Proof. rewrite !list_elem_of_In. apply filter_In. Qed.

Lemma isWithinInterval_spec (t start end_ : Z) :
  isWithinInterval (Some t) start end_ = true <-> start <= t <= end_.
Proof.
  unfold isWithinInterval.
  rewrite andb_true_iff, !bool_decide_eq_true. done.
Qed.

(** Where the zone keeps one offset, the day of an instant is the
    calendar day at that offset, from its first to its last
    millisecond. *)
Lemma steady_day (off from to t : Z) :
  steady h off from to ->
  from + msPerDay <= t -> t + msPerDay <= to ->
  startOfDay h t = dayAt off t * msPerDay - off /\
  endOfDay h t = dayAt off t * msPerDay + (msPerDay - 1) - off.
Proof.
  intros Hsteady Hfrom Hto.
  destruct (Hsteady t) as [Ht _]; [unfold msPerDay in *; lia|].
  unfold startOfDay, endOfDay, setHours, UTC, LocalTime, MakeDate, MakeTime,
    Day, dayAt.
  rewrite Ht.
  pose proof (Z.div_mod (t + off) msPerDay) as Hdiv.
  pose proof (Z.mod_pos_bound (t + off) msPerDay) as Hmod.
  unfold msPerDay in *.
  set (d := (t + off) / 86400000) in *.
  set (r := (t + off) mod 86400000) in *.
  destruct (Hsteady (d * 86400000 - off)) as [_ Hs]; [lia|].
  destruct (Hsteady (d * 86400000 + 86399999 - off)) as [_ He]; [lia|].
  replace (d * 86400000 - off + off) with (d * 86400000) in Hs by lia.
  replace (d * 86400000 + 86399999 - off + off)
    with (d * 86400000 + 86399999) in He by lia.
  split.
  - replace (d * 86400000 + (0 * 3600000 + 0 * 60000 + 0 * 1000 + 0))
      with (d * 86400000) by lia.
    rewrite Hs. lia.
  - replace (d * 86400000 + (23 * 3600000 + 59 * 60000 + 59 * 1000 + 999))
      with (d * 86400000 + 86399999) by lia.
    rewrite He. lia.
Qed.

(** There, going back [n] days is going back [n] times 24 hours. *)
Lemma steady_subDays (off from to t n : Z) :
  steady h off from to ->
  0 <= n -> from <= t - n * msPerDay -> t <= to ->
  subDays h t n = t - n * msPerDay.
Proof.
  intros Hsteady Hn Hfrom Hto.
  unfold subDays, addDays.
  destruct (decide (- n = 0)) as [Hz|Hnz]; [lia|].
  destruct (Hsteady t) as [Ht _]; [unfold msPerDay in *; lia|].
  destruct (Hsteady (t - n * msPerDay)) as [_ Hb];
    [unfold msPerDay in *; lia|].
  unfold setDate_getDate_plus, UTC, LocalTime, MakeDate, Day, TimeWithinDay.
  rewrite Ht.
  pose proof (Z.div_mod (t + off) msPerDay) as Hdiv.
  assert (((t + off) / msPerDay + - n) * msPerDay + (t + off) mod msPerDay
          = t - n * msPerDay + off) as -> by (unfold msPerDay in *; lia).
  rewrite Hb. lia.
Qed.

Lemma dayAt_back (off t n : Z) :
  dayAt off (t - n * msPerDay) = dayAt off t - n.
Proof.
  unfold dayAt.
  replace (t - n * msPerDay + off) with (t + off + (- n) * msPerDay) by lia.
  rewrite Z.div_add by done. lia.
Qed.



Lemma startOfDay_day (t : Z) :
  startOfDay h t = UTC h (Day (LocalTime h t) * msPerDay).
Proof.
  unfold startOfDay, setHours, MakeDate, MakeTime. f_equal. lia.
Qed.

Lemma endOfDay_day (t : Z) :
  endOfDay h t = UTC h (Day (LocalTime h t) * msPerDay + (msPerDay - 1)).
Proof.
  unfold endOfDay, setHours, MakeDate, MakeTime. f_equal.
Qed.

(** In a zone whose days are in order, going back more days leads to an
    earlier local day (or the same). *)
Lemma subDays_day (t n n' : Z) :
  orderly h -> 0 <= n <= n' ->
  Day (LocalTime h (subDays h t n')) <= Day (LocalTime h (subDays h t n)).
Proof.
  intros (_ & _ & Hlater & Hsame) Hn.
  assert (forall k, 0 < k ->
            subDays h t k = UTC h (LocalTime h t - k * msPerDay)) as Hsub.
  { intros k Hk. unfold subDays, addDays.
    destruct (decide (- k = 0)); [lia|].
    unfold setDate_getDate_plus, MakeDate, Day, TimeWithinDay. f_equal.
    pose proof (Z.div_mod (LocalTime h t) msPerDay). unfold msPerDay in *. lia. }
  destruct (decide (n' = 0)) as [->|Hn']; [by replace n with 0 by lia|].
  rewrite (Hsub n') by lia.
  destruct (decide (n = 0)) as [->|Hn0].
  - change (subDays h t 0) with t.
    transitivity (Day (LocalTime h (UTC h (LocalTime h t))));
      [|by rewrite Hsame].
    apply Hlater. unfold msPerDay. lia.
  - rewrite (Hsub n) by lia. apply Hlater. unfold msPerDay. nia.
Qed.

(** There, the day an instant is on starts and ends no later than the
    day a later instant is on. *)
Lemma days_in_order (t t' : Z) :
  orderly h ->
  Day (LocalTime h t) <= Day (LocalTime h t') ->
  startOfDay h t <= startOfDay h t' /\ endOfDay h t <= endOfDay h t'.
Proof.
  intros (Horder & _) Hdays. rewrite !startOfDay_day, !endOfDay_day.
  by apply Horder.
Qed.



End DateBuckets.

Section DateBucketsSample.

Import PosTransactions HistoryBuckets.
Local Open Scope Z_scope.



End DateBucketsSample.

(* ===================================================================== *)
(** * Sales report: orders and revenue of a month *)
(* ===================================================================== *)

Section SalesReport.

Import SalesRevenueReport Buckets.
Local Open Scope Z_scope.

Variable h : Host.

Lemma aggregate_from (snapshot : list Order) (acc : Z * Z) :
  fold_left
    (fun acc order => (fst acc + 1, snd acc + total_price_or_0 order))
    snapshot acc
  = (fst acc + Z.of_nat (length snapshot), snd acc + revenueSum snapshot).
Proof.
  revert acc. induction snapshot as [|order rest IH]; intros [a b]; simpl.
  - f_equal; lia.
  - rewrite IH. simpl. unfold total_price_or_0.
    destruct (total_price order); simpl; f_equal; lia.
Qed.

Lemma aggregate_bucket (snapshot : list Order) :
  aggregate snapshot = (Z.of_nat (length snapshot), revenueSum snapshot).
Proof. unfold aggregate. by rewrite aggregate_from. Qed.

Lemma chartPoint_run (s : State) (i : Z) (w : World) :
  is_Some (orders_of h (fetches w) (currentDate s - i)) ->
  exists pt w',
    chartPoint h s i w = (Some pt, w') /\
    fetches w' = S (fetches w) /\
    charted h s (fetches w) i pt.
Proof.
  intros [snapshot Hq].
  unfold chartPoint, bind, getDocs, subMonths. rewrite Hq, aggregate_bucket.
  case_bool_decide as Hempty.
  - unfold randomInt, ret. simpl. eexists _, _.
    split_and!; [done|done|]. split; [done|].
    intros snapshot' Hq'. rewrite Hq in Hq'. injection Hq' as <-.
    split; [intros Hne; by destruct snapshot|].
    intros _. exists (draws w). done.
  - unfold ret. simpl. eexists _, _.
    split_and!; [done|done|]. split; [done|].
    intros snapshot' Hq'. rewrite Hq in Hq'. injection Hq' as <-.
    split; [done|]. intros ->. done.
Qed.

Lemma pushAll_chart (s : State) (indices : list Z) (acc : list ChartData)
    (w : World) :
  answers h ->
  exists pts w',
    pushAll (chartPoint h s) indices acc w = (Some (acc ++ pts), w') /\
    length pts = length indices /\
    forall (j : nat) i,
      indices !! j = Some i ->
      exists pt, pts !! j = Some pt /\
                 charted h s (fetches w + j)%nat i pt.
Proof.
  intros Hans. revert acc w.
  induction indices as [|i rest IH]; intros acc w; simpl.
  - exists [], w. rewrite app_nil_r. split_and!; [done|done|].
    intros j i Hj. by rewrite lookup_nil in Hj.
  - destruct (chartPoint_run s i w (Hans _ _)) as (pt & w1 & Hrun & Hf & Hpt).
    unfold bind at 1. rewrite Hrun.
    destruct (IH (acc ++ [pt]) w1) as (pts & w' & Hrest & Hlen & Hall).
    exists (pt :: pts), w'. split_and!.
    + rewrite Hrest. by rewrite <- app_assoc.
    + simpl. by rewrite Hlen.
    + intros [|j] i' Hj; simpl in Hj.
      * injection Hj as <-. exists pt. split; [done|].
        by rewrite Nat.add_0_r.
      * destruct (Hall j i' Hj) as (pt' & Hpt' & Hch).
        exists pt'. split; [done|].
        rewrite Hf in Hch. by rewrite Nat.add_succ_r.
Qed.

Lemma fetchChartData_salesData (s : State) (w : World) :
  salesData (fetchChartData h s w).1 = salesData s.
Proof.
  unfold fetchChartData.
  destruct (pushAll (chartPoint h s) lastSixMonths [] w) as [[cd|] w1]; [done|].
  by destruct (pushAll (dummyPoint h s) lastSixMonths [] w1) as [[cd|] w2].
Qed.

(** C8, as the code has it. When the query for the selected month is
    answered, the effect stores the number of fetched orders and the sum
    of their total_price values, a missing one counted as 0.  When every
    query is answered, the chart has six points, one per month from five
    months back to the selected month, each from a query of its own; the
    point of a month with fetched orders carries their number and their
    revenue sum, the point of a month without any carries figures made
    from Math.random(). *)
Theorem monthly_sales_of_fetched_orders (s : State) (w : World)
    (snapshot : list Order) :
  orders_of h (fetches w) (currentDate s) = Some snapshot ->
  salesData (fetchMonthlyData h s w).1
  = {| totalOrders := Z.of_nat (length snapshot);
       totalRevenue := revenueSum snapshot |} /\
  (answers h ->
   length (chartData (fetchMonthlyData h s w).1) = 6%nat /\
   forall (j : nat) i,
     lastSixMonths !! j = Some i ->
     exists pt,
       chartData (fetchMonthlyData h s w).1 !! j = Some pt /\
       charted h s (S (fetches w) + j)%nat i pt).
Proof.
  intros Hq. unfold fetchMonthlyData, getDocs. rewrite Hq, aggregate_bucket.
  set (s2 := setSalesData _ _). set (w1 := {| fetches := _; draws := _ |}).
  split.
  - pose proof (fetchChartData_salesData s2 w1) as Hsd.
    destruct (fetchChartData h s2 w1) as [s3 w2]. simpl in *. by rewrite Hsd.
  - intros Hans. unfold fetchChartData.
    destruct (pushAll_chart s2 lastSixMonths [] w1 Hans)
      as (pts & w' & Hrun & Hlen & Hall).
    rewrite Hrun. simpl. split; [done|].
    intros j i Hj. destruct (Hall j i Hj) as (pt & Hpt & Hch).
    exists pt. split; [done|]. exact Hch.
Qed.

End SalesReport.

Section SalesReportSample.

Import SalesRevenueReport Buckets.
Local Open Scope Z_scope.

Lemma sample_answers : answers SampleReport.host.
Proof.
  intros n month. simpl. destruct (decide (month = SampleReport.march)); eauto.
Defined.

Lemma monthly_sales_of_fetched_orders_witness :
  salesData
    (fetchMonthlyData SampleReport.host SampleReport.opened SampleReport.world).1
  = {| totalOrders := 3; totalRevenue := 1500 |} /\
  (answers SampleReport.host ->
   length (chartData (fetchMonthlyData SampleReport.host SampleReport.opened
                        SampleReport.world).1) = 6%nat /\
   forall (j : nat) i,
     lastSixMonths !! j = Some i ->
     exists pt,
       chartData (fetchMonthlyData SampleReport.host SampleReport.opened
                    SampleReport.world).1 !! j = Some pt /\
       charted SampleReport.host SampleReport.opened
         (S (fetches SampleReport.world) + j)%nat i pt).
Proof.
  apply (monthly_sales_of_fetched_orders SampleReport.host SampleReport.opened
           SampleReport.world
           [ {| total_price := Some 1000 |}; {| total_price := None |};
             {| total_price := Some 500 |} ]).
  reflexivity.
Defined.

(** C8, as the claim states it, fails. No order was fetched for the
    month five months before March 2024, so the figures derived from the
    fetched orders are 0 orders and 0 revenue; the chart shows 30 orders
    and a revenue of 550000 for it, made from Math.random(). *)
Lemma quiet_month_charted_with_random_figures :
  let s' := (fetchMonthlyData SampleReport.host SampleReport.opened
               SampleReport.world).1 in
  orders_of SampleReport.host 1%nat (currentDate SampleReport.opened - 5)
  = Some [] /\
  (Z.of_nat (length (@nil Order)), revenueSum []) = (0, 0) /\
  (fun pt => (orders pt, revenue pt)) <$> chartData s'
  = [ (30, 550000); (30, 550000); (30, 550000); (30, 550000); (30, 550000);
      (3, 1500) ] /\
  salesData s' = {| totalOrders := 3; totalRevenue := 1500 |}.
Proof. vm_compute. split_and!; reflexivity. Qed.

End SalesReportSample.

(* ===================================================================== *)
(** * Financial dashboard: the monthly estimate *)
(* ===================================================================== *)

Section Finance.

Import FinancialDashboard Estimates.
Local Open Scope Z_scope.

Variable h : Host.

Lemma totals_from (snapshot : list Order) (acc : Z * Z) :
  fold_left
    (fun acc order =>
       (fst acc + or_0 (total_price order), snd acc + or_0 (shipping_fee order)))
    snapshot acc
  = (fst acc + revenueOf snapshot, snd acc + shippingOf snapshot).
Proof.
  revert acc. induction snapshot as [|order rest IH]; intros [a b]; simpl.
  - f_equal; lia.
  - rewrite IH. simpl.
    destruct (total_price order), (shipping_fee order); simpl; f_equal; lia.
Qed.

Lemma totals_sums (snapshot : list Order) :
  totals snapshot = (revenueOf snapshot, shippingOf snapshot).
Proof. unfold totals. by rewrite totals_from. Qed.

(** The figures the code derives are those of the specification. *)
Lemma estimate_of_totals (revenue shippingFees : Z) :
  estimated revenue shippingFees
    (inject_Z revenue - inject_Z (revenue - shippingFees) * (1 # 2))%Q
    (inject_Z revenue - inject_Z (revenue - shippingFees) * (1 # 2)
     - inject_Z 50000)%Q.
Proof.
  unfold estimated. split.
  - unfold Z.sub. rewrite inject_Z_plus, inject_Z_opp. reflexivity.
  - reflexivity.
Qed.

Lemma estimate_point_run (s : State) (i : Z) (n : nat) :
  is_Some (orders_of h n (currentDate s - i)) ->
  exists pt,
    chartPoint h s i n = (Some pt, S n) /\ charted h s n i pt.
Proof.
  intros [snapshot Hq].
  unfold chartPoint, bind, getDocs, subMonths, ret. rewrite Hq, totals_sums.
  eexists. split; [done|]. split; [done|].
  exists snapshot. simpl. split_and!; [done|done|done|].
  apply estimate_of_totals.
Qed.

Lemma estimate_points (s : State) (indices : list Z) (acc : list ChartData)
    (n : nat) :
  answers h ->
  exists pts,
    pushAll (chartPoint h s) indices acc n
    = (Some (acc ++ pts), (n + length indices)%nat) /\
    length pts = length indices /\
    forall (j : nat) i,
      indices !! j = Some i ->
      exists pt, pts !! j = Some pt /\ charted h s (n + j)%nat i pt.
Proof.
  intros Hans. revert acc n.
  induction indices as [|i rest IH]; intros acc n; simpl.
  - exists []. rewrite app_nil_r, Nat.add_0_r. split_and!; [done|done|].
    intros j i Hj. by rewrite lookup_nil in Hj.
  - destruct (estimate_point_run s i n (Hans _ _)) as (pt & Hrun & Hpt).
    unfold bind at 1. rewrite Hrun.
    destruct (IH (acc ++ [pt]) (S n)) as (pts & Hrest & Hlen & Hall).
    exists (pt :: pts). split_and!.
    + rewrite Hrest, <- app_assoc. simpl. do 2 f_equal. lia.
    + simpl. by rewrite Hlen.
    + intros [|j] i' Hj; simpl in Hj.
      * injection Hj as <-. exists pt. split; [done|].
        by rewrite Nat.add_0_r.
      * destruct (Hall j i' Hj) as (pt' & Hpt' & Hch).
        exists pt'. split; [done|].
        by rewrite Nat.add_succ_r.
Qed.

Lemma fetchChartData_financials (s : State) (n : nat) :
  financials (fetchChartData h s n).1 = financials s.
Proof.
  unfold fetchChartData.
  by destruct (pushAll (chartPoint h s) lastSixMonths [] n) as [[cd|] n1].
Qed.

(** C9. When the query for the selected month is answered, the stored
    financials have as revenue and shipping fees the sums over the
    fetched orders, as expenses 50000, and as profits the estimate
    productCost = (revenue - shippingFees) * 0.5,
    grossProfit = revenue - productCost, netProfit = grossProfit - 50000;
    when every query is answered, each of the six points of the chart is
    that same estimate for the orders fetched for its month. *)
Theorem monthly_estimate (s : State) (n : nat) (snapshot : list Order) :
  orders_of h n (currentDate s) = Some snapshot ->
  let f := financials (fetchMonthlyData h s n).1 in
  revenue f = revenueOf snapshot /\
  shippingFees f = shippingOf snapshot /\
  expenses f = 50000 /\
  estimated (revenue f) (shippingFees f) (grossProfit f) (netProfit f) /\
  (answers h ->
   length (chartData (fetchMonthlyData h s n).1) = 6%nat /\
   forall (j : nat) i,
     lastSixMonths !! j = Some i ->
     exists pt,
       chartData (fetchMonthlyData h s n).1 !! j = Some pt /\
       charted h s (S n + j)%nat i pt).
Proof.
  intros Hq. unfold fetchMonthlyData, getDocs. rewrite Hq.
  set (s2 := setFinancials _ _).
  assert (financials (let '(s3, n2) := fetchChartData h s2 (S n) in
                      (setIsLoading false s3, n2)).1
          = monthlyFinancials snapshot) as Hfin.
  { pose proof (fetchChartData_financials s2 (S n)) as Hf.
    destruct (fetchChartData h s2 (S n)) as [s3 n2]. simpl in *. by rewrite Hf. }
  simpl. rewrite Hfin. unfold monthlyFinancials. rewrite totals_sums. simpl.
  split_and!; [done|done|done|apply estimate_of_totals|].
  intros Hans. unfold fetchChartData.
  destruct (estimate_points s2 lastSixMonths [] (S n) Hans)
    as (pts & Hrun & Hlen & Hall).
  rewrite Hrun. simpl. split; [done|].
  intros j i Hj. destruct (Hall j i Hj) as (pt & Hpt & Hch).
  exists pt. split; [done|]. exact Hch.
Qed.

End Finance.

Section FinanceSample.

Import FinancialDashboard Estimates.
Local Open Scope Z_scope.

Lemma monthly_estimate_witness :
  let f := financials
             (fetchMonthlyData SampleFinance.host SampleFinance.opened 0).1 in
  revenue f = 200000 /\
  shippingFees f = 20000 /\
  expenses f = 50000 /\
  estimated (revenue f) (shippingFees f) (grossProfit f) (netProfit f) /\
  (answers SampleFinance.host ->
   length (chartData
             (fetchMonthlyData SampleFinance.host SampleFinance.opened 0).1)
   = 6%nat /\
   forall (j : nat) i,
     lastSixMonths !! j = Some i ->
     exists pt,
       chartData (fetchMonthlyData SampleFinance.host SampleFinance.opened 0).1
         !! j = Some pt /\
       charted SampleFinance.host SampleFinance.opened (1 + j)%nat i pt).
Proof.
  apply (monthly_estimate SampleFinance.host SampleFinance.opened 0
           [ {| total_price := Some 120000; shipping_fee := Some 20000 |};
             {| total_price := Some 80000; shipping_fee := None |} ]).
  reflexivity.
Defined.

(** On the sample: revenue 200000 and shipping fees 20000 give a gross
    profit of 110000 and a net profit of 60000. *)
Lemma sample_estimate :
  let f := financials
             (fetchMonthlyData SampleFinance.host SampleFinance.opened 0).1 in
  (grossProfit f == 110000)%Q /\ (netProfit f == 60000)%Q.
Proof. vm_compute. split; reflexivity. Qed.

End FinanceSample.

(* ===================================================================== *)
(** * Checkout: button, receipt, failure *)
(* ===================================================================== *)

Section CheckoutPage.

Import PosSales CartSession StockLedger PosSalesPage.
Local Open Scope Z_scope.

Variable h : Host.

Lemma handleCheckout_rejected_iff (user : option User) (s : State)
    (fs : Firestore) :
  (handleCheckout h user s fs).1.1 = Rejected <->
  bool_decide (length (cart s) = 0%nat)
  || (bool_decide (paymentMethod s = "Tunai"%string)
      && Js.lt (Number_ h (cashAmount s)) (Js.Num (cartTotal (cart s)))) = true.
Proof.
  unfold handleCheckout.
  destruct (bool_decide (length (cart s) = 0%nat)); simpl; [done|].
  destruct (_ && _); simpl; [done|].
  by destruct (checkoutBody h user s fs) as [[upd|] fs1].
Qed.

(** A rejected checkout adds one toast to the state. *)
Lemma handleCheckout_rejected_state (user : option User) (s : State)
    (fs : Firestore) (s' : State) (fs' : Firestore) :
  handleCheckout h user s fs = (Rejected, s', fs') ->
  exists t, s' = toast t s.
Proof.
  unfold handleCheckout.
  case_bool_decide; [intros [= <- _]; by eexists|].
  destruct (_ && _); [intros [= <- _]; by eexists|].
  by destruct (checkoutBody h user s fs) as [[upd|] fs1].
Qed.

(** The state a completed checkout leaves. *)
Lemma handleCheckout_completed_state (user : option User) (s : State)
    (fs : Firestore) (s' : State) (fs' : Firestore) :
  handleCheckout h user s fs = (Completed, s', fs') ->
  s' = setIsProcessing false
         (toast (info "Transaksi Berhasil")
            (setCashAmount ""
               (setCustomerName ""
                  (setCart []
                     (setRecentTransactions
                        (take 5 (stored h user s fs :: recentTransactions s))
                        (setShowReceipt true
                           (setCurrentTransaction (Some (stored h user s fs))
                              (setIsProcessing true s)))))))).
Proof.
  unfold handleCheckout.
  case_bool_decide; [done|]. destruct (_ && _); [done|].
  unfold checkoutBody, bind, addDoc, sdk. simpl.
  destruct (sdk_throws h (fs_calls fs)); simpl; [done|].
  match goal with
  | |- context [for_of (cart s) (updateStock h) ?fs1] =>
      destruct (for_of (cart s) (updateStock h) fs1) as [[[]|] fs2]
  end; simpl; [|done].
  by intros [= <- <-].
Qed.

(** When the stock loop throws, it has not gone through the whole cart. *)
Lemma stock_loop_failed (lines : list CartItem) (fs : Firestore) :
  (for_of lines (updateStock h) fs).1 = None ->
  exists k : nat,
    (k < length lines)%nat /\
    fs_products (for_of lines (updateStock h) fs).2
    = fold_left (decrement (now_iso h)) (take k lines) (fs_products fs).
Proof.
  revert fs. induction lines as [|item rest IH]; intros fs; [done|].
  rewrite for_of_cons.
  destruct (updateStock_cases h item fs) as [(Htx & Hr & Hp)|(Htx & Hr & Hp)];
    destruct (updateStock h item fs) as [r fs1]; simpl in *; subst r.
  - intros Hnone. destruct (IH fs1 Hnone) as (k & Hk & Hprod).
    exists (S k). simpl. split; [lia|]. by rewrite Hprod, Hp.
  - intros _. exists 0%nat. simpl. split; [lia|done].
Qed.

(** What a failed checkout leaves. *)
Lemma handleCheckout_failed (user : option User) (s : State)
    (fs : Firestore) (s' : State) (fs' : Firestore) :
  handleCheckout h user s fs = (Failed, s', fs') ->
  s' = setIsProcessing false
         (toast (warn "Transaksi Gagal") (setIsProcessing true s)) /\
  ((fs_pos_transactions fs' = fs_pos_transactions fs /\
    fs_products fs' = fs_products fs) \/
   (fs_pos_transactions fs' = fs_pos_transactions fs ++ [stored h user s fs] /\
    exists k : nat,
      (k < length (cart s))%nat /\
      fs_products fs'
      = fold_left (decrement (now_iso h)) (take k (cart s)) (fs_products fs))).
Proof.
  unfold handleCheckout.
  case_bool_decide; [done|]. destruct (_ && _); [done|].
  unfold checkoutBody, bind, addDoc, sdk. simpl.
  destruct (sdk_throws h (fs_calls fs)); simpl.
  - intros [= <- <-]. split; [done|]. by left.
  - set (fs1 := {| fs_products := fs_products fs;
                   fs_pos_transactions := _; fs_calls := _ |}).
    pose proof (stock_loop h (cart s) fs1) as (Htx & _).
    pose proof (stock_loop_failed (cart s) fs1) as Hfail.
    destruct (for_of (cart s) (updateStock h) fs1) as [[[]|] fs2]; simpl in *;
      [done|].
    intros [= <- <-]. split; [done|]. right. split; [done|].
    by apply Hfail.
Qed.

(** X1. The checkout button is disabled exactly when a checkout is
    running or when handleCheckout would return at one of its two
    validations. *)
Theorem checkout_button_guards_handler (user : option User) (s : State)
    (fs : Firestore) :
  checkoutDisabled h s = true <->
  isProcessing s = true \/ (handleCheckout h user s fs).1.1 = Rejected.
Proof.
  rewrite handleCheckout_rejected_iff. unfold checkoutDisabled.
  destruct (isProcessing s); simpl; [by split; [left|]|].
  split; [by right|]. by intros [|].
Qed.

(** X2. After a completed checkout the transaction kept for the receipt
    is the one that was stored: [showReceipt] is set, and
    [currentTransaction] is the document added last to
    [pos_transactions], under the identifier the store gave it, with the
    cart as its lines; the same transaction heads the list of recent
    transactions.  Its total is the sum of price times quantity over its
    lines.  When the sale was paid in cash with a numeric amount, the
    change line under the cash field was shown, the stored change is the
    amount that line showed, it is not negative, and cash minus change is
    the total. *)
Theorem completed_sale_receipt_adds_up (user : option User) (s : State)
    (fs : Firestore) (s' : State) (fs' : Firestore) :
  handleCheckout h user s fs = (Completed, s', fs') ->
  exists tx,
    fs_pos_transactions fs' = fs_pos_transactions fs ++ [tx] /\
    currentTransaction s' = Some tx /\
    showReceipt s' = true /\
    head (recentTransactions s') = Some tx /\
    t_id tx = autoId h (length (fs_pos_transactions fs)) /\
    td_items (t_data tx) = cart s /\
    td_total (t_data tx) = sumOfLines (td_items (t_data tx)) /\
    (forall cash,
        paymentMethod s = "Tunai"%string ->
        Number_ h (cashAmount s) = Js.Num cash ->
        changeShown h s = true /\
        td_cashAmount (t_data tx) = Some (Js.Num cash) /\
        td_changeAmount (t_data tx) = Some (changeAmount h s) /\
        exists change,
          changeAmount h s = Js.Num change /\
          0 <= change /\
          cash - change = td_total (t_data tx)).
Proof.
  intros Hrun.
  destruct (handleCheckout_accepts h user s fs _ _ _ Hrun)
    as (_ & Hok & _ & _ & Hend); [done|].
  destruct (Hend eq_refl) as (Hstored & _).
  rewrite (handleCheckout_completed_state _ _ _ _ _ Hrun).
  exists (stored h user s fs). simpl.
  split_and!; [done|done|done|done|done|done|apply cartTotal_sum|].
  intros cash Hpay Hnum.
  rewrite !bool_decide_eq_true_2 by done.
  rewrite bool_decide_eq_true_2, Hnum in Hok by done. simpl in Hok.
  apply bool_decide_eq_false in Hok.
  unfold changeShown, changeAmount. rewrite Hnum. simpl.
  split_and!; [apply bool_decide_eq_true; lia|done|done|].
  exists (cash - cartTotal (cart s)). split_and!; [done|lia|lia].
Qed.

(** The cart controls leave the payment form alone. *)
Lemma toasts_keep_form {X : Type} (t : Toast) (warned : list X) (s : State) :
  paymentMethod (fold_left (fun st _ => toast t st) warned s) = paymentMethod s /\
  cashAmount (fold_left (fun st _ => toast t st) warned s) = cashAmount s.
Proof.
  revert s. induction warned as [|w warned IH]; intros s; simpl; [done|].
  destruct (IH (toast t s)) as [-> ->]. done.
Qed.

Lemma step_keeps_form (a : Action) (s : State) :
  paymentMethod (step a s) = paymentMethod s /\
  cashAmount (step a s) = cashAmount s.
Proof.
  destruct a as [product|id change|id]; simpl.
  - unfold addToCart. case_bool_decide; [done|].
    destruct (List.find _ _); [|done]. by case_bool_decide.
  - unfold updateQuantity.
    match goal with
    | |- context [fold_left _ ?warned ?st] =>
        destruct (toasts_keep_form (warn "Stok Terbatas") warned st) as [-> ->]
    end.
    done.
  - done.
Qed.

Lemma run_keeps_form (actions : list Action) (s : State) :
  paymentMethod (run actions s) = paymentMethod s /\
  cashAmount (run actions s) = cashAmount s.
Proof.
  revert s. induction actions as [|a actions IH]; intros s; [done|].
  unfold run in *. simpl. destruct (IH (step a s)) as [-> ->].
  apply step_keeps_form.
Qed.

(** X3. The cash amount is typed anew for each sale.  A completed
    checkout clears the cash field and leaves the payment method, the
    cart controls touch neither, and the empty field counts as 0.  So
    after a sale paid in cash, whatever is then put into the cart, as
    long as nothing is typed and the total is positive the checkout
    button is disabled, and [handleCheckout] returns at the cash
    validation with "Pembayaran Kurang" and writes nothing. *)
Theorem cash_is_typed_for_each_sale (user user' : option User) (s : State)
    (fs : Firestore) (s' : State) (fs' : Firestore) (actions : list Action)
    (later : Firestore) :
  Number_ h "" = Js.Num 0 ->
  handleCheckout h user s fs = (Completed, s', fs') ->
  paymentMethod s = "Tunai"%string ->
  0 < cartTotal (cart (run actions s')) ->
  cashAmount (run actions s') = ""%string /\
  paymentMethod (run actions s') = "Tunai"%string /\
  checkoutDisabled h (run actions s') = true /\
  handleCheckout h user' (run actions s') later
  = (Rejected, toast (warn "Pembayaran Kurang") (run actions s'), later).
Proof.
  intros Hempty Hrun Hpay Htotal.
  pose proof (handleCheckout_completed_state _ _ _ _ _ Hrun) as Hs'.
  assert (paymentMethod s' = "Tunai"%string) as Hp' by (by rewrite Hs').
  assert (cashAmount s' = ""%string) as Hc' by (by rewrite Hs').
  clear Hs'. destruct (run_keeps_form actions s') as [Hp Hc].
  rewrite Hp' in Hp. rewrite Hc' in Hc.
  set (s2 := run actions s') in *.
  assert (cart s2 <> []) as Hne.
  { intros Hnil. rewrite Hnil in Htotal. unfold cartTotal in Htotal.
    simpl in Htotal. lia. }
  assert (bool_decide (length (cart s2) = 0%nat) = false) as Hlen.
  { apply bool_decide_eq_false. by destruct (cart s2). }
  assert (bool_decide (paymentMethod s2 = "Tunai"%string)
          && Js.lt (Number_ h (cashAmount s2)) (Js.Num (cartTotal (cart s2)))
          = true) as Hshort.
  { rewrite Hc, Hempty, bool_decide_eq_true_2 by done. simpl.
    by apply bool_decide_eq_true. }
  split_and!; [done|done| |].
  - unfold checkoutDisabled. rewrite Hshort. apply orb_true_r.
  - unfold handleCheckout. by rewrite Hlen, Hshort.
Qed.

(** X4. A failed checkout is not rolled back. The cart, the customer name
    and the cash amount are kept, the spinner is off and the list of
    recent transactions is as before; in the store either nothing was
    written, or the transaction was stored and the stock decrements of the
    lines before the failing one were applied, those of the other lines
    not. *)
Theorem failed_checkout_is_not_rolled_back (user : option User) (s : State)
    (fs : Firestore) (s' : State) (fs' : Firestore) :
  handleCheckout h user s fs = (Failed, s', fs') ->
  cart s' = cart s /\
  customerName s' = customerName s /\
  cashAmount s' = cashAmount s /\
  recentTransactions s' = recentTransactions s /\
  isProcessing s' = false /\
  toasts s' = toasts s ++ [warn "Transaksi Gagal"] /\
  ((fs_pos_transactions fs' = fs_pos_transactions fs /\
    fs_products fs' = fs_products fs) \/
   (fs_pos_transactions fs' = fs_pos_transactions fs ++ [stored h user s fs] /\
    exists k : nat,
      (k < length (cart s))%nat /\
      fs_products fs'
      = fold_left (decrement (now_iso h)) (take k (cart s)) (fs_products fs))).
Proof.
  intros Hrun. destruct (handleCheckout_failed _ _ _ _ _ Hrun) as [-> Hstore].
  by split_and!.
Qed.

(** X5. After a completed checkout the cart is empty, so pressing
    checkout again is refused at the first validation and writes
    nothing: one sale is never stored twice. *)
Theorem checkout_again_is_rejected (user : option User) (s : State)
    (fs : Firestore) (s' : State) (fs' : Firestore) (user' : option User) :
  handleCheckout h user s fs = (Completed, s', fs') ->
  cart s' = [] /\
  handleCheckout h user' s' fs'
  = (Rejected, toast (warn "Keranjang Kosong") s', fs').
Proof.
  intros Hrun. rewrite (handleCheckout_completed_state _ _ _ _ _ Hrun).
  done.
Qed.

(** X6. The list of recent transactions after a checkout: a completed
    checkout puts the new transaction first, keeps the previous ones in
    their order behind it and cuts the list at five; a checkout that was
    rejected or failed leaves the list as it was. *)
Theorem checkout_updates_recent_transactions (user : option User) (s : State)
    (fs : Firestore) (o : Outcome) (s' : State) (fs' : Firestore) :
  handleCheckout h user s fs = (o, s', fs') ->
  (o = Completed ->
   recentTransactions s' = take 5 (stored h user s fs :: recentTransactions s) /\
   head (recentTransactions s') = Some (stored h user s fs) /\
   (length (recentTransactions s') <= 5)%nat) /\
  (o <> Completed -> recentTransactions s' = recentTransactions s).
Proof.
  intros Hrun. split.
  - intros ->. rewrite (handleCheckout_completed_state _ _ _ _ _ Hrun). simpl.
    split_and!; [done|done|].
    rewrite length_take.
    pose proof (Nat.le_min_l 4 (length (recentTransactions s))). lia.
  - intros Hno. destruct o; [|done|].
    + by destruct (handleCheckout_rejected_state _ _ _ _ _ Hrun) as (t & ->).
    + by destruct (handleCheckout_failed _ _ _ _ _ Hrun) as [-> _].
Qed.

End CheckoutPage.

(* ===================================================================== *)
(** * Cart: lines, buttons and total *)
(* ===================================================================== *)

Section CartPage.

Import PosSales CartSession PosSalesPage.
Local Open Scope Z_scope.

Lemma withQuantity_same (item : CartItem) :
  withQuantity item (ci_quantity item) = item.
Proof. by destruct item. Qed.

Lemma step_copied (catalog : list Product) (a : Action) (s : State) :
  products s = catalog -> offered s a ->
  Forall (copiedFrom catalog) (cart s) ->
  Forall (copiedFrom catalog) (cart (step a s)).
Proof.
  intros Hprod Hoff Hall. rewrite Forall_forall in Hall.
  destruct a as [p|id change|id]; simpl in *.
  - unfold addToCart. case_bool_decide; [by apply Forall_forall|].
    destruct (List.find _ (cart s)) as [existing|].
    + case_bool_decide; [by apply Forall_forall|]. simpl.
      apply Forall_forall. intros item' Hin.
      apply list_elem_of_fmap in Hin as (item & -> & Hin).
      case_bool_decide; [|by apply Hall].
      destruct (Hall _ Hin) as (q & Hq & Hid & Hn & Hp & Hc).
      by exists q.
    + simpl. apply Forall_app. split; [by apply Forall_forall|].
      apply Forall_singleton. exists p. rewrite <- Hprod. done.
  - rewrite updateQuantity_cart. apply Forall_forall. intros item' Hin.
    apply list_elem_of_fmap in Hin as (item & -> & Hin).
    destruct (Hall _ Hin) as (q & Hq & Hid & Hn & Hp & Hc).
    unfold updateItem.
    repeat (case_bool_decide || case_match); simpl; by exists q.
  - apply Forall_forall. intros x Hx.
    apply list_elem_of_In, filter_In in Hx as [Hx _].
    by apply Hall, list_elem_of_In.
Qed.

Lemma reachable_copied (catalog : list Product) (s : State) :
  reachable catalog s ->
  products s = catalog /\ Forall (copiedFrom catalog) (cart s).
Proof.
  induction 1 as [s Hp Hc|s a Hreach [Hprod IH] Hoff].
  - split; [done|]. rewrite Hc. apply Forall_nil_2.
  - split; [by rewrite step_products|]. by apply step_copied.
Qed.

(** X7. In every cart state of a session, no two lines are for the same
    product, so the cart has at most as many lines as the product list has
    products; and every line carries the name, the price and the category
    of its product as the product list has them. *)
Theorem cart_lines_are_catalog_copies (catalog : list Product) (s : State) :
  NoDup (map p_id catalog) ->
  reachable catalog s ->
  NoDup (map ci_id (cart s)) /\
  (length (cart s) <= length catalog)%nat /\
  Forall (copiedFrom catalog) (cart s).
Proof.
  intros Hcat Hreach.
  destruct (reachable_invariant catalog s Hcat Hreach) as (_ & Hnd & Hall).
  destruct (reachable_copied catalog s Hreach) as (_ & Hcopy).
  split_and!; [done| |done].
  rewrite <- (length_map ci_id (cart s)), <- (length_map p_id catalog).
  apply submseteq_length, NoDup_submseteq; [done|].
  intros id Hid. apply list_elem_of_fmap in Hid as (item & -> & Hin).
  rewrite Forall_forall in Hall.
  destruct (Hall _ Hin) as (p & Hp & <- & _).
  by apply (list_elem_of_fmap_2 p_id).
Qed.

(** X8. For a product that already has a line in the cart, clicking the
    product and pressing the line's plus button do the same to the cart. *)
Theorem add_click_is_plus_button (catalog : list Product) (s : State)
    (p : Product) (item : CartItem) :
  NoDup (map p_id catalog) ->
  reachable catalog s ->
  p ∈ catalog -> item ∈ cart s -> ci_id item = p_id p ->
  cart (addToCart p s) = cart (updateQuantity (p_id p) 1 s).
Proof.
  intros Hcat Hreach Hp Hin Hid.
  destruct (reachable_invariant catalog s Hcat Hreach) as (Hprod & Hnd & Hall).
  rewrite Forall_forall in Hall.
  destruct (Hall _ Hin) as (q & Hq & Hqid & Hrange).
  assert (q = p) as -> by (apply (same_id_same_product catalog); congruence).
  rewrite updateQuantity_cart. unfold addToCart.
  rewrite bool_decide_eq_false_2 by lia.
  rewrite <- Hid, (find_line (cart s) item) by done.
  assert (forall y, y ∈ cart s -> ci_id y = ci_id item -> y = item) as Hsame.
  { intros y Hy Hyid. by apply (same_id_same_line (cart s)). }
  case_bool_decide as Hmax.
  - symmetry. apply map_unchanged. intros y Hy. unfold updateItem.
    case_bool_decide as Hyid; [|done]. rewrite (Hsame y Hy Hyid).
    rewrite bool_decide_eq_false_2 by lia.
    rewrite Hprod, Hid, (find_product catalog p) by done.
    by rewrite bool_decide_eq_true_2.
  - simpl. apply map_ext_in. intros y Hy. apply list_elem_of_In in Hy.
    unfold updateItem.
    case_bool_decide as Hyid; [|done]. rewrite (Hsame y Hy Hyid).
    rewrite bool_decide_eq_false_2 by lia.
    rewrite Hprod, Hid, (find_product catalog p) by done.
    by rewrite bool_decide_eq_false_2.
Qed.

(** X9. Plus then minus on a line gives the cart back, when the line is
    below its ceiling; minus then plus gives it back, when the line has
    more than one item. *)
Theorem plus_minus_round_trip (catalog : list Product) (s : State)
    (p : Product) (item : CartItem) :
  NoDup (map p_id catalog) ->
  reachable catalog s ->
  p ∈ catalog -> item ∈ cart s -> ci_id item = p_id p ->
  (ci_quantity item + 1 <= p_stock p ->
   cart (updateQuantity (p_id p) (-1) (updateQuantity (p_id p) 1 s)) = cart s) /\
  (2 <= ci_quantity item ->
   cart (updateQuantity (p_id p) 1 (updateQuantity (p_id p) (-1) s)) = cart s).
Proof.
  intros Hcat Hreach Hp Hin Hid.
  destruct (reachable_invariant catalog s Hcat Hreach) as (Hprod & Hnd & Hall).
  rewrite Forall_forall in Hall.
  destruct (Hall _ Hin) as (q & Hq & Hqid & Hrange).
  assert (q = p) as -> by (apply (same_id_same_product catalog); congruence).
  assert (forall y, y ∈ cart s -> ci_id y = p_id p -> y = item) as Hsame.
  { intros y Hy Hyid. apply (same_id_same_line (cart s)); congruence. }
  assert (forall c, products (updateQuantity (p_id p) c s) = catalog) as Hprod'.
  { intros c. pose proof (step_products (UpdateQuantity (p_id p) c) s) as Hs.
    simpl in Hs. congruence. }
  split; intros Hroom.
  - rewrite updateQuantity_cart, Hprod', updateQuantity_cart, map_map, Hprod.
    apply map_unchanged. intros y Hy. unfold updateItem at 2.
    case_bool_decide as Hyid.
    + rewrite (Hsame y Hy Hyid).
      rewrite bool_decide_eq_false_2 by lia.
      rewrite (find_product catalog p) by done.
      rewrite bool_decide_eq_false_2 by lia. simpl.
      unfold updateItem. simpl.
      rewrite bool_decide_eq_true_2 by done.
      rewrite bool_decide_eq_false_2 by lia.
      rewrite (find_product catalog p) by done.
      rewrite bool_decide_eq_false_2 by lia. simpl.
      destruct item; unfold withQuantity; simpl. f_equal. lia.
    + simpl. unfold updateItem. by rewrite bool_decide_eq_false_2.
  - rewrite updateQuantity_cart, Hprod', updateQuantity_cart, map_map, Hprod.
    apply map_unchanged. intros y Hy. unfold updateItem at 2.
    case_bool_decide as Hyid.
    + rewrite (Hsame y Hy Hyid).
      rewrite bool_decide_eq_false_2 by lia.
      rewrite (find_product catalog p) by done.
      rewrite bool_decide_eq_false_2 by lia. simpl.
      unfold updateItem. simpl.
      rewrite bool_decide_eq_true_2 by done.
      rewrite bool_decide_eq_false_2 by lia.
      rewrite (find_product catalog p) by done.
      rewrite bool_decide_eq_false_2 by lia. simpl.
      destruct item; unfold withQuantity; simpl. f_equal. lia.
    + simpl. unfold updateItem. by rewrite bool_decide_eq_false_2.
Qed.

Lemma sumOfLines_app (l k : list CartItem) :
  sumOfLines (l ++ k) = sumOfLines l + sumOfLines k.
Proof. induction l as [|x l IH]; simpl; lia. Qed.

Lemma sumOfLines_without (lines : list CartItem) (item : CartItem) :
  NoDup (map ci_id lines) -> item ∈ lines ->
  sumOfLines
    (List.filter (fun y => negb (bool_decide (ci_id y = ci_id item))) lines)
  = sumOfLines lines - ci_price item * ci_quantity item.
Proof.
  induction lines as [|x l IH]; simpl; intros Hnd Hin.
  - by apply elem_of_nil in Hin.
  - apply NoDup_cons in Hnd as [Hx Hnd].
    apply elem_of_cons in Hin as [->|Hin].
    + rewrite bool_decide_eq_true_2 by done. simpl.
      rewrite List.forallb_filter_id.
      * lia.
      * apply forallb_forall. intros y Hy. apply list_elem_of_In in Hy.
        rewrite bool_decide_eq_false_2; [done|].
        intros Heq. apply Hx. rewrite <- Heq. by apply (list_elem_of_fmap_2 ci_id).
    + rewrite bool_decide_eq_false_2.
      * simpl. rewrite IH by done. lia.
      * intros Heq. apply Hx. rewrite Heq. by apply (list_elem_of_fmap_2 ci_id).
Qed.

Lemma sumOfLines_plus_one (lines : list CartItem) (item : CartItem) :
  NoDup (map ci_id lines) -> item ∈ lines ->
  sumOfLines
    (map (fun y => if bool_decide (ci_id y = ci_id item)
                   then withQuantity y (ci_quantity y + 1) else y) lines)
  = sumOfLines lines + ci_price item.
Proof.
  induction lines as [|x l IH]; simpl; intros Hnd Hin.
  - by apply elem_of_nil in Hin.
  - apply NoDup_cons in Hnd as [Hx Hnd].
    apply elem_of_cons in Hin as [->|Hin].
    + rewrite bool_decide_eq_true_2 by done. simpl.
      rewrite map_unchanged; [lia|].
      intros y Hy. rewrite bool_decide_eq_false_2; [done|].
      intros Heq. apply Hx. rewrite <- Heq. by apply (list_elem_of_fmap_2 ci_id).
    + rewrite bool_decide_eq_false_2.
      * rewrite IH by done. lia.
      * intros Heq. apply Hx. rewrite Heq. by apply (list_elem_of_fmap_2 ci_id).
Qed.

(** X10. What the cart controls do to the total. A click on a product
    raises the total by the product's price when the product is in stock
    and its line, if any, is below its ceiling, and leaves the total as it
    is otherwise; removing a line lowers the total by the line's price
    times its quantity. *)
Theorem cart_controls_move_total (catalog : list Product) (s : State) :
  NoDup (map p_id catalog) ->
  reachable catalog s ->
  (forall p,
      p ∈ catalog ->
      cartTotal (cart (addToCart p s))
      = if bool_decide (p_stock p <= StockLedger.quantityOf (p_id p) (cart s))
        then cartTotal (cart s)
        else cartTotal (cart s) + p_price p) /\
  (forall item,
      item ∈ cart s ->
      cartTotal (cart (removeFromCart (ci_id item) s))
      = cartTotal (cart s) - ci_price item * ci_quantity item).
Proof.
  intros Hcat Hreach.
  destruct (reachable_invariant catalog s Hcat Hreach) as (Hprod & Hnd & Hall).
  destruct (reachable_copied catalog s Hreach) as (_ & Hcopy).
  rewrite Forall_forall in Hall, Hcopy.
  split.
  - intros p Hp. rewrite !cartTotal_sum. unfold addToCart.
    destruct (List.find _ (cart s)) as [item|] eqn:Hf.
    + apply find_some in Hf as [Hin Hid]. apply list_elem_of_In in Hin.
      apply bool_decide_eq_true in Hid.
      destruct (Hall _ Hin) as (q & Hq & Hqid & Hrange).
      assert (q = p) as -> by (apply (same_id_same_product catalog); congruence).
      destruct (Hcopy _ Hin) as (q & Hq' & Hqid' & _ & Hprice & _).
      assert (q = p) as -> by (apply (same_id_same_product catalog); congruence).
      rewrite <- Hid, (quantityOf_line (cart s) item) by done.
      rewrite bool_decide_eq_false_2 by lia.
      case_bool_decide as Hmax.
      * rewrite bool_decide_eq_true_2 by lia. done.
      * rewrite bool_decide_eq_false_2 by lia. simpl.
        rewrite (sumOfLines_plus_one (cart s) item) by done. lia.
    + rewrite quantityOf_absent.
      * case_bool_decide; [done|]. simpl.
        rewrite sumOfLines_app. simpl. lia.
      * intros Hin. apply list_elem_of_fmap in Hin as (y & Hy & Hin).
        apply list_elem_of_In in Hin.
        pose proof (find_none _ _ Hf y Hin) as Hn. simpl in Hn.
        by rewrite bool_decide_eq_false in Hn.
  - intros item Hin. rewrite !cartTotal_sum. simpl.
    by apply sumOfLines_without.
Qed.

End CartPage.

(* ===================================================================== *)
(** * Checkout and the product documents; recent transactions *)
(* ===================================================================== *)

Section StoreAfterCheckout.

Import PosSales CartSession StockLedger PosSalesPage.
Local Open Scope Z_scope.

Variable h : Host.

Lemma decrement_keeps (now : string) (docs : gmap string ProductDoc)
    (item : CartItem) :
  dom (decrement now docs item) = dom docs /\
  forall P d',
    decrement now docs item !! P = Some d' ->
    exists d, docs !! P = Some d /\ sameProduct d' d /\
              (P <> ci_id item -> d' = d).
Proof.
  unfold decrement, sameProduct.
  destruct (docs !! ci_id item) as [d0|] eqn:Hd.
  - split.
    + apply dom_insert_lookup_L. by rewrite Hd.
    + intros P d'. destruct (decide (ci_id item = P)) as [<-|Hne].
      * rewrite lookup_insert_eq. intros [= <-]. exists d0. by split_and!.
      * rewrite lookup_insert_ne by done. intros Hd'. exists d'. by split_and!.
  - split; [done|]. intros P d' Hd'. exists d'. by split_and!.
Qed.

Lemma decrements_keep (now : string) (lines : list CartItem)
    (docs : gmap string ProductDoc) :
  dom (fold_left (decrement now) lines docs) = dom docs /\
  forall P d',
    fold_left (decrement now) lines docs !! P = Some d' ->
    exists d, docs !! P = Some d /\ sameProduct d' d /\
              (P ∉ map ci_id lines -> d' = d).
Proof.
  revert docs. induction lines as [|item rest IH]; intros docs; simpl.
  - split; [done|]. intros P d' Hd'. exists d'. unfold sameProduct. by split_and!.
  - destruct (IH (decrement now docs item)) as (Hdom & Hall).
    destruct (decrement_keeps now docs item) as (Hdom1 & Hone).
    split; [congruence|].
    intros P d' Hd'.
    destruct (Hall P d' Hd') as (d1 & Hd1 & (Hn1 & Hp1 & Hc1) & Hrest).
    destruct (Hone P d1 Hd1) as (d & Hd & (Hn & Hp & Hc) & Hitem).
    exists d. unfold sameProduct. split_and!; [done|congruence..|].
    intros Hni. apply not_elem_of_cons in Hni as [Hne Hni].
    rewrite (Hrest Hni). by apply Hitem.
Qed.

(** X11. However a checkout ends, it creates and deletes no product
    document, it leaves the name, the price and the category of every
    product as they were, and it leaves the documents of the products
    that are not in the cart untouched. *)
Theorem checkout_touches_only_stock (user : option User) (s : State)
    (fs : Firestore) (o : Outcome) (s' : State) (fs' : Firestore) :
  handleCheckout h user s fs = (o, s', fs') ->
  dom (fs_products fs') = dom (fs_products fs) /\
  forall P d',
    fs_products fs' !! P = Some d' ->
    exists d,
      fs_products fs !! P = Some d /\
      d_name d' = d_name d /\ d_price d' = d_price d /\
      d_category d' = d_category d /\
      (P ∉ map ci_id (cart s) -> d' = d).
Proof.
  intros Hrun.
  assert (exists k : nat,
             fs_products fs'
             = fold_left (decrement (now_iso h)) (take k (cart s))
                         (fs_products fs)) as (k & ->).
  { assert (o = Rejected \/ o <> Rejected) as [->|Hacc]
      by (destruct o; [by left|by right..]).
    - apply handleCheckout_rejected_store in Hrun. subst fs'. by exists 0%nat.
    - destruct (handleCheckout_accepts h user s fs _ _ _ Hrun Hacc)
        as (_ & _ & _ & (k & _ & Hprod & _) & _).
      by exists k. }
  destruct (decrements_keep (now_iso h) (take k (cart s)) (fs_products fs))
    as (Hdom & Hall).
  split; [done|]. intros P d' Hd'.
  destruct (Hall P d' Hd') as (d & Hd & (Hn & Hp & Hc) & Hrest).
  exists d. split_and!; [done..|].
  intros Hni. apply Hrest. intros Hin. apply Hni.
  apply list_elem_of_fmap in Hin as (item & -> & Hin).
  apply (list_elem_of_fmap_2 ci_id). by eapply take_elem_of.
Qed.

(** *** Sorting the fetched transactions *)

Lemma insertSorted_perm {A : Type} (comparefn : A -> A -> Js.number) (x : A)
    (l : list A) :
  insertSorted comparefn x l ≡ₚ x :: l.
Proof.
  induction l as [|y l IH]; simpl; [done|].
  case_bool_decide; [|done].
  rewrite IH. apply Permutation_swap.
Qed.

Lemma sort_perm {A : Type} (comparefn : A -> A -> Js.number) (l : list A) :
  sort comparefn l ≡ₚ l.
Proof.
  induction l as [|x l IH]; simpl; [done|].
  by rewrite insertSorted_perm, IH.
Qed.

(** On two readable timestamps the comparison is the difference of the
    instants. *)
Lemma byTimeDesc_readable (getTime : string -> Js.number) (t u : Transaction)
    (a b : Z) :
  timeOf getTime t = Js.Num a -> timeOf getTime u = Js.Num b ->
  SortCompare (byTimeDesc getTime) t u = b - a.
Proof. intros Ht Hu. unfold SortCompare, byTimeDesc. by rewrite Ht, Hu. Qed.

Lemma insertSorted_sorted (getTime : string -> Js.number) (t : Transaction)
    (l : list Transaction) :
  readable getTime t ->
  StronglySorted (notOlder getTime) l ->
  Forall (readable getTime) l ->
  StronglySorted (notOlder getTime) (insertSorted (byTimeDesc getTime) t l).
Proof.
  intros [a Ha]. induction 1 as [|u l Hl IH Hu]; simpl; intros Hread.
  - repeat constructor.
  - apply Forall_cons in Hread as [[b Hb] Hread].
    rewrite (byTimeDesc_readable getTime t u a b Ha Hb).
    case_bool_decide as Hnewer.
    + constructor; [by apply IH|].
      rewrite Forall_forall. intros x Hx.
      rewrite insertSorted_perm in Hx.
      apply elem_of_cons in Hx as [->|Hx].
      * exists b, a. split_and!; [done..|lia].
      * rewrite Forall_forall in Hu. by apply Hu.
    + constructor; [by constructor|].
      constructor; [exists a, b; split_and!; [done..|lia]|].
      rewrite Forall_forall in Hu |- *. intros x Hx.
      destruct (Hu x Hx) as (b' & c & Hb' & Hc & Hle).
      rewrite Hb in Hb'. injection Hb' as <-.
      exists a, c. split_and!; [done..|lia].
Qed.

Lemma sort_readable (getTime : string -> Js.number) (l : list Transaction) :
  Forall (readable getTime) l ->
  Forall (readable getTime) (sort (byTimeDesc getTime) l).
Proof. intros Hread. by rewrite sort_perm. Qed.

Lemma sort_sorted (getTime : string -> Js.number) (l : list Transaction) :
  Forall (readable getTime) l ->
  StronglySorted (notOlder getTime) (sort (byTimeDesc getTime) l).
Proof.
  induction 1 as [|t l Ht Hl IH]; simpl; [constructor|].
  apply insertSorted_sorted; [done..|]. by apply sort_readable.
Qed.

(** The sort keeps the order of the snapshot among the transactions of
    one instant. *)
Lemma sort_stable (getTime : string -> Js.number) (l : list Transaction)
    (time : Z) :
  Forall (readable getTime) l ->
  List.filter (atInstant getTime time) (sort (byTimeDesc getTime) l)
  = List.filter (atInstant getTime time) l.
Proof.
  induction 1 as [|t l [a Ha] Hl IH]; simpl; [done|].
  rewrite <- IH. pose proof (sort_readable getTime l Hl) as Hsorted.
  revert Hsorted. generalize (sort (byTimeDesc getTime) l). clear IH Hl.
  intros sorted. induction 1 as [|u rest [b Hb] Hrest IH]; simpl; [done|].
  rewrite (byTimeDesc_readable getTime t u a b Ha Hb).
  destruct (bool_decide (b - a > 0)) eqn:Hnewer; simpl; [|done].
  rewrite IH. apply bool_decide_eq_true in Hnewer.
  unfold atInstant. rewrite Ha, Hb.
  repeat case_bool_decide; try done. lia.
Qed.

Lemma sorted_prefix_first (getTime : string -> Js.number) (k : nat)
    (l : list Transaction) :
  StronglySorted (notOlder getTime) l ->
  StronglySorted (notOlder getTime) (take k l) /\
  forall x y, x ∈ take k l -> y ∈ drop k l -> notOlder getTime x y.
Proof.
  intros Hs. revert k. induction Hs as [|u l Hl IH Hu]; intros k.
  - rewrite take_nil. split; [constructor|].
    intros x y Hx. by apply elem_of_nil in Hx.
  - destruct k as [|k]; simpl.
    + split; [constructor|]. intros x y Hx. by apply elem_of_nil in Hx.
    + destruct (IH k) as (Htake & Hsplit). split.
      * constructor; [done|].
        rewrite Forall_forall in Hu |- *. intros x Hx.
        apply Hu. by eapply take_elem_of.
      * intros x y Hx Hy. apply elem_of_cons in Hx as [->|Hx].
        -- rewrite Forall_forall in Hu. apply Hu.
           rewrite <- (take_drop k l). apply elem_of_app. by right.
        -- by apply Hsplit.
Qed.

Lemma atInstant_elem (getTime : string -> Js.number) (time : Z)
    (t : Transaction) (l : list Transaction) :
  t ∈ List.filter (atInstant getTime time) l <->
  t ∈ l /\ timeOf getTime t = Js.Num time.
Proof.
  rewrite !list_elem_of_In, filter_In, <- list_elem_of_In.
  unfold atInstant. destruct (timeOf getTime t) as [|a].
  - split; intros [? ?]; done.
  - rewrite bool_decide_eq_true. split; intros [? ?]; split; congruence.
Qed.

(** Two lists of readable transactions that are sorted newest first and
    list the transactions of every instant in the same order are the
    same list. *)
Lemma stable_order_unique (getTime : string -> Js.number)
    (l1 l2 : list Transaction) :
  Forall (readable getTime) l1 -> Forall (readable getTime) l2 ->
  StronglySorted (notOlder getTime) l1 ->
  StronglySorted (notOlder getTime) l2 ->
  (forall time, List.filter (atInstant getTime time) l1
                = List.filter (atInstant getTime time) l2) ->
  l1 = l2.
Proof.
  intros Hr1. revert l2.
  induction Hr1 as [|x l1 [a Ha] Hr1 IH]; intros l2 Hr2 Hs1 Hs2 Hsame.
  - destruct Hr2 as [|y l2 [b Hb] _]; [done|].
    specialize (Hsame b). simpl in Hsame. unfold atInstant at 1 in Hsame.
    rewrite Hb, bool_decide_eq_true_2 in Hsame by done. done.
  - destruct Hr2 as [|y l2 [b Hb] Hr2].
    { specialize (Hsame a). simpl in Hsame. unfold atInstant at 1 in Hsame.
      rewrite Ha, bool_decide_eq_true_2 in Hsame by done. done. }
    apply StronglySorted_inv in Hs1 as [Hs1 Hx].
    apply StronglySorted_inv in Hs2 as [Hs2 Hy].
    rewrite Forall_forall in Hx, Hy.
    assert (a = b) as <-.
    { destruct (decide (a = b)) as [|Hne]; [done|]. exfalso.
      assert (y ∈ List.filter (atInstant getTime b) (x :: l1)) as Hy1.
      { rewrite Hsame. apply atInstant_elem. split; [left|done]. }
      assert (x ∈ List.filter (atInstant getTime a) (y :: l2)) as Hx2.
      { rewrite <- Hsame. apply atInstant_elem. split; [left|done]. }
      apply atInstant_elem in Hy1 as [Hy1 _].
      apply atInstant_elem in Hx2 as [Hx2 _].
      apply elem_of_cons in Hy1 as [->|Hy1]; [congruence|].
      apply elem_of_cons in Hx2 as [->|Hx2]; [congruence|].
      destruct (Hx y Hy1) as (a' & b' & Ha' & Hb' & Hle1).
      destruct (Hy x Hx2) as (b'' & a'' & Hb'' & Ha'' & Hle2).
      rewrite Ha in Ha', Ha''. rewrite Hb in Hb', Hb''.
      injection Ha' as <-. injection Ha'' as <-.
      injection Hb' as <-. injection Hb'' as <-. lia. }
    assert (x = y) as <-.
    { assert (atInstant getTime a x = true) as Hax
        by (unfold atInstant; rewrite Ha; by apply bool_decide_eq_true).
      assert (atInstant getTime a y = true) as Hay
        by (unfold atInstant; rewrite Hb; by apply bool_decide_eq_true).
      specialize (Hsame a). simpl in Hsame. rewrite Hax, Hay in Hsame.
      by injection Hsame. }
    f_equal. apply IH; [done..|].
    intros time. specialize (Hsame time). simpl in Hsame.
    destruct (atInstant getTime time x); [by injection Hsame|done].
Qed.

(** X12. When the query is answered and every stored timestamp can be
    read as a date, the list "Transaksi Terbaru" holds the five newest
    stored transactions, newest first (all of them when there are fewer
    than five): every stored transaction is either shown or hidden, none
    twice, and no hidden one is newer than a shown one.  Among
    transactions of one instant the sort keeps the order of the
    snapshot, and the list does not depend on how the engine sorts: the
    first five of any arrangement of the stored transactions that is
    newest first and keeps the snapshot order within every instant are
    the five shown.  When the query is rejected the list stays as it
    was. *)
Theorem recent_transactions_are_the_newest (getTime : string -> Js.number)
    (s : State) (fs : Firestore) :
  let shown := recentTransactions (fetchRecentTransactions h getTime s fs).1 in
  (sdk_throws h (fs_calls fs) = true -> shown = recentTransactions s) /\
  (sdk_throws h (fs_calls fs) = false ->
   Forall (readable getTime) (fs_pos_transactions fs) ->
   length shown = (5 `min` length (fs_pos_transactions fs))%nat /\
   StronglySorted (notOlder getTime) shown /\
   (exists hidden,
       shown ++ hidden ≡ₚ fs_pos_transactions fs /\
       forall x y, x ∈ shown -> y ∈ hidden -> notOlder getTime x y) /\
   (forall time,
       List.filter (atInstant getTime time)
         (sort (byTimeDesc getTime) (fs_pos_transactions fs))
       = List.filter (atInstant getTime time) (fs_pos_transactions fs)) /\
   (forall arranged,
       arranged ≡ₚ fs_pos_transactions fs ->
       StronglySorted (notOlder getTime) arranged ->
       (forall time,
           List.filter (atInstant getTime time) arranged
           = List.filter (atInstant getTime time) (fs_pos_transactions fs)) ->
       take 5 arranged = shown)).
Proof.
  simpl. unfold fetchRecentTransactions, getDocs_transactions, sdk.
  destruct (sdk_throws h (fs_calls fs)); simpl; split; try done.
  intros _ Hread.
  pose proof (sort_sorted getTime (fs_pos_transactions fs) Hread) as Hsorted.
  destruct (sorted_prefix_first getTime 5 _ Hsorted) as (Htake & Hsplit).
  split_and!.
  - rewrite length_take. by rewrite sort_perm.
  - done.
  - exists (drop 5 (sort (byTimeDesc getTime) (fs_pos_transactions fs))).
    split; [|done]. rewrite take_drop. apply sort_perm.
  - intros time. by apply sort_stable.
  - intros arranged Hperm Hs Hsame. f_equal.
    apply (stable_order_unique getTime); [|by apply sort_readable|done..|].
    + by rewrite Hperm.
    + intros time. rewrite Hsame. symmetry. by apply sort_stable.
Qed.

End StoreAfterCheckout.

Section PosSalesPageSamples.

Import PosSales CartSession StockLedger PosSalesPage.
Local Open Scope Z_scope.

Lemma sample_cart_reachable : reachable Sample.catalog Sample.twoInCart.
Proof.
  apply (reachable_step _ _ (AddToCart Sample.product)).
  - apply (reachable_step _ _ (AddToCart Sample.product)).
    + apply reachable_start; reflexivity.
    + apply list_elem_of_here.
  - apply list_elem_of_here.
Defined.

Lemma sample_failed_sale :
  handleCheckout SamplePage.flakyHost (Some Sample.kasir) SamplePage.basket
    SamplePage.store
  = (Failed, SamplePage.failedSale.1.2, SamplePage.failedSale.2).
Proof. vm_compute. reflexivity. Defined.

Lemma completed_sale_receipt_adds_up_witness :
  exists tx,
    fs_pos_transactions Sample.firstSale.2
    = fs_pos_transactions Sample.store ++ [tx] /\
    currentTransaction Sample.firstSale.1.2 = Some tx /\
    showReceipt Sample.firstSale.1.2 = true /\
    head (recentTransactions Sample.firstSale.1.2) = Some tx /\
    t_id tx = autoId Sample.host (length (fs_pos_transactions Sample.store)) /\
    td_items (t_data tx) = cart Sample.paid /\
    td_total (t_data tx) = sumOfLines (td_items (t_data tx)) /\
    (forall cash,
        paymentMethod Sample.paid = "Tunai"%string ->
        Number_ Sample.host (cashAmount Sample.paid) = Js.Num cash ->
        changeShown Sample.host Sample.paid = true /\
        td_cashAmount (t_data tx) = Some (Js.Num cash) /\
        td_changeAmount (t_data tx)
        = Some (changeAmount Sample.host Sample.paid) /\
        exists change,
          changeAmount Sample.host Sample.paid = Js.Num change /\
          0 <= change /\
          cash - change = td_total (t_data tx)).
Proof.
  apply (completed_sale_receipt_adds_up Sample.host (Some Sample.kasir)
           Sample.paid Sample.store Sample.firstSale.1.2 Sample.firstSale.2).
  exact sample_first_sale.
Defined.

Lemma cash_is_typed_for_each_sale_witness :
  checkoutDisabled Sample.host
    (run SamplePage.nextCustomer Sample.firstSale.1.2) = true /\
  handleCheckout Sample.host (Some Sample.kasir)
    (run SamplePage.nextCustomer Sample.firstSale.1.2) Sample.firstSale.2
  = (Rejected,
     toast (warn "Pembayaran Kurang")
       (run SamplePage.nextCustomer Sample.firstSale.1.2),
     Sample.firstSale.2).
Proof.
  destruct (cash_is_typed_for_each_sale Sample.host (Some Sample.kasir)
              (Some Sample.kasir) Sample.paid Sample.store
              Sample.firstSale.1.2 Sample.firstSale.2 SamplePage.nextCustomer
              Sample.firstSale.2)
    as (_ & _ & Hdisabled & Hrejected).
  - reflexivity.
  - exact sample_first_sale.
  - reflexivity.
  - vm_compute. reflexivity.
  - split; [exact Hdisabled|exact Hrejected].
Defined.

Lemma failed_checkout_is_not_rolled_back_witness :
  cart SamplePage.failedSale.1.2 = cart SamplePage.basket /\
  customerName SamplePage.failedSale.1.2 = customerName SamplePage.basket /\
  cashAmount SamplePage.failedSale.1.2 = cashAmount SamplePage.basket /\
  recentTransactions SamplePage.failedSale.1.2
  = recentTransactions SamplePage.basket /\
  isProcessing SamplePage.failedSale.1.2 = false /\
  toasts SamplePage.failedSale.1.2
  = toasts SamplePage.basket ++ [warn "Transaksi Gagal"] /\
  ((fs_pos_transactions SamplePage.failedSale.2
    = fs_pos_transactions SamplePage.store /\
    fs_products SamplePage.failedSale.2 = fs_products SamplePage.store) \/
   (fs_pos_transactions SamplePage.failedSale.2
    = fs_pos_transactions SamplePage.store
      ++ [stored SamplePage.flakyHost (Some Sample.kasir) SamplePage.basket
            SamplePage.store] /\
    exists k : nat,
      (k < length (cart SamplePage.basket))%nat /\
      fs_products SamplePage.failedSale.2
      = fold_left (decrement (now_iso SamplePage.flakyHost))
          (take k (cart SamplePage.basket)) (fs_products SamplePage.store))).
Proof.
  apply (failed_checkout_is_not_rolled_back SamplePage.flakyHost
           (Some Sample.kasir) SamplePage.basket SamplePage.store).
  exact sample_failed_sale.
Defined.

(** On the sample: the fourth SDK call rejects, the sale is stored, the
    first line's stock went from 2 to 1 and the second line's stock is
    still 5. *)
Lemma sample_partial_failure :
  length (fs_pos_transactions SamplePage.failedSale.2) = 1%nat /\
  stockOf SamplePage.failedSale.2 "sku-1" = Some 1 /\
  stockOf SamplePage.failedSale.2 "sku-2" = Some 5.
Proof. vm_compute. by split_and!. Qed.

Lemma checkout_again_is_rejected_witness :
  cart Sample.firstSale.1.2 = [] /\
  handleCheckout Sample.host None Sample.firstSale.1.2 Sample.firstSale.2
  = (Rejected, toast (warn "Keranjang Kosong") Sample.firstSale.1.2,
     Sample.firstSale.2).
Proof.
  apply (checkout_again_is_rejected Sample.host (Some Sample.kasir) Sample.paid
           Sample.store Sample.firstSale.1.2 Sample.firstSale.2 None).
  exact sample_first_sale.
Defined.

Lemma checkout_updates_recent_transactions_witness :
  (Completed = Completed ->
   recentTransactions Sample.firstSale.1.2
   = take 5 (stored Sample.host (Some Sample.kasir) Sample.paid Sample.store
             :: recentTransactions Sample.paid) /\
   head (recentTransactions Sample.firstSale.1.2)
   = Some (stored Sample.host (Some Sample.kasir) Sample.paid Sample.store) /\
   (length (recentTransactions Sample.firstSale.1.2) <= 5)%nat) /\
  (Completed <> Completed ->
   recentTransactions Sample.firstSale.1.2 = recentTransactions Sample.paid).
Proof.
  apply (checkout_updates_recent_transactions Sample.host (Some Sample.kasir)
           Sample.paid Sample.store Completed Sample.firstSale.1.2
           Sample.firstSale.2).
  exact sample_first_sale.
Defined.

Lemma cart_lines_are_catalog_copies_witness :
  NoDup (map ci_id (cart Sample.twoInCart)) /\
  (length (cart Sample.twoInCart) <= length Sample.catalog)%nat /\
  Forall (copiedFrom Sample.catalog) (cart Sample.twoInCart).
Proof.
  apply (cart_lines_are_catalog_copies Sample.catalog Sample.twoInCart).
  - apply NoDup_singleton.
  - exact sample_cart_reachable.
Defined.

Lemma add_click_is_plus_button_witness :
  cart (addToCart Sample.product Sample.twoInCart)
  = cart (updateQuantity (p_id Sample.product) 1 Sample.twoInCart).
Proof.
  apply (add_click_is_plus_button Sample.catalog Sample.twoInCart
           Sample.product SamplePage.line).
  - apply NoDup_singleton.
  - exact sample_cart_reachable.
  - apply list_elem_of_here.
  - apply list_elem_of_here.
  - reflexivity.
Defined.

Lemma plus_minus_round_trip_witness :
  (ci_quantity SamplePage.line + 1 <= p_stock Sample.product ->
   cart (updateQuantity (p_id Sample.product) (-1)
           (updateQuantity (p_id Sample.product) 1 Sample.twoInCart))
   = cart Sample.twoInCart) /\
  (2 <= ci_quantity SamplePage.line ->
   cart (updateQuantity (p_id Sample.product) 1
           (updateQuantity (p_id Sample.product) (-1) Sample.twoInCart))
   = cart Sample.twoInCart).
Proof.
  apply (plus_minus_round_trip Sample.catalog Sample.twoInCart
           Sample.product SamplePage.line).
  - apply NoDup_singleton.
  - exact sample_cart_reachable.
  - apply list_elem_of_here.
  - apply list_elem_of_here.
  - reflexivity.
Defined.

Lemma cart_controls_move_total_witness :
  (forall p,
      p ∈ Sample.catalog ->
      cartTotal (cart (addToCart p Sample.twoInCart))
      = if bool_decide
             (p_stock p <= quantityOf (p_id p) (cart Sample.twoInCart))
        then cartTotal (cart Sample.twoInCart)
        else cartTotal (cart Sample.twoInCart) + p_price p) /\
  (forall item,
      item ∈ cart Sample.twoInCart ->
      cartTotal (cart (removeFromCart (ci_id item) Sample.twoInCart))
      = cartTotal (cart Sample.twoInCart) - ci_price item * ci_quantity item).
Proof.
  apply (cart_controls_move_total Sample.catalog Sample.twoInCart).
  - apply NoDup_singleton.
  - exact sample_cart_reachable.
Defined.

Lemma checkout_touches_only_stock_witness :
  dom (fs_products SamplePage.failedSale.2) = dom (fs_products SamplePage.store) /\
  forall P d',
    fs_products SamplePage.failedSale.2 !! P = Some d' ->
    exists d,
      fs_products SamplePage.store !! P = Some d /\
      d_name d' = d_name d /\ d_price d' = d_price d /\
      d_category d' = d_category d /\
      (P ∉ map ci_id (cart SamplePage.basket) -> d' = d).
Proof.
  apply (checkout_touches_only_stock SamplePage.flakyHost (Some Sample.kasir)
           SamplePage.basket SamplePage.store Failed
           SamplePage.failedSale.1.2 SamplePage.failedSale.2).
  exact sample_failed_sale.
Defined.

(** On the sample history the list shows d, e, f, then b before g (both
    of instant 30, in the order of the snapshot). *)
Lemma sample_recent_transactions :
  map t_id
    (recentTransactions
       (fetchRecentTransactions Sample.host SamplePage.seconds initialState
          SamplePage.history).1)
  = ["d"; "e"; "f"; "b"; "g"]%string.
Proof. vm_compute. reflexivity. Qed.

Lemma recent_transactions_are_the_newest_witness :
  Forall (readable SamplePage.seconds) (fs_pos_transactions SamplePage.history) /\
  StronglySorted (notOlder SamplePage.seconds)
    (recentTransactions
       (fetchRecentTransactions Sample.host SamplePage.seconds initialState
          SamplePage.history).1).
Proof.
  assert (Forall (readable SamplePage.seconds)
            (fs_pos_transactions SamplePage.history)) as Hread.
  { repeat constructor; eexists; reflexivity. }
  split; [exact Hread|].
  destruct (recent_transactions_are_the_newest Sample.host SamplePage.seconds
              initialState SamplePage.history) as (_ & Hshown).
  destruct (Hshown eq_refl Hread) as (_ & Hsorted & _).
  exact Hsorted.
Defined.

End PosSalesPageSamples.

(* ===================================================================== *)
(** * Transaction history: how the filters combine *)
(* ===================================================================== *)

Section HistoryFilters.

Import PosTransactions HistoryBuckets.
Local Open Scope Z_scope.

Variable h : Host.

(** A zone in which later local times are later instants and every
    local time is read back as itself has its days in order.  This is
    so for a zone whose clock is never put forward. *)
Lemma orderly_of_round_trip :
  (forall l l', l <= l' -> UTC h l <= UTC h l') ->
  (forall l, LocalTime h (UTC h l) = l) ->
  orderly h.
Proof.
  intros Hmono Hback. unfold orderly. split_and!.
  - intros d d' Hd. split; apply Hmono; unfold msPerDay; lia.
  - intros d. apply Hmono. unfold msPerDay. lia.
  - intros l l' Hl. rewrite !Hback. unfold Day.
    by apply Z.div_le_mono.
  - intros t. by rewrite Hback.
Qed.

(** So it is for a zone that keeps one offset for ever. *)
Lemma fixed_offset_orderly (off : Z) :
  (forall t isUTC, LocalTZA h t isUTC = off) -> orderly h.
Proof.
  intros Hoff. apply orderly_of_round_trip.
  - intros l l' Hl. unfold UTC. rewrite !Hoff. lia.
  - intros l. unfold LocalTime, UTC. rewrite !Hoff. lia.
Qed.

(** Every interval of the filter is well formed in a zone whose days
    are in order: it starts no later than it ends. *)
Lemma buckets_well_formed (today : Z) (dateFilter : string)
    (start end_ : Z) :
  orderly h ->
  bucket h dateFilter today = Some (start, end_) ->
  start <= end_.
Proof.
  intros Horderly. unfold bucket.
  assert (forall t, startOfDay h t <= endOfDay h t) as Hday.
  { intros t. rewrite (startOfDay_day h), (endOfDay_day h).
    by apply Horderly. }
  assert (forall n, 0 <= n ->
                    startOfDay h (subDays h today n) <= endOfDay h today)
    as Hn.
  { intros n Hn. etrans; [|apply (Hday today)].
    apply days_in_order; [done|]. apply (subDays_day h today 0 n); [done|lia]. }
  repeat case_decide; intros [= <- <-]; [apply Hday|apply Hday|apply Hn; lia..].
Qed.

Lemma filter_filter_comm {A : Type} (f g : A -> bool) (l : list A) :
  List.filter f (List.filter g l) = List.filter g (List.filter f l).
Proof.
  induction l as [|x l IH]; simpl; [done|].
  destruct (f x) eqn:Hf, (g x) eqn:Hg; simpl; rewrite ?Hf, ?Hg, IH; done.
Qed.

Lemma filter_sublist {A : Type} (f : A -> bool) (l : list A) :
  sublist (List.filter f l) l.
Proof.
  induction l as [|x l IH]; simpl; [constructor|].
  destruct (f x); by constructor.
Qed.

Lemma applyDateFilter_bucket (dateFilter : string) (today : Z)
    (l : list Transaction) :
  applyDateFilter h dateFilter today l
  = match bucket h dateFilter today with
    | Some (start, end_) =>
        List.filter
          (fun tx => isWithinInterval (parseISO h (timestamp tx)) start end_) l
    | None => l
    end.
Proof.
  unfold applyDateFilter, bucket.
  destruct (decide (dateFilter <> "all"%string)) as [Hne|Heq].
  - repeat case_decide; done.
  - apply dec_stable in Heq. subst dateFilter. done.
Qed.

(** X13. In a zone whose days are in order the date buckets are nested:
    what 'today' keeps, 'week' keeps; what 'yesterday' keeps, 'week'
    keeps; what 'week' keeps, 'month' keeps; and every bucket keeps only
    transactions of the list it is given, in their order. *)
Theorem date_buckets_are_nested (today : Z) (transactions : list Transaction) :
  orderly h ->
  (forall tx, tx ∈ applyDateFilter h "today" today transactions ->
              tx ∈ applyDateFilter h "week" today transactions) /\
  (forall tx, tx ∈ applyDateFilter h "yesterday" today transactions ->
              tx ∈ applyDateFilter h "week" today transactions) /\
  (forall tx, tx ∈ applyDateFilter h "week" today transactions ->
              tx ∈ applyDateFilter h "month" today transactions) /\
  (forall dateFilter,
      sublist (applyDateFilter h dateFilter today transactions) transactions).
Proof.
  intros Horderly.
  pose proof (fun n n' Hn =>
                days_in_order h _ _ Horderly
                  (subDays_day h today n n' Horderly Hn))
    as Horder.
  pose proof (Horder 0 7 ltac:(lia)) as [H70 _].
  pose proof (Horder 1 7 ltac:(lia)) as [H71 _].
  pose proof (Horder 7 30 ltac:(lia)) as [H307 _].
  pose proof (Horder 0 1 ltac:(lia)) as [_ H10].
  change (subDays h today 0) with today in *.
  split_and!.
  - intros tx. rewrite !applyDateFilter_bucket. simpl.
    rewrite !elem_of_filter_list. simpl. intros [Hin Hw]. split; [done|].
    destruct (parseISO h (timestamp tx)) as [t|]; [|done].
    apply isWithinInterval_spec in Hw. apply isWithinInterval_spec. lia.
  - intros tx. rewrite !applyDateFilter_bucket. simpl.
    rewrite !elem_of_filter_list. simpl. intros [Hin Hw]. split; [done|].
    destruct (parseISO h (timestamp tx)) as [t|]; [|done].
    apply isWithinInterval_spec in Hw. apply isWithinInterval_spec. lia.
  - intros tx. rewrite !applyDateFilter_bucket. simpl.
    rewrite !elem_of_filter_list. simpl. intros [Hin Hw]. split; [done|].
    destruct (parseISO h (timestamp tx)) as [t|]; [|done].
    apply isWithinInterval_spec in Hw. apply isWithinInterval_spec. lia.
  - intros dateFilter. rewrite applyDateFilter_bucket.
    destruct (bucket h dateFilter today) as [[start end_]|]; [|done].
    apply filter_sublist.
Qed.

(** X14. Where the zone keeps one UTC offset from two days before
    [today] to one day after it, 'today' and 'yesterday' split the two
    days between them: the day before ends one millisecond before the
    day of [today] starts, no transaction is kept by both, and a
    transaction of the list whose timestamp lies between the start of
    yesterday and the end of today is kept by one of them. *)
Theorem today_and_yesterday_split (today off : Z)
    (transactions : list Transaction) (tx : Transaction) :
  steadySince h off today 1 ->
  endOfDay h (subDays h today 1) + 1 = startOfDay h today /\
  ~ (tx ∈ applyDateFilter h "today" today transactions /\
     tx ∈ applyDateFilter h "yesterday" today transactions) /\
  (forall t,
      tx ∈ transactions ->
      parseISO h (timestamp tx) = Some t ->
      startOfDay h (subDays h today 1) <= t <= endOfDay h today ->
      tx ∈ applyDateFilter h "today" today transactions \/
      tx ∈ applyDateFilter h "yesterday" today transactions).
Proof.
  intros Hsteady. unfold steadySince in Hsteady.
  pose proof (steady_subDays h off _ _ today 1 Hsteady) as Hsub.
  rewrite Hsub by (unfold msPerDay; lia).
  destruct (steady_day h off _ _ today Hsteady) as [Hs0 He0];
    [unfold msPerDay; lia..|].
  destruct (steady_day h off _ _ (today - 1 * msPerDay) Hsteady) as [Hs1 He1];
    [unfold msPerDay; lia..|].
  rewrite dayAt_back in Hs1, He1.
  assert (endOfDay h (today - 1 * msPerDay) + 1 = startOfDay h today) as Hmeet.
  { rewrite He1, Hs0. unfold msPerDay. lia. }
  split; [done|].
  rewrite !applyDateFilter_bucket. simpl. rewrite !elem_of_filter_list.
  rewrite Hsub by (unfold msPerDay; lia).
  unfold msPerDay in *.
  split.
  - intros [[_ Ht] [_ Hy]]. simpl in Ht, Hy. revert Ht Hy.
    destruct (parseISO h (timestamp tx)) as [t|]; [|done].
    rewrite !isWithinInterval_spec. lia.
  - intros t Hin Hts Hrange. rewrite !elem_of_filter_list. simpl.
    rewrite Hts, !isWithinInterval_spec.
    destruct (decide (startOfDay h today <= t)); [left|right]; split; [done|lia|done|lia].
Qed.

(** X15. A transaction whose timestamp cannot be read is kept by none of
    the four buckets; the filter 'all', and any filter name other than the
    four buckets, keeps the whole list. *)
Theorem unreadable_timestamps_are_hidden (today : Z)
    (transactions : list Transaction) :
  (forall tx dateFilter,
      parseISO h (timestamp tx) = None ->
      dateFilter ∈ ["today"; "yesterday"; "week"; "month"]%string ->
      tx ∉ applyDateFilter h dateFilter today transactions) /\
  (forall dateFilter,
      dateFilter ∉ ["today"; "yesterday"; "week"; "month"]%string ->
      applyDateFilter h dateFilter today transactions = transactions).
Proof.
  split.
  - intros tx dateFilter Hts Hf. rewrite applyDateFilter_bucket.
    assert (is_Some (bucket h dateFilter today)) as [[start end_] ->].
    { unfold bucket. repeat case_decide; eauto.
      repeat (apply elem_of_cons in Hf as [->|Hf]; [done|]).
      by apply elem_of_nil in Hf. }
    rewrite elem_of_filter_list, Hts. by intros [_ ?].
  - intros dateFilter Hf. rewrite applyDateFilter_bucket.
    unfold bucket. repeat case_decide; subst; try done;
      exfalso; apply Hf; set_solver.
Qed.

(** X16. The search filter and the date filter apply together and in
    either order: a transaction is listed exactly when both keep it, the
    listed transactions are in the order of the loaded ones, and with an
    empty search and the filter 'all' every loaded transaction is
    listed. *)
Theorem history_filters_combine (searchTerm dateFilter : string) (today : Z)
    (transactions : list Transaction) :
  filterTransactions h searchTerm dateFilter today transactions
  = applySearchFilter h searchTerm
      (applyDateFilter h dateFilter today transactions) /\
  (forall tx,
      tx ∈ filterTransactions h searchTerm dateFilter today transactions <->
      tx ∈ applySearchFilter h searchTerm transactions /\
      tx ∈ applyDateFilter h dateFilter today transactions) /\
  sublist (filterTransactions h searchTerm dateFilter today transactions)
          transactions /\
  filterTransactions h "" "all" today transactions = transactions.
Proof.
  unfold filterTransactions. rewrite !applyDateFilter_bucket.
  unfold applySearchFilter.
  destruct (bucket h dateFilter today) as [[start end_]|];
    destruct (decide (searchTerm = ""%string)) as [->|Hterm].
  - split_and!; [done| |apply filter_sublist|done].
    intros tx. rewrite elem_of_filter_list. tauto.
  - split_and!; [apply filter_filter_comm| | |done].
    + intros tx. rewrite !elem_of_filter_list. tauto.
    + etrans; apply filter_sublist.
  - split_and!; [done| |done|done]. tauto.
  - split_and!; [done| |apply filter_sublist|done].
    intros tx. rewrite elem_of_filter_list. tauto.
Qed.

End HistoryFilters.

Section HistoryFiltersSample.

Import PosTransactions HistoryBuckets.
Local Open Scope Z_scope.

(** The days of America/Santiago around the change of 7 April 2024 are
    in order. *)
Lemma santiago_orderly : orderly SampleHistory.santiago.
Proof.
  apply orderly_of_round_trip.
  - intros l l' Hl. unfold UTC, SampleHistory.santiago,
      SampleHistory.clocksBack. simpl.
    repeat case_decide; lia.
  - intros l. unfold LocalTime, UTC, SampleHistory.santiago,
      SampleHistory.clocksBack. simpl.
    repeat case_decide; lia.
Qed.

(** At noon of the Sunday after the change the sale of the second 23:30
    of Saturday lies between the start of yesterday and the end of
    today, and neither 'today' nor 'yesterday' keeps it: the hour that
    came twice is outside both days.  'week' keeps it. *)
Lemma repeated_hour_is_in_neither_day :
  startOfDay SampleHistory.santiago
    (subDays SampleHistory.santiago SampleHistory.sundayNoon 1)
  <= SampleHistory.secondHalfPastEleven
  <= endOfDay SampleHistory.santiago SampleHistory.sundayNoon /\
  (SampleHistory.lateSale
     ∉ applyDateFilter SampleHistory.santiago "today"
         SampleHistory.sundayNoon [SampleHistory.lateSale]) /\
  (SampleHistory.lateSale
     ∉ applyDateFilter SampleHistory.santiago "yesterday"
         SampleHistory.sundayNoon [SampleHistory.lateSale]) /\
  SampleHistory.lateSale
    ∈ applyDateFilter SampleHistory.santiago "week"
        SampleHistory.sundayNoon [SampleHistory.lateSale].
Proof.
  split_and!.
  - vm_compute. discriminate.
  - vm_compute. discriminate.
  - vm_compute. apply not_elem_of_nil.
  - vm_compute. apply not_elem_of_nil.
  - vm_compute. apply list_elem_of_here.
Qed.

Lemma date_buckets_are_nested_witness :
  SampleHistory.sale
    ∈ applyDateFilter SampleHistory.host "week" SampleHistory.now
        [SampleHistory.sale] /\
  sublist
    (applyDateFilter SampleHistory.santiago "week"
       SampleHistory.secondHalfPastEleven [SampleHistory.lateSale])
    [SampleHistory.lateSale].
Proof.
  split.
  - apply (date_buckets_are_nested SampleHistory.host SampleHistory.now
             [SampleHistory.sale]).
    + by apply (fixed_offset_orderly SampleHistory.host (7 * 3600000)).
    + vm_compute. apply list_elem_of_here.
  - apply (date_buckets_are_nested SampleHistory.santiago
             SampleHistory.secondHalfPastEleven [SampleHistory.lateSale]
             santiago_orderly).
Defined.

Lemma today_and_yesterday_split_witness :
  endOfDay SampleHistory.host (subDays SampleHistory.host SampleHistory.now 1) + 1
  = startOfDay SampleHistory.host SampleHistory.now.
Proof.
  pose proof (today_and_yesterday_split SampleHistory.host SampleHistory.now
                (7 * 3600000) [SampleHistory.sale] SampleHistory.sale)
    as (Hmeet & _).
  - intros t _. split; reflexivity.
  - exact Hmeet.
Defined.

End HistoryFiltersSample.

(* ===================================================================== *)
(** * Sales report: chart labels, placeholders, average, navigation *)
(* ===================================================================== *)

Section SalesReportPageProofs.

Import SalesRevenueReport Buckets SalesReportPage.
Local Open Scope Z_scope.

Variable h : Host.



Lemma pushAll_all (P : ChartData -> Prop) (point : Z -> M ChartData)
    (indices : list Z) (acc : list ChartData) (w : World)
    (cd : list ChartData) (w' : World) :
  (forall i w0 pt w1, point i w0 = (Some pt, w1) -> P pt) ->
  Forall P acc ->
  pushAll point indices acc w = (Some cd, w') ->
  Forall P cd.
Proof.
  intros Hpoint. revert acc w.
  induction indices as [|i rest IH]; intros acc w Hacc; simpl.
  - by intros [= <- _].
  - unfold bind at 1. destruct (point i w) as [[pt|] w1] eqn:Hpt; [|done].
    apply IH. apply Forall_app. split; [done|].
    apply Forall_singleton. by eapply Hpoint.
Qed.

Lemma dummy_points_total (s : State) (indices : list Z)
    (acc : list ChartData) (w : World) :
  exists cd w', pushAll (dummyPoint h s) indices acc w = (Some cd, w').
Proof.
  revert acc w. induction indices as [|i rest IH]; intros acc w; simpl.
  - by eexists _, _.
  - unfold bind at 1. unfold dummyPoint, bind, randomInt, ret. simpl.
    apply IH.
Qed.




(** *** Placeholder figures *)

Lemma floor_of_fraction (r : Q) (scale : Z) :
  (0 <= r)%Q -> (r < 1)%Q -> 0 < scale ->
  0 <= Qfloor (r * inject_Z scale)%Q <= scale - 1.
Proof.
  intros H0 H1 Hs.
  assert (0 < inject_Z scale)%Q as Hq.
  { change (inject_Z 0 < inject_Z scale)%Q. by rewrite <- Zlt_Qlt. }
  split.
  - change 0 with (Qfloor 0). apply Qfloor_resp_le.
    apply Qmult_le_0_compat; [done|]. by apply Qlt_le_weak.
  - assert (Qfloor (r * inject_Z scale)%Q < scale); [|lia].
    rewrite Zlt_Qlt.
    eapply Qle_lt_trans; [apply Qfloor_le|].
    rewrite <- (Qmult_1_l (inject_Z scale)) at 2.
    by apply Qmult_lt_compat_r.
Qed.

Lemma randomInt_range (scale offset : Z) (w : World) :
  fair h -> 0 < scale ->
  exists v,
    randomInt h scale offset w
    = (Some v, {| fetches := fetches w; draws := S (draws w) |}) /\
    offset <= v <= offset + scale - 1.
Proof.
  intros Hfair Hs. eexists. split; [done|].
  destruct (Hfair (draws w)) as [H0 H1].
  pose proof (floor_of_fraction _ scale H0 H1 Hs). lia.
Qed.

Lemma dummyPoint_placeholder (s : State) (i : Z) (w : World)
    (pt : ChartData) (w' : World) :
  fair h -> dummyPoint h s i w = (Some pt, w') -> placeholder pt.
Proof.
  intros Hfair. unfold dummyPoint, bind.
  destruct (randomInt_range 50 5 w Hfair) as (o & -> & Ho); [done|].
  destruct (randomInt_range 1000000 50000
              {| fetches := fetches w; draws := S (draws w) |} Hfair)
    as (r & -> & Hr); [done|].
  unfold ret. intros [= <- _]. unfold placeholder. simpl. lia.
Qed.

Lemma chartPoint_orders (s : State) (i : Z) (w : World)
    (pt : ChartData) (w' : World) :
  fair h -> chartPoint h s i w = (Some pt, w') -> 1 <= orders pt.
Proof.
  intros Hfair. unfold chartPoint, bind, getDocs.
  destruct (orders_of h (fetches w) _) as [snapshot|]; [|done].
  rewrite aggregate_bucket.
  case_bool_decide as Hempty.
  - match goal with
    | |- context [randomInt h 50 5 ?w0] =>
        destruct (randomInt_range 50 5 w0 Hfair) as (o & -> & Ho); [done|]
    end.
    match goal with
    | |- context [randomInt h 1000000 50000 ?w0] =>
        destruct (randomInt_range 1000000 50000 w0 Hfair) as (r & -> & Hr);
          [done|]
    end.
    unfold ret. intros [= <- _]. simpl. lia.
  - unfold ret. intros [= <- _]. simpl. lia.
Qed.

(** X18. With Math.random() in its range, no point of the chart shows a
    month without orders: a month for which no order was fetched is shown
    with placeholder figures of 5 to 54 orders and a revenue from 50000 to
    1049999, so every point has at least one order.  When the first of
    the six queries is rejected, all six points are such placeholders. *)
Theorem chart_never_shows_an_empty_month (s : State) (w : World) :
  fair h ->
  Forall (fun pt => 1 <= orders pt) (chartData (fetchChartData h s w).1) /\
  (orders_of h (fetches w) (currentDate s - 5) = None ->
   Forall placeholder (chartData (fetchChartData h s w).1)).
Proof.
  intros Hfair. split.
  - unfold fetchChartData.
    destruct (pushAll (chartPoint h s) lastSixMonths [] w) as [[cd|] w1] eqn:Hrun.
    + simpl. eapply pushAll_all; [|apply Forall_nil_2|exact Hrun].
      intros i w0 pt w2 Hpt. by eapply chartPoint_orders.
    + destruct (dummy_points_total s lastSixMonths [] w1) as (cd & w2 & Hd).
      rewrite Hd. simpl. eapply pushAll_all; [|apply Forall_nil_2|exact Hd].
      intros i w0 pt w3 Hpt.
      pose proof (dummyPoint_placeholder _ _ _ _ _ Hfair Hpt) as [Ho _]. lia.
  - intros Hrej. unfold fetchChartData.
    assert ((pushAll (chartPoint h s) lastSixMonths [] w).1 = None) as Hnone.
    { simpl. unfold bind at 1. unfold chartPoint at 1.
      unfold bind at 1. unfold getDocs, subMonths. by rewrite Hrej. }
    destruct (pushAll (chartPoint h s) lastSixMonths [] w) as [[cd|] w1];
      [done|].
    destruct (dummy_points_total s lastSixMonths [] w1) as (cd & w2 & Hd).
    rewrite Hd. simpl. eapply pushAll_all; [|apply Forall_nil_2|exact Hd].
    intros i w0 pt w3 Hpt. by eapply dummyPoint_placeholder.
Qed.

End SalesReportPageProofs.

Section SalesReportEffects.

Import SalesRevenueReport Buckets SalesReportPage.
Local Open Scope Z_scope.

Variable h : Host.

Lemma fetchChartData_keeps (s : State) (w : World) :
  currentDate (fetchChartData h s w).1 = currentDate s /\
  isLoading (fetchChartData h s w).1 = isLoading s.
Proof.
  unfold fetchChartData.
  destruct (pushAll (chartPoint h s) lastSixMonths [] w) as [[cd|] w1]; [done|].
  by destruct (pushAll (dummyPoint h s) lastSixMonths [] w1) as [[cd|] w2].
Qed.

Lemma fetchMonthlyData_keeps (s : State) (w : World) :
  currentDate (fetchMonthlyData h s w).1 = currentDate s /\
  isLoading (fetchMonthlyData h s w).1 = false.
Proof.
  unfold fetchMonthlyData.
  destruct (getDocs h (currentDate s) w) as [[snapshot|] w1].
  - destruct (aggregate snapshot) as [o r].
    match goal with
    | |- context [fetchChartData h ?s2 w1] =>
        pose proof (fetchChartData_keeps s2 w1) as [Hd _];
        destruct (fetchChartData h s2 w1) as [s3 w2]
    end.
    simpl in *. by rewrite Hd.
  - case_bool_decide; [|done].
    unfold bind, randomInt, ret. done.
Qed.

(** X19. When the query for the selected month is rejected, the chart is
    left as it was and the spinner is switched off; figures that were
    already on the page stay, and only a page that showed no orders gets
    made-up figures, which with Math.random() in its range are 10 to 59
    orders and a revenue from 100000 to 1099999. *)
Theorem rejected_month_query_keeps_figures (s : State) (w : World) :
  orders_of h (fetches w) (currentDate s) = None ->
  chartData (fetchMonthlyData h s w).1 = chartData s /\
  isLoading (fetchMonthlyData h s w).1 = false /\
  (totalOrders (salesData s) <> 0 ->
   salesData (fetchMonthlyData h s w).1 = salesData s) /\
  (totalOrders (salesData s) = 0 -> fair h ->
   10 <= totalOrders (salesData (fetchMonthlyData h s w).1) <= 59 /\
   100000 <= totalRevenue (salesData (fetchMonthlyData h s w).1) <= 1099999).
Proof.
  intros Hrej. unfold fetchMonthlyData, getDocs. rewrite Hrej.
  case_bool_decide as Hzero.
  - unfold bind.
    split_and!; [done|done|done|]. intros _ Hfair.
    match goal with
    | |- context [randomInt h 50 10 ?w0] =>
        destruct (randomInt_range h 50 10 w0 Hfair) as (o & -> & Ho); [done|]
    end.
    match goal with
    | |- context [randomInt h 1000000 100000 ?w0] =>
        destruct (randomInt_range h 1000000 100000 w0 Hfair) as (r & -> & Hr);
          [done|]
    end.
    simpl. lia.
  - by split_and!.
Qed.

End SalesReportEffects.

Section SalesReportNavigation.

Import SalesRevenueReport Buckets SalesReportPage.
Local Open Scope Z_scope.

(** X20. During a visit of the page the selected month is never later
    than the current month: the next button is disabled on the current
    month, and neither reloading the figures nor the passing of time moves
    the selection forward.  Going back one month and forward again selects
    the same month. *)
Theorem navigation_stays_within_current_month (now : Z) (s : State) :
  browsing now s ->
  currentDate s <= now /\
  (nextDisabled now s = false -> currentDate (goToNextMonth s) <= now) /\
  currentDate (goToNextMonth (goToPreviousMonth s)) = currentDate s.
Proof.
  intros Hb.
  assert (currentDate s <= now) as Hle.
  { induction Hb as [now s Hs|now s Hb IH|now s Hb IH Hen|now s h0 w Hb IH
                      |now now' s Hb IH Hlater].
    - lia.
    - simpl. unfold subMonths. lia.
    - unfold nextDisabled in Hen. apply bool_decide_eq_false in Hen.
      simpl. unfold addMonths. lia.
    - pose proof (fetchMonthlyData_keeps h0 s w) as [Hkeep _]. lia.
    - lia. }
  split_and!; [done| |].
  - unfold nextDisabled. intros Hen. apply bool_decide_eq_false in Hen.
    simpl. unfold addMonths. lia.
  - simpl. unfold addMonths, subMonths. lia.
Qed.

End SalesReportNavigation.

(* ===================================================================== *)
(** * Sales report, later revision: the chart is the fetched figures *)
(* ===================================================================== *)

Section SalesReportLive.

Import SalesRevenueReport Buckets.
Local Open Scope Z_scope.

Variable h : Host.

Lemma live_points (s : State) (indices : list Z) (acc : list ChartData)
    (w : World) :
  match pushAll (SalesRevenueReportLive.chartPoint h s) indices acc w with
  | (Some cd, _) =>
      exists pts,
        cd = acc ++ pts /\ length pts = length indices /\
        forall (j : nat) i,
          indices !! j = Some i ->
          exists pt snapshot,
            pts !! j = Some pt /\
            orders_of h (fetches w + j)%nat (currentDate s - i) = Some snapshot /\
            name pt = format_MMM h (currentDate s - i) /\
            orders pt = Z.of_nat (length snapshot) /\
            revenue pt = revenueSum snapshot
  | (None, _) =>
      exists (j : nat) i,
        indices !! j = Some i /\
        orders_of h (fetches w + j)%nat (currentDate s - i) = None
  end.
Proof.
  revert acc w. induction indices as [|i rest IH]; intros acc w; simpl.
  - exists []. rewrite app_nil_r. split_and!; [done|done|].
    intros j i Hj. by rewrite lookup_nil in Hj.
  - unfold bind at 1. unfold SalesRevenueReportLive.chartPoint at 1.
    unfold bind at 1. unfold getDocs, subMonths.
    destruct (orders_of h (fetches w) (currentDate s - i)) as [snapshot|] eqn:Hq.
    + rewrite aggregate_bucket. unfold ret at 1.
      set (pt := {| name := _; orders := _; revenue := _ |}).
      set (w1 := {| fetches := _; draws := _ |}).
      specialize (IH (acc ++ [pt]) w1).
      destruct (pushAll _ rest (acc ++ [pt]) w1) as [[cd|] w2].
      * destruct IH as (pts & -> & Hlen & Hall).
        exists (pt :: pts). split_and!.
        -- by rewrite <- app_assoc.
        -- simpl. by rewrite Hlen.
        -- intros [|j] i' Hj; simpl in Hj.
           ++ injection Hj as <-. exists pt, snapshot.
              rewrite Nat.add_0_r. subst pt. simpl. by split_and!.
           ++ destruct (Hall j i' Hj)
                as (pt' & snap & Hpt & Hsnap & Hname & Hord & Hrev).
              exists pt', snap. rewrite Nat.add_succ_r.
              subst w1. simpl in Hsnap. by split_and!.
      * destruct IH as (j & i' & Hj & Hnone).
        exists (S j), i'. rewrite Nat.add_succ_r.
        subst w1. simpl in Hnone. by split.
    + exists 0%nat, i. rewrite Nat.add_0_r. by split.
Qed.

(** X21. In the later revision of the report the chart holds nothing but
    fetched figures: when the six queries are answered, the six points are
    the number and the revenue sum of the orders fetched for their months,
    also for a month without orders, which is charted as 0 and 0; when one
    of the six queries is rejected, the chart is emptied. *)
Theorem live_chart_is_the_fetched_figures (s : State) (w : World) :
  let chart := chartData (SalesRevenueReportLive.fetchChartData h s w).1 in
  (chart = [] \/ length chart = 6%nat) /\
  ((forall (j : nat) i,
       lastSixMonths !! j = Some i ->
       is_Some (orders_of h (fetches w + j)%nat (currentDate s - i))) ->
   length chart = 6%nat /\
   forall (j : nat) i,
     lastSixMonths !! j = Some i ->
     exists pt snapshot,
       chart !! j = Some pt /\
       orders_of h (fetches w + j)%nat (currentDate s - i) = Some snapshot /\
       name pt = format_MMM h (currentDate s - i) /\
       orders pt = Z.of_nat (length snapshot) /\
       revenue pt = revenueSum snapshot) /\
  ((exists (j : nat) i,
       lastSixMonths !! j = Some i /\
       orders_of h (fetches w + j)%nat (currentDate s - i) = None) ->
   chart = []).
Proof.
  simpl. unfold SalesRevenueReportLive.fetchChartData.
  pose proof (live_points s lastSixMonths [] w) as Hrun.
  destruct (pushAll (SalesRevenueReportLive.chartPoint h s) lastSixMonths [] w)
    as [[cd|] w1]; simpl.
  - destruct Hrun as (pts & -> & Hlen & Hall). simpl.
    split_and!; [by right| |].
    + intros _. split; [done|]. exact Hall.
    + intros (j & i & Hj & Hnone).
      destruct (Hall j i Hj) as (pt & snap & _ & Hsome & _). congruence.
  - destruct Hrun as (j & i & Hj & Hnone).
    split_and!; [by left| |done].
    intros Hans. destruct (Hans j i Hj) as [snap Hsome]. congruence.
Qed.

End SalesReportLive.

(* ===================================================================== *)
(** * Financial dashboard: failure and closed form *)
(* ===================================================================== *)

Section FinancePage.

Import FinancialDashboard Estimates.
Local Open Scope Z_scope.

Variable h : Host.

Lemma estimate_points_names (s : State) (indices : list Z)
    (acc : list ChartData) (n : nat) (cd : list ChartData) (n' : nat) :
  pushAll (chartPoint h s) indices acc n = (Some cd, n') ->
  map c_name cd
  = map c_name acc ++ map (fun i => format_MMM h (currentDate s - i)) indices.
Proof.
  revert acc n. induction indices as [|i rest IH]; intros acc n; simpl.
  - intros [= <- _]. by rewrite app_nil_r.
  - unfold bind at 1. unfold chartPoint at 1. unfold bind at 1.
    unfold getDocs, subMonths.
    destruct (orders_of h n (currentDate s - i)) as [snapshot|]; [|done].
    destruct (totals snapshot) as [rev ship]. unfold ret at 1.
    intros Hrun. rewrite (IH _ _ Hrun), map_app. simpl.
    by rewrite <- app_assoc.
Qed.

Lemma fetchMonthlyData_financials (s : State) (n : nat)
    (snapshot : list Order) :
  orders_of h n (currentDate s) = Some snapshot ->
  financials (fetchMonthlyData h s n).1 = monthlyFinancials snapshot.
Proof.
  intros Hq. unfold fetchMonthlyData, getDocs. rewrite Hq.
  match goal with
  | |- context [fetchChartData h ?s2 ?n1] =>
      pose proof (fetchChartData_financials h s2 n1) as Hf;
      destruct (fetchChartData h s2 n1) as [s3 n2]
  end.
  simpl in *. by rewrite Hf.
Qed.

(** X22. The dashboard never shows a partly updated chart: after the
    effect the chart is either the one that was on the page or six fresh
    points labelled with the six months in order.  When the query for the
    selected month is rejected, the financial figures and the chart stay
    as they were.  In every case the spinner is switched off and the
    selected month is kept. *)
Theorem financial_chart_is_all_or_nothing (s : State) (n : nat) :
  let s' := (fetchMonthlyData h s n).1 in
  isLoading s' = false /\
  currentDate s' = currentDate s /\
  (orders_of h n (currentDate s) = None ->
   financials s' = financials s /\ chartData s' = chartData s) /\
  (chartData s' = chartData s \/
   (length (chartData s') = 6%nat /\
    map c_name (chartData s')
    = map (fun i => format_MMM h (currentDate s - i)) lastSixMonths)).
Proof.
  simpl. unfold fetchMonthlyData, getDocs.
  destruct (orders_of h n (currentDate s)) as [snapshot|]; simpl.
  - unfold fetchChartData.
    destruct (pushAll _ lastSixMonths [] (S n)) as [[cd|] n'] eqn:Hrun; simpl.
    + split_and!; [done|done|done|]. right.
      pose proof (estimate_points_names _ _ _ _ _ _ Hrun) as Hnames.
      simpl in Hnames. split; [|done].
      by rewrite <- (length_map c_name), Hnames.
    + split_and!; [done|done|done|by left].
  - split_and!; [done|done|done|by left].
Qed.

(** X23. The estimate in closed form: the gross profit is half of the sum
    of revenue and shipping fees, the net profit is 50000 less, and a month
    without orders shows a gross profit of 0 and a net profit of -50000. *)
Theorem gross_profit_is_half_of_revenue_plus_shipping (s : State) (n : nat)
    (snapshot : list Order) :
  orders_of h n (currentDate s) = Some snapshot ->
  let f := financials (fetchMonthlyData h s n).1 in
  (grossProfit f
   == (inject_Z (revenueOf snapshot) + inject_Z (shippingOf snapshot)) / 2)%Q /\
  (netProfit f == grossProfit f - 50000)%Q /\
  (netProfit f < grossProfit f)%Q /\
  (snapshot = [] -> (grossProfit f == 0)%Q /\ (netProfit f == -50000)%Q).
Proof.
  intros Hq. simpl. rewrite (fetchMonthlyData_financials s n snapshot Hq).
  unfold monthlyFinancials. rewrite totals_sums. simpl.
  assert (inject_Z (revenueOf snapshot - shippingOf snapshot)
          == inject_Z (revenueOf snapshot) - inject_Z (shippingOf snapshot))%Q
    as Hsub.
  { unfold Z.sub. by rewrite inject_Z_plus, inject_Z_opp. }
  split_and!.
  - rewrite Hsub. field.
  - reflexivity.
  - change (inject_Z 50000) with 50000%Q. lra.
  - intros ->. simpl. split; reflexivity.
Qed.

End FinancePage.

(* ===================================================================== *)
(** * Dashboard: customers and sales by category *)
(* ===================================================================== *)

Section Dashboard.

Import PosDashboard.
Local Open Scope Z_scope.





(** *** Sales by category *)









End Dashboard.

(* ===================================================================== *)
(** * Product list: categories and the category filter *)
(* ===================================================================== *)

Section ProductList.

Import PosProducts.
Local Open Scope Z_scope.

Lemma setOf_from (values set : list string) :
  NoDup set ->
  NoDup (fold_left
           (fun set value => if decide (value ∈ set) then set else set ++ [value])
           values set) /\
  forall x,
    x ∈ fold_left
          (fun set value => if decide (value ∈ set) then set else set ++ [value])
          values set
    <-> x ∈ set \/ x ∈ values.
Proof.
  revert set. induction values as [|v rest IH]; intros set Hnd; simpl.
  - split; [done|]. intros x. rewrite elem_of_nil. tauto.
  - case_decide as Hin.
    + destruct (IH set Hnd) as (Hnd' & Hall). split; [done|].
      intros x. rewrite Hall, elem_of_cons. split; [tauto|].
      intros [?|[->|?]]; tauto.
    + destruct (IH (set ++ [v])) as (Hnd' & Hall).
      { apply NoDup_app. split_and!; [done| |apply NoDup_singleton].
        intros x Hx Hx'. apply list_elem_of_singleton in Hx'. by subst. }
      split; [done|]. intros x.
      rewrite Hall, elem_of_app, list_elem_of_singleton, elem_of_cons. tauto.
Qed.

(** X26. The category select offers every category of the loaded
    products once, and nothing else but 'all'.  With an empty search,
    choosing an offered category lists exactly the products of that
    category, in the order of the loaded list, and at least one; choosing
    'all' lists every product. *)
Theorem category_select_matches_products (h : Host) (products : list Product) :
  NoDup (categoryOptions products) /\
  (forall c,
      c ∈ categoryOptions products <->
      c <> "all"%string /\ exists p, p ∈ products /\ category p = c) /\
  (forall c,
      c ∈ categoryOptions products ->
      filterProducts h "" c products <> [] /\
      forall p, p ∈ filterProducts h "" c products <->
                p ∈ products /\ category p = c) /\
  filterProducts h "" "all" products = products.
Proof.
  destruct (setOf_from (map category products) []) as (Hnd & Hall);
    [apply NoDup_nil_2|].
  fold (setOf (map category products)) in Hnd, Hall.
  assert (forall c,
             c ∈ categoryOptions products <->
             c <> "all"%string /\ exists p, p ∈ products /\ category p = c)
    as Hopt.
  { intros c. unfold categoryOptions, categories.
    rewrite elem_of_filter_list, negb_true_iff, bool_decide_eq_false.
    rewrite elem_of_cons, Hall, elem_of_nil, list_elem_of_fmap.
    split.
    - intros [[->|[[]|(p & -> & Hp)]] Hne]; [done|]. split; [done|]. by exists p.
    - intros [Hne (p & Hp & <-)]. split; [|done]. right. right. by exists p. }
  split_and!.
  - unfold categoryOptions, categories. simpl.
    apply NoDup_ListNoDup, List.NoDup_filter, NoDup_ListNoDup. done.
  - done.
  - intros c Hc. apply Hopt in Hc as [Hne (p & Hp & Hcat)].
    unfold filterProducts. simpl. rewrite decide_True by done.
    split.
    + intros Hnil.
      assert (p ∈ List.filter
                    (fun product => bool_decide (category product = c))
                    products) as Hin.
      { apply elem_of_filter_list. split; [done|]. by apply bool_decide_eq_true. }
      rewrite Hnil in Hin. by apply elem_of_nil in Hin.
    + intros q. rewrite elem_of_filter_list, bool_decide_eq_true. done.
  - done.
Qed.

End ProductList.

Section ReportPageSamples.

Import SalesRevenueReport Buckets SalesReportPage.
Local Open Scope Z_scope.

Lemma sample_random_is_fair : fair SampleReport.host.
Proof. intros n. split; reflexivity || discriminate. Defined.

Lemma chart_never_shows_an_empty_month_witness :
  Forall (fun pt => 1 <= orders pt)
         (chartData (fetchChartData SampleReport.host SampleReport.opened
                       SampleReport.world).1) /\
  (orders_of SampleReport.host (fetches SampleReport.world)
             (currentDate SampleReport.opened - 5) = None ->
   Forall placeholder
          (chartData (fetchChartData SampleReport.host SampleReport.opened
                        SampleReport.world).1)).
Proof.
  apply (chart_never_shows_an_empty_month SampleReport.host SampleReport.opened
           SampleReport.world).
  exact sample_random_is_fair.
Defined.

Lemma rejected_month_query_keeps_figures_witness :
  chartData (fetchMonthlyData SampleReportPage.offline SampleReport.opened
               SampleReport.world).1
  = chartData SampleReport.opened /\
  isLoading (fetchMonthlyData SampleReportPage.offline SampleReport.opened
               SampleReport.world).1 = false /\
  (totalOrders (salesData SampleReport.opened) <> 0 ->
   salesData (fetchMonthlyData SampleReportPage.offline SampleReport.opened
                SampleReport.world).1
   = salesData SampleReport.opened) /\
  (totalOrders (salesData SampleReport.opened) = 0 ->
   fair SampleReportPage.offline ->
   10 <= totalOrders
           (salesData (fetchMonthlyData SampleReportPage.offline
                         SampleReport.opened SampleReport.world).1) <= 59 /\
   100000 <= totalRevenue
               (salesData (fetchMonthlyData SampleReportPage.offline
                             SampleReport.opened SampleReport.world).1)
   <= 1099999).
Proof.
  apply (rejected_month_query_keeps_figures SampleReportPage.offline
           SampleReport.opened SampleReport.world).
  reflexivity.
Defined.

Lemma navigation_stays_within_current_month_witness :
  currentDate SampleReportPage.february <= SampleReport.march /\
  (nextDisabled SampleReport.march SampleReportPage.february = false ->
   currentDate (goToNextMonth SampleReportPage.february) <= SampleReport.march) /\
  currentDate (goToNextMonth (goToPreviousMonth SampleReportPage.february))
  = currentDate SampleReportPage.february.
Proof.
  apply (navigation_stays_within_current_month SampleReport.march
           SampleReportPage.february).
  apply browsing_previous. apply browsing_open. reflexivity.
Defined.

Lemma gross_profit_is_half_of_revenue_plus_shipping_witness :
  let f := FinancialDashboard.financials
             (FinancialDashboard.fetchMonthlyData SampleFinance.host
                SampleFinance.opened 0).1 in
  (FinancialDashboard.grossProfit f == (inject_Z 200000 + inject_Z 20000) / 2)%Q /\
  (FinancialDashboard.netProfit f == FinancialDashboard.grossProfit f - 50000)%Q /\
  (FinancialDashboard.netProfit f < FinancialDashboard.grossProfit f)%Q /\
  ([ {| FinancialDashboard.total_price := Some 120000;
        FinancialDashboard.shipping_fee := Some 20000 |};
     {| FinancialDashboard.total_price := Some 80000;
        FinancialDashboard.shipping_fee := None |} ] = [] ->
   (FinancialDashboard.grossProfit f == 0)%Q /\
   (FinancialDashboard.netProfit f == -50000)%Q).
Proof.
  apply (gross_profit_is_half_of_revenue_plus_shipping SampleFinance.host
           SampleFinance.opened 0
           [ {| FinancialDashboard.total_price := Some 120000;
                FinancialDashboard.shipping_fee := Some 20000 |};
             {| FinancialDashboard.total_price := Some 80000;
                FinancialDashboard.shipping_fee := None |} ]).
  reflexivity.
Defined.

End ReportPageSamples.
